(** * Gold-market analytical engine: a shallow embedding of the TypeScript
    services under [src/lib/services] and the properties of their
    specification.

    Numbers.  A JavaScript [number] is modelled by [num]: an exact rational
    or one of the IEEE special values [Infinity], [-Infinity], [NaN].
    Arithmetic on finite values is exact (rounding is not modelled); the
    special values appear exactly where the IEEE rules create them
    (division by zero, [Infinity - Infinity], [0 * Infinity]) and propagate
    as in JavaScript.  Zero is unsigned.

    Dates.  A [Date] is its number of milliseconds since the epoch (UTC).

    Persistence.  A Prisma table is the list of its rows; [findMany],
    [findUnique], [update] and [upsert] are list functions. *)

From Stdlib Require Import ZArith QArith Qabs Qround Lqa Lia.
From Stdlib Require Import List Bool String Ascii Permutation Sorted.
Import ListNotations.

Open Scope Q_scope.

(* ================================================================== *)
(** * JavaScript numbers *)
(* ================================================================== *)

Module JsNum.

Inductive num : Type :=
| Fin (q : Q)
| PInf
| NInf
| NaN.

Definition Qltb (a b : Q) : bool :=
  match a ?= b with Lt => true | _ => false end.

Definition Qleb (a b : Q) : bool :=
  match a ?= b with Gt => false | _ => true end.

Definition Qeqb (a b : Q) : bool :=
  match a ?= b with Eq => true | _ => false end.

(** [inf_of_sign c] is the infinity whose sign is that of a comparison with
    zero; [0 * Infinity] and [0 / 0] are [NaN]. *)
Definition inf_of_sign (c : comparison) : num :=
  match c with Gt => PInf | Lt => NInf | Eq => NaN end.

Definition nneg (a : num) : num :=
  match a with
  | Fin q => Fin (- q)
  | PInf => NInf
  | NInf => PInf
  | NaN => NaN
  end.

Definition nadd (a b : num) : num :=
  match a, b with
  | NaN, _ | _, NaN => NaN
  | Fin x, Fin y => Fin (x + y)
  | PInf, NInf | NInf, PInf => NaN
  | PInf, _ | _, PInf => PInf
  | NInf, _ | _, NInf => NInf
  end.

Definition nsub (a b : num) : num := nadd a (nneg b).

Definition nmul (a b : num) : num :=
  match a, b with
  | NaN, _ | _, NaN => NaN
  | Fin x, Fin y => Fin (x * y)
  | Fin x, PInf | PInf, Fin x => inf_of_sign (x ?= 0)
  | Fin x, NInf | NInf, Fin x => inf_of_sign (0 ?= x)
  | PInf, PInf | NInf, NInf => PInf
  | PInf, NInf | NInf, PInf => NInf
  end.

Definition ndiv (a b : num) : num :=
  match a, b with
  | NaN, _ | _, NaN => NaN
  | Fin x, Fin y =>
      if Qeqb y 0 then inf_of_sign (x ?= 0) else Fin (x / y)
  | Fin _, PInf | Fin _, NInf => Fin 0
  | PInf, Fin y => if Qltb y 0 then NInf else PInf
  | NInf, Fin y => if Qltb y 0 then PInf else NInf
  | PInf, PInf | PInf, NInf | NInf, PInf | NInf, NInf => NaN
  end.

Definition nabs (a : num) : num :=
  match a with
  | Fin q => Fin (Qabs q)
  | PInf | NInf => PInf
  | NaN => NaN
  end.

(** [a < b]; every comparison with [NaN] is [false]. *)
Definition nlt (a b : num) : bool :=
  match a, b with
  | NaN, _ | _, NaN => false
  | Fin x, Fin y => Qltb x y
  | NInf, NInf | PInf, _ | _, NInf => false
  | NInf, _ | _, PInf => true
  end.

Definition nle (a b : num) : bool :=
  match a, b with
  | NaN, _ | _, NaN => false
  | Fin x, Fin y => Qleb x y
  | NInf, _ | _, PInf => true
  | PInf, _ | _, NInf => false
  end.

Definition ngt (a b : num) : bool := nlt b a.
Definition nge (a b : num) : bool := nle b a.

(** [a === b] on numbers. *)
Definition num_eqb (a b : num) : bool :=
  match a, b with
  | Fin x, Fin y => Qeqb x y
  | PInf, PInf | NInf, NInf => true
  | _, _ => false
  end.

(** [Math.min] and [Math.max] of two arguments: [NaN] if either is. *)
Definition nmin (a b : num) : num :=
  match a, b with
  | NaN, _ | _, NaN => NaN
  | _, _ => if nle a b then a else b
  end.

Definition nmax (a b : num) : num :=
  match a, b with
  | NaN, _ | _, NaN => NaN
  | _, _ => if nle a b then b else a
  end.

(** [Math.min(...xs)] and [Math.max(...xs)]: the fold starts from
    [Infinity], respectively [-Infinity]. *)
Definition nmin_list (xs : list num) : num := fold_left nmin xs PInf.
Definition nmax_list (xs : list num) : num := fold_left nmax xs NInf.

(** [xs.reduce((a, b) => a + b, 0)]. *)
Definition nsum (xs : list num) : num := fold_left nadd xs (Fin 0).

(** Truthiness of a number: [0] and [NaN] are falsy. *)
Definition truthy (a : num) : bool :=
  match a with
  | Fin q => negb (Qeqb q 0)
  | PInf | NInf => true
  | NaN => false
  end.

(** Truthiness of [number | null]. *)
Definition truthy_opt (a : option num) : bool :=
  match a with Some x => truthy x | None => false end.

Definition is_finite (a : num) : Prop := exists q, a = Fin q.

Definition of_Z (z : Z) : num := Fin (inject_Z z).
Definition of_nat (n : nat) : num := of_Z (Z.of_nat n).


(** [lo <= a <= hi] for a finite [a]. *)
Definition within (lo hi : Q) (a : num) : Prop :=
  exists q, a = Fin q /\ lo <= q <= hi.

End JsNum.
Export JsNum.

Declare Scope num_scope.
Delimit Scope num_scope with num.
Bind Scope num_scope with num.
Infix "+" := nadd : num_scope.
Infix "-" := nsub : num_scope.
Infix "*" := nmul : num_scope.
Infix "/" := ndiv : num_scope.

Open Scope string_scope.
Open Scope list_scope.

(* ================================================================== *)
(** * Arrays, dates and query helpers *)
(* ================================================================== *)

Module Js.

(** [Array.prototype.slice(lo, hi)] for [0 <= lo]. *)
Definition slice {A : Type} (lo hi : nat) (l : list A) : list A :=
  firstn (hi - lo) (skipn lo l).

(** A stable insertion sort; [keep x y] tells that [x], which comes first
    in the input, stays in front of [y]. *)
Fixpoint insert_by {A : Type} (keep : A -> A -> bool) (x : A) (l : list A)
  : list A :=
  match l with
  | [] => [x]
  | y :: l' => if keep x y then x :: l else y :: insert_by keep x l'
  end.

Definition sort_by {A : Type} (keep : A -> A -> bool) (l : list A) : list A :=
  fold_right (insert_by keep) [] l.

(** [Array.prototype.sort(cmp)]: an element moves in front of an earlier one
    only when the comparator is negative ([NaN] is not). *)
Definition sort_cmp {A : Type} (cmp : A -> A -> num) (l : list A) : list A :=
  sort_by (fun x y => negb (nlt (cmp y x) (Fin 0))) l.

Definition msPerDay : Z := 86400000.

(** date-fns [differenceInDays(later, earlier)]: full days, truncated
    towards zero. *)
Definition differenceInDays (later earlier : Z) : Z :=
  Z.quot (later - earlier) msPerDay.

(** date-fns [subDays(d, n)]. *)
Definition subDays (d : Z) (n : Z) : Z := (d - n * msPerDay)%Z.

(** A Prisma range filter [{ gte?, lte? }] on a date column. *)
Definition in_range (gte lte : option Z) (d : Z) : bool :=
  match gte with Some lo => (lo <=? d)%Z | None => true end &&
  match lte with Some hi => (d <=? hi)%Z | None => true end.

(** [String.prototype.includes]. *)
Fixpoint includes (s sub : string) : bool :=
  if String.prefix sub s then true
  else match s with
       | EmptyString => false
       | String _ s' => includes s' sub
       end.

Definition lower_ascii (c : ascii) : ascii :=
  let n := nat_of_ascii c in
  if (65 <=? n)%nat && (n <=? 90)%nat then ascii_of_nat (n + 32) else c.

(** [String.prototype.toLowerCase] on ASCII text. *)
Fixpoint toLowerCase (s : string) : string :=
  match s with
  | EmptyString => EmptyString
  | String c s' => String (lower_ascii c) (toLowerCase s')
  end.

(** [Array.prototype.join]. *)
Fixpoint join (sep : string) (l : list string) : string :=
  match l with
  | [] => ""
  | [x] => x
  | x :: l' => x ++ sep ++ join sep l'
  end.

End Js.
Export Js.

(* ================================================================== *)
(** * The [goldPrice] table *)
(* ================================================================== *)

Module GoldPrice.

Record t : Type := mk {
  id : string;
  date : Z;
  closePrice : num;
  openPrice : option num;
  highPrice : option num;
  lowPrice : option num;
  volume : option num;
  dailyChange : option num;
  dailyChangePct : option num;
  volatility7d : option num;
  volatility30d : option num;
  sma20 : option num;
  sma50 : option num;
  sma200 : option num
}.

(** The [data] object of the [update] issued by the metrics pass. *)
Record derived : Type := mkDerived {
  d_dailyChange : option num;
  d_dailyChangePct : option num;
  d_volatility7d : option num;
  d_volatility30d : option num;
  d_sma20 : option num;
  d_sma50 : option num;
  d_sma200 : option num
}.

Definition set_derived (d : derived) (r : t) : t :=
  {| id := id r; date := date r; closePrice := closePrice r;
     openPrice := openPrice r; highPrice := highPrice r;
     lowPrice := lowPrice r; volume := volume r;
     dailyChange := d_dailyChange d;
     dailyChangePct := d_dailyChangePct d;
     volatility7d := d_volatility7d d;
     volatility30d := d_volatility30d d;
     sma20 := d_sma20 d; sma50 := d_sma50 d; sma200 := d_sma200 d |}.

Definition get_derived (r : t) : derived :=
  {| d_dailyChange := dailyChange r;
     d_dailyChangePct := dailyChangePct r;
     d_volatility7d := volatility7d r;
     d_volatility30d := volatility30d r;
     d_sma20 := sma20 r; d_sma50 := sma50 r; d_sma200 := sma200 r |}.

(** [findMany({ where: { date: { gte, lte } }, orderBy: { date: 'asc' } })]. *)
Definition findMany_asc (gte lte : option Z) (tbl : list t) : list t :=
  sort_by (fun a b => (date a <=? date b)%Z)
          (filter (fun r => in_range gte lte (date r)) tbl).

(** [findUnique({ where: { id } })]. *)
Definition findUnique (key : string) (tbl : list t) : option t :=
  find (fun r => String.eqb (id r) key) tbl.

(** [update({ where: { id }, data })]. *)
Definition update (key : string) (d : derived) (tbl : list t) : list t :=
  map (fun r => if String.eqb (id r) key then set_derived d r else r) tbl.

End GoldPrice.

(* ================================================================== *)
(** * [brain.ts]: the metrics pass of [CsvImportService] *)
(* ================================================================== *)

Module CsvImport.
Import GoldPrice.

Section Metrics.

(** [Math.sqrt], a primitive of the runtime. *)
Variable sqrt : num -> num.

(** [prices[j].closePrice]; the loops below only read indices of the
    array. *)
Definition close_at (prices : list GoldPrice.t) (j : nat) : num :=
  match nth_error prices j with
  | Some p => closePrice p
  | None => NaN
  end.

(** The body of the [for (let j = i - (w - 1); j <= i; j++)] loops: the
    day-over-day returns of the [w] days ending at [i]. *)
Definition returns_window (prices : list GoldPrice.t) (i w : nat) : list num :=
  map (fun j => ((close_at prices j - close_at prices (j - 1))
                   / close_at prices (j - 1))%num)
      (filter (fun j => (0 <? j)%nat) (seq (i - (w - 1)) w)).

Definition mean (xs : list num) : num :=
  (nsum xs / of_nat (List.length xs))%num.

Definition variance (xs : list num) : num :=
  let m := mean xs in
  (fold_left (fun a b => a + (b - m) * (b - m)) xs (Fin 0)
     / of_nat (List.length xs))%num.

Definition volatility (prices : list GoldPrice.t) (i w : nat) : option num :=
  if (w <=? i)%nat then
    let returns := returns_window prices i w in
    if (0 <? List.length returns)%nat
    then Some (sqrt (variance returns) * Fin 100)%num
    else None
  else None.

Definition sma (prices : list GoldPrice.t) (i n : nat) : option num :=
  if (n - 1 <=? i)%nat then
    Some (fold_left (fun a b => a + closePrice b)
                    (slice (i - (n - 1)) (i + 1) prices) (Fin 0)
            / of_nat n)%num
  else None.

(** The values computed for index [i] of the date-ordered series. *)
Definition derived_at (prices : list GoldPrice.t) (i : nat) : derived :=
  let current := close_at prices i in
  let prev := match i with O => None | S k => Some (close_at prices k) end in
  {| d_dailyChange :=
       match prev with
       | Some p => Some (current - p)%num
       | None => None
       end;
     d_dailyChangePct :=
       match prev with
       | Some p =>
           if negb (num_eqb p (Fin 0))
           then Some (((current - p) / p) * Fin 100)%num
           else None
       | None => None
       end;
     d_volatility7d := volatility prices i 7;
     d_volatility30d := volatility prices i 30;
     d_sma20 := sma prices i 20;
     d_sma50 := sma prices i 50;
     d_sma200 := sma prices i 200 |}.

(** The [for (let i = 0; i < prices.length; i++)] loop: [rest] is what
    remains of [prices] from index [i] on, [tbl] the table, [updated] the
    counter. *)
Fixpoint metrics_loop (prices rest : list GoldPrice.t) (i : nat)
         (tbl : list GoldPrice.t) (updated : nat) : list GoldPrice.t * nat :=
  match rest with
  | [] => (tbl, updated)
  | current :: rest' =>
      metrics_loop prices rest' (S i)
                   (GoldPrice.update (id current) (derived_at prices i) tbl)
                   (S updated)
  end.

Definition calculateDerivedMetrics (tbl : list GoldPrice.t)
  : list GoldPrice.t * nat :=
  let prices := findMany_asc None None tbl in
  metrics_loop prices prices 0 tbl 0.

End Metrics.
End CsvImport.

(* ================================================================== *)
(** * [brain.ts]: the swing finder of [BrainService] *)
(* ================================================================== *)

Module Brain.
Import GoldPrice.

Inductive direction : Type := up | down.

(** The optional [direction] argument of [findSwings]. *)
Inductive direction_filter : Type := only (d : direction) | both.

Definition direction_eqb (a b : direction) : bool :=
  match a, b with
  | up, up | down, down => true
  | _, _ => false
  end.

Record SwingResult : Type := mkSwing {
  startDate : Z;
  endDate : Z;
  startPrice : num;
  endPrice : num;
  changePercent : num;
  changeAbsolute : num;
  durationDays : Z;
  swing_direction : direction
}.

(** [!direction || direction === 'both' || direction === swingDirection]. *)
Definition direction_ok (f : option direction_filter) (d : direction) : bool :=
  match f with
  | None | Some both => true
  | Some (only d') => direction_eqb d' d
  end.

Definition pct_change (from_ to : num) : num :=
  (((to - from_) / from_) * Fin 100)%num.

(** Body of the first loop, for the adjacent pair [prev], [curr]. *)
Definition single_day (absThreshold : num) (f : option direction_filter)
           (prev curr : GoldPrice.t) : list SwingResult :=
  let changePct := pct_change (closePrice prev) (closePrice curr) in
  if nge (nabs changePct) absThreshold then
    let swingDirection := if ngt changePct (Fin 0) then up else down in
    if direction_ok f swingDirection then
      [ {| startDate := date prev; endDate := date curr;
           startPrice := closePrice prev; endPrice := closePrice curr;
           changePercent := changePct;
           changeAbsolute := (closePrice curr - closePrice prev)%num;
           durationDays := 1;
           swing_direction := swingDirection |} ]
    else []
  else [].

Fixpoint single_day_scan (absThreshold : num) (f : option direction_filter)
         (prices : list GoldPrice.t) : list SwingResult :=
  match prices with
  | prev :: ((curr :: _) as rest) =>
      single_day absThreshold f prev curr
        ++ single_day_scan absThreshold f rest
  | _ => []
  end.

(** The variables of the second loop. *)
Record trend_state : Type := mkTrend {
  trendStart : nat;
  currentDirection : option direction;
  emitted : list SwingResult
}.

Definition dayDirection (prev curr : GoldPrice.t) : direction :=
  if ngt (closePrice curr) (closePrice prev) then up else down.

(** The swing pushed when the run from [startPrice] to [endPrice] is closed,
    if any. *)
Definition close_run (absThreshold : num) (f : option direction_filter)
           (startPrice endPrice : GoldPrice.t) : list SwingResult :=
  let changePct := pct_change (closePrice startPrice) (closePrice endPrice) in
  if nge (nabs changePct) absThreshold then
    let swingDirection := if ngt changePct (Fin 0) then up else down in
    if direction_ok f swingDirection then
      let days := differenceInDays (date endPrice) (date startPrice) in
      if (1 <? days)%Z then
        [ {| startDate := date startPrice; endDate := date endPrice;
             startPrice := closePrice startPrice;
             endPrice := closePrice endPrice;
             changePercent := changePct;
             changeAbsolute :=
               (closePrice endPrice - closePrice startPrice)%num;
             durationDays := days;
             swing_direction := swingDirection |} ]
      else []
    else []
  else [].

(** One iteration of the second loop, at index [i >= 1]. *)
Definition trend_step (absThreshold : num) (f : option direction_filter)
           (prices : list GoldPrice.t) (i : nat) (st : trend_state)
  : trend_state :=
  match nth_error prices (i - 1), nth_error prices i with
  | Some prev, Some curr =>
      let day := dayDirection prev curr in
      match currentDirection st with
      | None =>
          {| trendStart := trendStart st; currentDirection := Some day;
             emitted := emitted st |}
      | Some current =>
          if negb (direction_eqb day current) then
            match nth_error prices (trendStart st) with
            | Some startPrice =>
                {| trendStart := i - 1; currentDirection := Some day;
                   emitted := emitted st
                                ++ close_run absThreshold f startPrice prev |}
            | None => st
            end
          else st
      end
  | _, _ => st
  end.

Definition trend_init : trend_state :=
  {| trendStart := 0; currentDirection := None; emitted := [] |}.

(** The state after the iterations [i = 1 .. upto]. *)
Definition trend_scan (absThreshold : num) (f : option direction_filter)
           (prices : list GoldPrice.t) (upto : nat) : trend_state :=
  fold_left (fun st i => trend_step absThreshold f prices i st)
            (seq 1 upto) trend_init.

Definition findSwings (minSwingPercent : num) (startDate endDate : option Z)
           (f : option direction_filter) (tbl : list GoldPrice.t)
  : list SwingResult :=
  let prices := findMany_asc startDate endDate tbl in
  let absThreshold := nabs minSwingPercent in
  let swings :=
    single_day_scan absThreshold f prices
      ++ emitted (trend_scan absThreshold f prices (List.length prices - 1)) in
  sort_cmp (fun a b => (nabs (changePercent b) - nabs (changePercent a))%num)
           swings.

End Brain.

(* ================================================================== *)
(** * [patternDetector.ts] *)
(* ================================================================== *)

Module PatternDetector.
Import GoldPrice.

Record DetectedPattern : Type := mkPattern {
  patternType : string;
  startDate : Z;
  endDate : Z;
  startPriceId : string;
  confidence : num;
  predictedMove : num;
  details : string
}.

Section Detectors.

(** [Math.sqrt] and [Number.prototype.toFixed], primitives of the runtime,
    and the decimal rendering of an integer in a template literal. *)
Variable sqrt : num -> num.
Variable toFixed : num -> nat -> string.
Variable showInt : Z -> string.

(** Body of the loop of [detectCrossPatterns] for the adjacent pair. *)
Definition cross_at (prev curr : GoldPrice.t) : list DetectedPattern :=
  match sma50 prev, sma200 prev, sma50 curr, sma200 curr with
  | Some p50, Some p200, Some c50, Some c200 =>
      if truthy p50 && truthy p200 && truthy c50 && truthy c200 then
        (if nle p50 p200 && ngt c50 c200 then
           [ {| patternType := "golden_cross";
                startDate := date curr; endDate := date curr;
                startPriceId := id curr;
                confidence := Fin 0.85; predictedMove := Fin 5;
                details := "SMA50 (" ++ toFixed c50 2
                             ++ ") crossed above SMA200 ("
                             ++ toFixed c200 2 ++ ")" |} ]
         else [])
        ++
        (if nge p50 p200 && nlt c50 c200 then
           [ {| patternType := "death_cross";
                startDate := date curr; endDate := date curr;
                startPriceId := id curr;
                confidence := Fin 0.85; predictedMove := Fin (-5);
                details := "SMA50 (" ++ toFixed c50 2
                             ++ ") crossed below SMA200 ("
                             ++ toFixed c200 2 ++ ")" |} ]
         else [])
      else []
  | _, _, _, _ => []
  end.

Fixpoint detectCrossPatterns (prices : list GoldPrice.t)
  : list DetectedPattern :=
  match prices with
  | prev :: ((curr :: _) as rest) =>
      cross_at prev curr ++ detectCrossPatterns rest
  | _ => []
  end.

Definition lookback : nat := 20.

Definition windowHigh (prices : list GoldPrice.t) (i : nat) : num :=
  nmax_list (map closePrice (slice (i - lookback) i prices)).

Definition windowLow (prices : list GoldPrice.t) (i : nat) : num :=
  nmin_list (map closePrice (slice (i - lookback) i prices)).

(** Body of the loop of [detectBreakouts] at index [i]. *)
Definition breakouts_at (prices : list GoldPrice.t) (i : nat)
  : list DetectedPattern :=
  match nth_error prices i with
  | None => []
  | Some curr =>
      let high := windowHigh prices i in
      let low := windowLow prices i in
      let windowRange := (high - low)%num in
      match dailyChangePct curr, volatility7d curr with
      | Some pct, Some vol =>
          if truthy pct && truthy vol then
            (if ngt (closePrice curr) high && ngt pct (Fin 1.5) then
               let breakoutStrength :=
                 ((closePrice curr - high) / windowRange * Fin 100)%num in
               [ {| patternType := "breakout_up";
                    startDate := date curr; endDate := date curr;
                    startPriceId := id curr;
                    confidence :=
                      nmin (Fin 0.9) (Fin 0.5 + breakoutStrength / Fin 100)%num;
                    predictedMove :=
                      nmin (Fin 8) (Fin 2 + breakoutStrength / Fin 10)%num;
                    details := "Price broke above " ++ showInt 20
                                 ++ "-day high of " ++ toFixed high 2
                                 ++ " with " ++ toFixed pct 2 ++ "% gain" |} ]
             else [])
            ++
            (if nlt (closePrice curr) low && nlt pct (Fin (-1.5)) then
               let breakoutStrength :=
                 ((low - closePrice curr) / windowRange * Fin 100)%num in
               [ {| patternType := "breakout_down";
                    startDate := date curr; endDate := date curr;
                    startPriceId := id curr;
                    confidence :=
                      nmin (Fin 0.9) (Fin 0.5 + breakoutStrength / Fin 100)%num;
                    predictedMove :=
                      nneg (nmin (Fin 8)
                                 (Fin 2 + breakoutStrength / Fin 10)%num);
                    details := "Price broke below " ++ showInt 20
                                 ++ "-day low of " ++ toFixed low 2
                                 ++ " with " ++ toFixed (nabs pct) 2
                                 ++ "% loss" |} ]
             else [])
          else []
      | _, _ => []
      end
  end.

Definition detectBreakouts (prices : list GoldPrice.t)
  : list DetectedPattern :=
  flat_map (breakouts_at prices)
           (seq lookback (List.length prices - lookback)).

Definition spike_at (avgVolatility stdVolatility threshold : num)
           (price : GoldPrice.t) : list DetectedPattern :=
  match volatility7d price with
  | Some v =>
      if ngt v threshold then
        [ {| patternType := "high_volatility_spike";
             startDate := date price; endDate := date price;
             startPriceId := id price;
             confidence :=
               nmin (Fin 0.9)
                    (Fin 0.5 + (v - threshold) / stdVolatility * Fin 0.1)%num;
             predictedMove := Fin 0;
             details := "Volatility " ++ toFixed v 2 ++ "% is "
                          ++ toFixed ((v - avgVolatility) / stdVolatility)%num 1
                          ++ " std devs above average" |} ]
      else []
  | None => []
  end.

Definition detectVolatilitySpikes (prices : list GoldPrice.t)
  : list DetectedPattern :=
  let volatilities :=
    flat_map (fun p => match volatility7d p with
                       | Some v => [v]
                       | None => []
                       end) prices in
  if (List.length volatilities =? 0)%nat then []
  else
    let n := of_nat (List.length volatilities) in
    let avgVolatility := (nsum volatilities / n)%num in
    let stdVolatility :=
      sqrt (fold_left
              (fun a b => a + (b - avgVolatility) * (b - avgVolatility))
              volatilities (Fin 0) / n)%num in
    let threshold := (avgVolatility + Fin 2 * stdVolatility)%num in
    flat_map (spike_at avgVolatility stdVolatility threshold) prices.

Definition tolerance : num := Fin 0.02.

(** [xs.every(p => p.closePrice < curr)] and its mirror. *)
Definition all_below (curr : num) (xs : list GoldPrice.t) : bool :=
  forallb (fun p => nlt (closePrice p) curr) xs.

Definition all_above (curr : num) (xs : list GoldPrice.t) : bool :=
  forallb (fun p => ngt (closePrice p) curr) xs.

Definition isMax (prices : list GoldPrice.t) (i : nat) (curr : num) : bool :=
  all_below curr (slice (i - 2) i prices)
  && all_below curr (slice (i + 1) (i + 3) prices).

Definition isMin (prices : list GoldPrice.t) (i : nat) (curr : num) : bool :=
  all_above curr (slice (i - 2) i prices)
  && all_above curr (slice (i + 1) (i + 3) prices).

(** The [maxima] (respectively [minima]) array: index and row of each
    local extremum, for [i = 2 .. length - 3]. *)
Definition extrema (test : list GoldPrice.t -> nat -> num -> bool)
           (prices : list GoldPrice.t) : list (nat * GoldPrice.t) :=
  flat_map (fun i => match nth_error prices i with
                     | Some p => if test prices i (closePrice p)
                                 then [(i, p)] else []
                     | None => []
                     end)
           (seq 2 (List.length prices - 4)).

(** The pairs [(xs[i], xs[j])], [i < j], in the order of the nested loops. *)
Fixpoint pairs {A : Type} (xs : list A) : list (A * A) :=
  match xs with
  | [] => []
  | x :: rest => map (pair x) rest ++ pairs rest
  end.

Definition double_top_at (prices : list GoldPrice.t)
           (pr : (nat * GoldPrice.t) * (nat * GoldPrice.t))
  : list DetectedPattern :=
  let '((i1, first), (i2, second)) := pr in
  let daysBetween := differenceInDays (date second) (date first) in
  if (daysBetween <? 10)%Z || (60 <? daysBetween)%Z then []
  else
    let priceDiff :=
      (nabs (closePrice first - closePrice second) / closePrice first)%num in
    if nle priceDiff tolerance then
      let valley := nmin_list (map closePrice (slice i1 (i2 + 1) prices)) in
      let avgPeak := ((closePrice first + closePrice second) / Fin 2)%num in
      let depth := ((avgPeak - valley) / avgPeak)%num in
      if nge depth (Fin 0.03) then
        [ {| patternType := "double_top";
             startDate := date first; endDate := date second;
             startPriceId := id first;
             confidence := nmin (Fin 0.85) (Fin 0.5 + depth * Fin 5)%num;
             predictedMove := nneg (nmin (Fin 8) (depth * Fin 100)%num);
             details := "Double top at ~" ++ toFixed avgPeak 2 ++ " with "
                          ++ toFixed (depth * Fin 100)%num 1
                          ++ "% valley over " ++ showInt daysBetween
                          ++ " days" |} ]
      else []
    else [].

Definition double_bottom_at (prices : list GoldPrice.t)
           (pr : (nat * GoldPrice.t) * (nat * GoldPrice.t))
  : list DetectedPattern :=
  let '((i1, first), (i2, second)) := pr in
  let daysBetween := differenceInDays (date second) (date first) in
  if (daysBetween <? 10)%Z || (60 <? daysBetween)%Z then []
  else
    let priceDiff :=
      (nabs (closePrice first - closePrice second) / closePrice first)%num in
    if nle priceDiff tolerance then
      let peak := nmax_list (map closePrice (slice i1 (i2 + 1) prices)) in
      let avgTrough := ((closePrice first + closePrice second) / Fin 2)%num in
      let height := ((peak - avgTrough) / avgTrough)%num in
      if nge height (Fin 0.03) then
        [ {| patternType := "double_bottom";
             startDate := date first; endDate := date second;
             startPriceId := id first;
             confidence := nmin (Fin 0.85) (Fin 0.5 + height * Fin 5)%num;
             predictedMove := nmin (Fin 8) (height * Fin 100)%num;
             details := "Double bottom at ~" ++ toFixed avgTrough 2
                          ++ " with " ++ toFixed (height * Fin 100)%num 1
                          ++ "% peak over " ++ showInt daysBetween
                          ++ " days" |} ]
      else []
    else [].

Definition detectDoublePatterns (prices : list GoldPrice.t)
  : list DetectedPattern :=
  flat_map (double_top_at prices) (pairs (extrema isMax prices))
  ++ flat_map (double_bottom_at prices) (pairs (extrema isMin prices)).

Definition detectPatterns (startDate endDate : option Z)
           (tbl : list GoldPrice.t) : list DetectedPattern :=
  let prices := findMany_asc startDate endDate tbl in
  if (List.length prices <? 30)%nat then []
  else
    sort_cmp (fun a b => (confidence b - confidence a)%num)
             (detectCrossPatterns prices
                ++ detectBreakouts prices
                ++ detectVolatilitySpikes prices
                ++ detectDoublePatterns prices).

End Detectors.
End PatternDetector.

(* ================================================================== *)
(** * The [newsArticle] and [newsQuantification] tables *)
(* ================================================================== *)

Module NewsArticle.

Record t : Type := mk {
  id : string;
  title : string;
  text : string;
  category : option string;
  sentiment : option num;
  publishedAt : Z
}.

Definition findUnique (key : string) (tbl : list t) : option t :=
  find (fun r => String.eqb (id r) key) tbl.

End NewsArticle.

Module NewsQuantification.

Record t : Type := mk {
  id : string;
  newsArticleId : string;
  goldPriceId : string;
  impactScore : num;
  confidenceScore : num;
  lagDays : Z;
  impactCategory : option string;
  reasoning : option string;
  humanVerified : bool;
  humanScore : option num;
  humanFeedback : option string;
  verifiedAt : option Z;
  verifiedBy : option string;
  createdAt : Z
}.

(** The compound unique key [newsArticleId_goldPriceId]. *)
Definition has_pair (article price : string) (r : t) : bool :=
  String.eqb (newsArticleId r) article && String.eqb (goldPriceId r) price.

(** The columns that the [update] branch of the quantifier's upsert does
    not list: everything but [impactScore], [confidenceScore], [lagDays],
    [impactCategory] and [reasoning]. *)
Definition frame (r : t)
  : string * string * string * bool * option num * option string
    * option Z * option string * Z :=
  (id r, newsArticleId r, goldPriceId r, humanVerified r, humanScore r,
   humanFeedback r, verifiedAt r, verifiedBy r, createdAt r).

End NewsQuantification.

(** The result of a call that may throw. *)
Inductive outcome (A : Type) : Type :=
| Returned (a : A)
| Thrown (message : string).
Arguments Returned {A} a.
Arguments Thrown {A} message.

(* ================================================================== *)
(** * [quantifier.ts] *)
(* ================================================================== *)

Module Quantifier.

Definition CATEGORY_WEIGHTS : list (string * (num * num)) :=
  [ ("inflation", (Fin 0.7, Fin 1.2));
    ("interest_rates", (Fin 0.8, Fin 1.3));
    ("currency", (Fin 0.6, Fin 1.1));
    ("geopolitics", (Fin 0.9, Fin 1.5));
    ("economy", (Fin 0.5, Fin 1.0));
    ("demand", (Fin 0.6, Fin 1.0));
    ("supply", (Fin 0.5, Fin 0.9));
    ("general", (Fin 0.3, Fin 0.8)) ].

Definition baseImpact (w : num * num) : num := fst w.
Definition volatilityMultiplier (w : num * num) : num := snd w.

Definition weights_general : num * num := (Fin 0.3, Fin 0.8).

(** [CATEGORY_WEIGHTS] is an object literal: besides its eight own keys it
    answers to the properties it inherits from [Object.prototype]. *)
Definition Object_prototype : list string :=
  [ "constructor"; "__defineGetter__"; "__defineSetter__"; "hasOwnProperty";
    "__lookupGetter__"; "__lookupSetter__"; "isPrototypeOf";
    "propertyIsEnumerable"; "toString"; "valueOf"; "__proto__";
    "toLocaleString" ].

Definition inherited (key : string) : bool :=
  existsb (String.eqb key) Object_prototype.

(** What an inherited property offers as weights: it is a function (the
    prototype itself for [__proto__]), hence truthy, and its [baseImpact]
    and [volatilityMultiplier] are [undefined], which is [NaN] in each of
    the arithmetic expressions that read them. *)
Definition weights_undefined : num * num := (NaN, NaN).

(** [CATEGORY_WEIGHTS[category] || CATEGORY_WEIGHTS.general]: an own key
    gives its entry, an inherited one the truthy member of the prototype,
    and only a key found nowhere falls back to [general]. *)
Definition weights_of (category : string) : num * num :=
  match find (fun kv => String.eqb (fst kv) category) CATEGORY_WEIGHTS with
  | Some kv => snd kv
  | None => if inherited category then weights_undefined else weights_general
  end.

Definition SENTIMENT_KEYWORDS_bullish : list string :=
  [ "gold rises"; "gold gains"; "gold rally"; "gold surges";
    "safe haven demand"; "inflation fears"; "rate cut"; "dovish";
    "uncertainty"; "crisis"; "war"; "dollar weakens"; "stimulus";
    "debt concerns"; "recession fears"; "central bank buying";
    "gold demand"; "etf inflows" ].

Definition SENTIMENT_KEYWORDS_bearish : list string :=
  [ "gold falls"; "gold drops"; "gold declines"; "gold tumbles"; "risk-on";
    "rate hike"; "hawkish"; "strong economy"; "dollar strength";
    "dollar rally"; "inflation eases"; "recovery"; "stock rally";
    "bond yields rise"; "etf outflows"; "profit taking" ].

Inductive sentiment : Type := bullish | bearish | neutral.

Definition sentiment_name (s : sentiment) : string :=
  match s with
  | bullish => "bullish"
  | bearish => "bearish"
  | neutral => "neutral"
  end.

Record analysis : Type := mkAnalysis {
  a_sentiment : sentiment;
  a_confidence : num;
  a_keywords : list string
}.

(** The keywords of [kws] found in [fullText]. *)
Definition matched (fullText : string) (kws : list string) : list string :=
  filter (fun keyword => includes fullText (toLowerCase keyword)) kws.

Definition analyzeArticleImpact (article : NewsArticle.t) : analysis :=
  let fullText :=
    toLowerCase
      (NewsArticle.title article ++ " " ++ NewsArticle.text article)%string in
  let bull := matched fullText SENTIMENT_KEYWORDS_bullish in
  let bear := matched fullText SENTIMENT_KEYWORDS_bearish in
  let bullishCount := List.length bull in
  let bearishCount := List.length bear in
  let matchedKeywords := bull ++ bear in
  let totalMatches := (bullishCount + bearishCount)%nat in
  if (totalMatches =? 0)%nat then
    {| a_sentiment := neutral; a_confidence := Fin 0.3; a_keywords := [] |}
  else
    let confidence :=
      nmin (Fin 0.9) (Fin 0.3 + of_nat totalMatches * Fin 0.1)%num in
    if (bearishCount <? bullishCount)%nat then
      {| a_sentiment := bullish; a_confidence := confidence;
         a_keywords := matchedKeywords |}
    else if (bullishCount <? bearishCount)%nat then
      {| a_sentiment := bearish; a_confidence := confidence;
         a_keywords := matchedKeywords |}
    else
      {| a_sentiment := neutral; a_confidence := (confidence * Fin 0.5)%num;
         a_keywords := matchedKeywords |}.

Record QuantificationResult : Type := mkResult {
  newsArticleId : string;
  goldPriceId : string;
  impactScore : num;
  confidenceScore : num;
  lagDays : Z;
  impactCategory : string;
  reasoning : string
}.

(** [article.category || 'general']: [null] and the empty string are
    falsy. *)
Definition category_or_general (c : option string) : string :=
  match c with
  | Some s => if String.eqb s "" then "general" else s
  | None => "general"
  end.

Definition dquote : string := String (ascii_of_nat 34) EmptyString.

Section Service.

(** [Number.prototype.toFixed] and the decimal rendering of an integer in a
    template literal, primitives of the runtime. *)
Variable toFixed : num -> nat -> string.
Variable showInt : Z -> string.

Definition generateReasoning (article : NewsArticle.t)
           (priceData : GoldPrice.t) (an : analysis)
           (impactScore : num) (lagDays : Z) : string :=
  let direction :=
    if ngt impactScore (Fin 0) then "bullish"
    else if nlt impactScore (Fin 0) then "bearish" else "neutral" in
  let magnitude :=
    if ngt (nabs impactScore) (Fin 50) then "strong"
    else if ngt (nabs impactScore) (Fin 25) then "moderate" else "weak" in
  let r0 : string :=
    ("Article " ++ dquote
       ++ String.substring 0 50 (NewsArticle.title article)
       ++ "..." ++ dquote ++ " classified as "
       ++ category_or_general (NewsArticle.category article) ++ ". ")%string in
  let r1 : string :=
    (r0 ++ "Sentiment analysis: " ++ sentiment_name (a_sentiment an)
        ++ " (confidence: " ++ toFixed (a_confidence an * Fin 100)%num 0
        ++ "%). ")%string in
  let r2 : string :=
    if (0 <? List.length (a_keywords an))%nat
    then (r1 ++ "Key terms: " ++ join ", " (slice 0 3 (a_keywords an))
             ++ ". ")%string
    else r1 in
  let r3 : string :=
    (r2 ++ "Impact assessment: " ++ magnitude ++ " " ++ direction
        ++ " (score: " ++ toFixed impactScore 1 ++ "). ")%string in
  let r4 : string :=
    if (0 <? lagDays)%Z
    then (r3 ++ "Published " ++ showInt lagDays
             ++ " day(s) before price date. ")%string
    else r3 in
  match GoldPrice.dailyChangePct priceData with
  | Some pct =>
      (r4 ++ "Actual price moved "
          ++ (if ngt pct (Fin 0) then "up" else "down")
          ++ " " ++ toFixed (nabs pct) 2 ++ "%.")%string
  | None => r4
  end.

(** The score of [calculateImpactScore] before the lag decay is applied. *)
Definition raw_impact (an : analysis) (weights : num * num)
           (priceData : GoldPrice.t) : num :=
  let s0 :=
    match a_sentiment an with
    | bullish => (baseImpact weights * Fin 50 * a_confidence an)%num
    | bearish => (nneg (baseImpact weights) * Fin 50 * a_confidence an)%num
    | neutral => Fin 0
    end in
  match GoldPrice.dailyChangePct priceData with
  | Some pct =>
      let priceDirection := if ngt pct (Fin 0) then 1%Z else (-1)%Z in
      let sentimentDirection :=
        match a_sentiment an with
        | bullish => 1%Z
        | bearish => (-1)%Z
        | neutral => 0%Z
        end in
      let s1 :=
        if (priceDirection =? sentimentDirection)%Z
           && negb (sentimentDirection =? 0)%Z
        then (s0 * (Fin 1 + nabs pct / Fin 100))%num
        else s0 in
      match GoldPrice.volatility7d priceData with
      | Some vol =>
          (s1 * (Fin 1 + (vol * volatilityMultiplier weights) / Fin 100))%num
      | None => s1
      end
  | None => s0
  end.

Definition lagDecay (lagDays : Z) : num :=
  nmax (Fin 0.2) (Fin 1 - of_Z lagDays * Fin 0.15)%num.

(** The computation of [calculateImpactScore] once both rows are found. *)
Definition score_pair (article : NewsArticle.t) (priceData : GoldPrice.t)
  : QuantificationResult :=
  let lagDays :=
    differenceInDays (GoldPrice.date priceData)
                     (NewsArticle.publishedAt article) in
  let an := analyzeArticleImpact article in
  let category := category_or_general (NewsArticle.category article) in
  let weights := weights_of category in
  let decay := lagDecay lagDays in
  let impactScore :=
    nmax (Fin (-100))
         (nmin (Fin 100) (raw_impact an weights priceData * decay)%num) in
  {| newsArticleId := NewsArticle.id article;
     goldPriceId := GoldPrice.id priceData;
     impactScore := impactScore;
     confidenceScore := (a_confidence an * decay)%num;
     lagDays := lagDays;
     impactCategory := category;
     reasoning :=
       generateReasoning article priceData an impactScore lagDays |}.

Definition calculateImpactScore (articles : list NewsArticle.t)
           (prices : list GoldPrice.t) (newsArticleId goldPriceId : string)
  : outcome QuantificationResult :=
  match NewsArticle.findUnique newsArticleId articles,
        GoldPrice.findUnique goldPriceId prices with
  | Some article, Some priceData => Returned (score_pair article priceData)
  | _, _ => Thrown "Article or price data not found"
  end.

(** The three tables the service reads and writes. *)
Record Db : Type := mkDb {
  goldPrices : list GoldPrice.t;
  newsArticles : list NewsArticle.t;
  newsQuantifications : list NewsQuantification.t
}.

(** The generator of the [id] column of a created row. *)
Variable newId : list NewsQuantification.t -> string.

(** The [update] branch of the upsert: the five listed columns are
    written, the others are left as they are. *)
Definition apply_update (r : QuantificationResult)
           (q : NewsQuantification.t) : NewsQuantification.t :=
  {| NewsQuantification.id := NewsQuantification.id q;
     NewsQuantification.newsArticleId := NewsQuantification.newsArticleId q;
     NewsQuantification.goldPriceId := NewsQuantification.goldPriceId q;
     NewsQuantification.impactScore := impactScore r;
     NewsQuantification.confidenceScore := confidenceScore r;
     NewsQuantification.lagDays := lagDays r;
     NewsQuantification.impactCategory := Some (impactCategory r);
     NewsQuantification.reasoning := Some (reasoning r);
     NewsQuantification.humanVerified := NewsQuantification.humanVerified q;
     NewsQuantification.humanScore := NewsQuantification.humanScore q;
     NewsQuantification.humanFeedback := NewsQuantification.humanFeedback q;
     NewsQuantification.verifiedAt := NewsQuantification.verifiedAt q;
     NewsQuantification.verifiedBy := NewsQuantification.verifiedBy q;
     NewsQuantification.createdAt := NewsQuantification.createdAt q |}.

(** Modelled from the spec: the Prisma schema, which holds the column
    defaults of a created row, is not among the sources; the feedback
    columns of a new row are unset ([humanVerified] false, the others
    null), as the data model of the specification describes them. *)
Definition create_row (now : Z) (tbl : list NewsQuantification.t)
           (article price : string) (r : QuantificationResult)
  : NewsQuantification.t :=
  {| NewsQuantification.id := newId tbl;
     NewsQuantification.newsArticleId := article;
     NewsQuantification.goldPriceId := price;
     NewsQuantification.impactScore := impactScore r;
     NewsQuantification.confidenceScore := confidenceScore r;
     NewsQuantification.lagDays := lagDays r;
     NewsQuantification.impactCategory := Some (impactCategory r);
     NewsQuantification.reasoning := Some (reasoning r);
     NewsQuantification.humanVerified := false;
     NewsQuantification.humanScore := None;
     NewsQuantification.humanFeedback := None;
     NewsQuantification.verifiedAt := None;
     NewsQuantification.verifiedBy := None;
     NewsQuantification.createdAt := now |}.

(** [newsQuantification.upsert({ where: { newsArticleId_goldPriceId },
    update, create })]. *)
Definition upsert (now : Z) (article price : string)
           (r : QuantificationResult) (tbl : list NewsQuantification.t)
  : list NewsQuantification.t :=
  if existsb (NewsQuantification.has_pair article price) tbl then
    map (fun q => if NewsQuantification.has_pair article price q
                  then apply_update r q else q) tbl
  else tbl ++ [create_row now tbl article price r].

(** The loop variables of [quantifyNewsForPeriod]. *)
Record batch : Type := mkBatch {
  table : list NewsQuantification.t;
  quantified : nat;
  errors : nat
}.

(** Body of the inner loop: the [try] block and its [catch]. *)
Definition quantify_one (now : Z) (db : Db) (price : GoldPrice.t)
           (st : batch) (article : NewsArticle.t) : batch :=
  match calculateImpactScore (newsArticles db) (goldPrices db)
                             (NewsArticle.id article) (GoldPrice.id price) with
  | Returned result =>
      {| table := upsert now (NewsArticle.id article) (GoldPrice.id price)
                         result (table st);
         quantified := S (quantified st);
         errors := errors st |}
  | Thrown _ =>
      {| table := table st; quantified := quantified st;
         errors := S (errors st) |}
  end.

(** Body of the outer loop. *)
Definition quantify_price (now : Z) (db : Db) (maxLagDays : Z)
           (st : batch) (price : GoldPrice.t) : batch :=
  let articles :=
    filter (fun a => in_range
                       (Some (subDays (GoldPrice.date price) maxLagDays))
                       (Some (GoldPrice.date price))
                       (NewsArticle.publishedAt a))
           (newsArticles db) in
  fold_left (quantify_one now db price) articles st.

Definition quantifyNewsForPeriod (startDate endDate : Z)
           (maxLagDays : option Z) (now : Z) (db : Db) : Db * (nat * nat) :=
  let lag := match maxLagDays with Some d => d | None => 3%Z end in
  let prices :=
    GoldPrice.findMany_asc (Some startDate) (Some endDate) (goldPrices db) in
  let st :=
    fold_left (quantify_price now db lag) prices
              {| table := newsQuantifications db;
                 quantified := 0; errors := 0 |} in
  ({| goldPrices := goldPrices db; newsArticles := newsArticles db;
      newsQuantifications := table st |},
   (quantified st, errors st)).

(** The [feedback] argument of [submitFeedback]. *)
Record feedback : Type := mkFeedback {
  fb_humanScore : num;
  fb_humanFeedback : option string;
  fb_verifiedBy : option string
}.

(** A column whose new value is [undefined] is left as it is. *)
Definition set_if_defined {A : Type} (new old : option A) : option A :=
  match new with Some _ => new | None => old end.

Definition verify (now : Z) (fb : feedback) (q : NewsQuantification.t)
  : NewsQuantification.t :=
  {| NewsQuantification.id := NewsQuantification.id q;
     NewsQuantification.newsArticleId := NewsQuantification.newsArticleId q;
     NewsQuantification.goldPriceId := NewsQuantification.goldPriceId q;
     NewsQuantification.impactScore := NewsQuantification.impactScore q;
     NewsQuantification.confidenceScore :=
       NewsQuantification.confidenceScore q;
     NewsQuantification.lagDays := NewsQuantification.lagDays q;
     NewsQuantification.impactCategory := NewsQuantification.impactCategory q;
     NewsQuantification.reasoning := NewsQuantification.reasoning q;
     NewsQuantification.humanVerified := true;
     NewsQuantification.humanScore := Some (fb_humanScore fb);
     NewsQuantification.humanFeedback :=
       set_if_defined (fb_humanFeedback fb)
                      (NewsQuantification.humanFeedback q);
     NewsQuantification.verifiedAt := Some now;
     NewsQuantification.verifiedBy :=
       set_if_defined (fb_verifiedBy fb) (NewsQuantification.verifiedBy q);
     NewsQuantification.createdAt := NewsQuantification.createdAt q |}.

(** [newsQuantification.update({ where: { id }, data })] throws when no row
    has the id. *)
Definition submitFeedback (quantificationId : string) (fb : feedback)
           (now : Z) (db : Db) : outcome Db :=
  let hit q := String.eqb (NewsQuantification.id q) quantificationId in
  if existsb hit (newsQuantifications db) then
    Returned
      {| goldPrices := goldPrices db; newsArticles := newsArticles db;
         newsQuantifications :=
           map (fun q => if hit q then verify now fb q else q)
               (newsQuantifications db) |}
  else Thrown "Record to update not found".

End Service.
End Quantifier.

(* ================================================================== *)
(** * [predictor.ts] *)
(* ================================================================== *)

Module Predictor.

Inductive source : Type := pattern | news | technical | economic.
Inductive direction : Type := bullish | bearish | neutral.
Inductive predicted : Type := up | down | sideways.

Record PredictionSignal : Type := mkSignal {
  sig_source : source;
  name : string;
  sig_direction : direction;
  strength : num;
  description : string
}.

Record Prediction : Type := mkPrediction {
  date : Z;
  currentPrice : num;
  predictedDirection : predicted;
  predictedChange : num;
  confidence : num;
  timeHorizon : string;
  signals : list PredictionSignal;
  reasoning : string
}.

Definition direction_eqb (a b : direction) : bool :=
  match a, b with
  | bullish, bullish | bearish, bearish | neutral, neutral => true
  | _, _ => false
  end.

(** [xs.slice(-k)]: the last [k] elements; [-0] is [0], and [xs.slice(0)]
    is the whole array. *)
Definition last_n {A : Type} (k : nat) (xs : list A) : list A :=
  match k with
  | O => xs
  | S _ => skipn (List.length xs - k) xs
  end.

(** [prices.slice(1).map((p, i) => p - prices[i])]. *)
Fixpoint changes (prices : list num) : list num :=
  match prices with
  | a :: ((b :: _) as rest) => (b - a)%num :: changes rest
  | _ => []
  end.

Definition calculateRSI (prices : list num) (period : nat) : num :=
  if (List.length prices <? period + 1)%nat then Fin 50
  else
    let recentChanges := last_n period (changes prices) in
    let gains := filter (fun c => ngt c (Fin 0)) recentChanges in
    let losses := map nneg (filter (fun c => nlt c (Fin 0)) recentChanges) in
    let avgGain :=
      if (0 <? List.length gains)%nat
      then (nsum gains / of_nat period)%num else Fin 0 in
    let avgLoss :=
      if (0 <? List.length losses)%nat
      then (nsum losses / of_nat period)%num else Fin 0 in
    if num_eqb avgLoss (Fin 0) then Fin 100
    else
      let rs := (avgGain / avgLoss)%num in
      (Fin 100 - Fin 100 / (Fin 1 + rs))%num.

(** The local [ema] of [calculateMACD]; [data] is never empty there. *)
Definition ema (data : list num) (period : nat) : num :=
  let k := (Fin 2 / (of_nat period + Fin 1))%num in
  match data with
  | [] => NaN
  | d0 :: rest =>
      fold_left (fun e d => (d * k + e * (Fin 1 - k))%num) rest d0
  end.

Record macd_result : Type := mkMacd {
  macd : num;
  macd_signal : num;
  histogram : num
}.

Definition calculateMACD (prices : list num) : macd_result :=
  if (List.length prices <? 26)%nat
  then {| macd := Fin 0; macd_signal := Fin 0; histogram := Fin 0 |}
  else
    let ema12 := ema (last_n 12 prices) 12 in
    let ema26 := ema (last_n 26 prices) 26 in
    let m := (ema12 - ema26)%num in
    let s := ema [m] 9 in
    {| macd := m; macd_signal := s; histogram := (m - s)%num |}.

Section Service.

Variable toFixed : num -> nat -> string.
Variable showInt : Z -> string.

Definition rsi_signals (closePrices : list num) : list PredictionSignal :=
  let rsi := calculateRSI closePrices 14 in
  if ngt rsi (Fin 70) then
    [ {| sig_source := technical; name := "RSI Overbought";
         sig_direction := bearish;
         strength := nmin ((rsi - Fin 70) * Fin 3)%num (Fin 100);
         description := "RSI at " ++ toFixed rsi 1
                          ++ " indicates overbought conditions" |} ]
  else if nlt rsi (Fin 30) then
    [ {| sig_source := technical; name := "RSI Oversold";
         sig_direction := bullish;
         strength := nmin ((Fin 30 - rsi) * Fin 3)%num (Fin 100);
         description := "RSI at " ++ toFixed rsi 1
                          ++ " indicates oversold conditions" |} ]
  else [].

Definition macd_signals (closePrices : list num) : list PredictionSignal :=
  let macdData := calculateMACD closePrices in
  if ngt (histogram macdData) (Fin 0)
     && ngt (macd macdData) (macd_signal macdData) then
    [ {| sig_source := technical; name := "MACD Bullish";
         sig_direction := bullish;
         strength := nmin (nabs (histogram macdData) * Fin 10)%num (Fin 80);
         description := "MACD crossed above signal line" |} ]
  else if nlt (histogram macdData) (Fin 0)
          && nlt (macd macdData) (macd_signal macdData) then
    [ {| sig_source := technical; name := "MACD Bearish";
         sig_direction := bearish;
         strength := nmin (nabs (histogram macdData) * Fin 10)%num (Fin 80);
         description := "MACD crossed below signal line" |} ]
  else [].

Definition sma_signals (latest : GoldPrice.t) : list PredictionSignal :=
  match GoldPrice.sma50 latest, GoldPrice.sma200 latest with
  | Some s50, Some s200 =>
      if truthy s50 && truthy s200 then
        let diff := ((s50 - s200) / s200 * Fin 100)%num in
        if ngt diff (Fin 0) then
          [ {| sig_source := technical; name := "Golden Cross Active";
               sig_direction := bullish;
               strength := nmin (diff * Fin 5)%num (Fin 70);
               description := "50-day SMA " ++ toFixed diff 2
                                ++ "% above 200-day SMA" |} ]
        else
          [ {| sig_source := technical; name := "Death Cross Active";
               sig_direction := bearish;
               strength := nmin (nabs diff * Fin 5)%num (Fin 70);
               description := "50-day SMA " ++ toFixed (nabs diff) 2
                                ++ "% below 200-day SMA" |} ]
      else []
  | _, _ => []
  end.

Definition trend_signals (prices : list GoldPrice.t)
  : list PredictionSignal :=
  if (20 <=? List.length prices)%nat then
    let avg k :=
      (fold_left (fun s p => s + GoldPrice.closePrice p)
                 (last_n k prices) (Fin 0) / of_nat k)%num in
    let recent5 := avg 5%nat in
    let recent20 := avg 20%nat in
    let trendStrength :=
      (((recent5 - recent20) / recent20) * Fin 100)%num in
    if ngt (nabs trendStrength) (Fin 1) then
      let rising := ngt trendStrength (Fin 0) in
      [ {| sig_source := technical;
           name := if rising then "Uptrend" else "Downtrend";
           sig_direction := if rising then bullish else bearish;
           strength := nmin (nabs trendStrength * Fin 20)%num (Fin 60);
           description :=
             "Price " ++ (if rising then "rising" else "falling") ++ " "
               ++ toFixed (nabs trendStrength) 2
               ++ "% from 20-day average" |} ]
    else []
  else [].

(** [detectTechnicalPatterns] reads [prices[prices.length - 1].sma50]: on an
    empty array this is a [TypeError]. *)
Definition detectTechnicalPatterns (prices : list GoldPrice.t)
  : outcome (list PredictionSignal) :=
  let closePrices := map GoldPrice.closePrice prices in
  match nth_error prices (List.length prices - 1) with
  | None => Thrown "TypeError: Cannot read properties of undefined"
  | Some latest =>
      Returned (rsi_signals closePrices
                  ++ macd_signals closePrices
                  ++ sma_signals latest
                  ++ trend_signals prices)
  end.

(** The columns of the [pattern] and [patternOccurrence] tables that
    [getPatternSignals] reads. *)
Record Pattern : Type := mkPattern {
  pattern_name : string;
  pattern_description : option string;
  typicalImpact : option num
}.

Record PatternOccurrence : Type := mkOccurrence {
  occ_startDate : Z;
  occ_confidence : option num;
  occ_pattern : option Pattern
}.

(** [x || d] on [number | null]. *)
Definition num_or (x : option num) (d : num) : num :=
  match x with
  | Some v => if truthy v then v else d
  | None => d
  end.

(** [s || d] on [string | null]. *)
Definition string_or (s : option string) (d : string) : string :=
  match s with
  | Some v => if String.eqb v "" then d else v
  | None => d
  end.

Definition msPerDay : Z := 24 * 60 * 60 * 1000.

Definition pattern_signal (occurrence : PatternOccurrence)
  : list PredictionSignal :=
  match occ_pattern occurrence with
  | None => []
  | Some p =>
      let isBullish := ngt (num_or (typicalImpact p) (Fin 0)) (Fin 0) in
      [ {| sig_source := pattern; name := pattern_name p;
           sig_direction := if isBullish then bullish else bearish;
           strength :=
             nmin (nabs (num_or (occ_confidence occurrence) (Fin 50)))
                  (Fin 100);
           description :=
             string_or (pattern_description p)
                       (pattern_name p ++ " pattern detected") |} ]
  end.

Definition getPatternSignals (now : Z) (tbl : list PatternOccurrence)
  : list PredictionSignal :=
  let recentPatterns :=
    sort_by (fun a b => (occ_startDate b <=? occ_startDate a)%Z)
            (filter (fun o => (now - 30 * msPerDay <=? occ_startDate o)%Z)
                    tbl) in
  flat_map pattern_signal recentPatterns.

(** The columns of the [newsQuantification] table that [getNewsSignals]
    reads. *)
Record NewsRow : Type := mkNewsRow {
  createdAt : Z;
  humanScore : option num;
  algorithmScore : option num
}.

(** [quant.humanScore ?? quant.algorithmScore ?? 0]. *)
Definition impact_of (quant : NewsRow) : num :=
  match humanScore quant with
  | Some h => h
  | None => match algorithmScore quant with
            | Some a => a
            | None => Fin 0
            end
  end.

Definition getNewsSignals (now : Z) (tbl : list NewsRow)
  : list PredictionSignal :=
  let recentNews :=
    firstn 10
      (sort_by (fun a b => (createdAt b <=? createdAt a)%Z)
               (filter (fun q => (now - 7 * msPerDay <=? createdAt q)%Z)
                       tbl)) in
  let totalImpact :=
    fold_left (fun t q => (t + impact_of q)%num) recentNews (Fin 0) in
  let count := List.length recentNews in
  if (0 <? count)%nat then
    let avgImpact := (totalImpact / of_nat count)%num in
    if ngt (nabs avgImpact) (Fin 10) then
      [ {| sig_source := news; name := "News Sentiment";
           sig_direction :=
             if ngt avgImpact (Fin 0) then bullish else bearish;
           strength := nmin (nabs avgImpact) (Fin 100);
           description :=
             showInt (Z.of_nat count)
               ++ " recent news articles with avg impact of "
               ++ toFixed avgImpact 1 |} ]
    else []
  else [].

Record EconomicIndicator : Type := mkIndicator {
  indicator : string;
  ind_date : Z;
  value : num
}.

(** The [Map] from indicator name to its observations: keys in order of
    first insertion, each array in order of arrival. *)
Fixpoint group_push (key : string) (v : num)
         (m : list (string * list num)) : list (string * list num) :=
  match m with
  | [] => [(key, [v])]
  | (k, vs) :: rest =>
      if String.eqb k key then (k, vs ++ [v]) :: rest
      else (k, vs) :: group_push key v rest
  end.

Definition indicatorMap (indicators : list EconomicIndicator)
  : list (string * list num) :=
  fold_left (fun m ind => group_push (indicator ind) (value ind) m)
            indicators [].

Definition economic_signal (entry : string * list num)
  : list PredictionSignal :=
  let '(name_, values) := entry in
  match values with
  | latest :: previous :: _ =>
      let change := (((latest - previous) / previous) * Fin 100)%num in
      let rising := ngt change (Fin 0) in
      let '(dir, descr) :=
        if includes name_ "inflation" || includes name_ "CPI" then
          (if rising then bullish else bearish,
           ("Inflation " ++ (if rising then "rising" else "falling")
              ++ " (" ++ toFixed change 2 ++ "%)")%string)
        else if includes name_ "interest" || includes name_ "FEDFUNDS" then
          (if rising then bearish else bullish,
           ("Interest rates "
              ++ (if rising then "rising" else "falling"))%string)
        else if includes name_ "USD" || includes name_ "DXY" then
          (if rising then bearish else bullish,
           ("USD strength "
              ++ (if rising then "increasing" else "decreasing"))%string)
        else (neutral, "") in
      if negb (direction_eqb dir neutral) && ngt (nabs change) (Fin 0.5) then
        [ {| sig_source := economic; name := name_;
             sig_direction := dir;
             strength := nmin (nabs change * Fin 10)%num (Fin 50);
             description := descr |} ]
      else []
  | _ => []
  end.

Definition getEconomicSignals (now : Z) (tbl : list EconomicIndicator)
  : list PredictionSignal :=
  let indicators :=
    sort_by (fun a b => (ind_date b <=? ind_date a)%Z)
            (filter (fun i => (now - 30 * msPerDay <=? ind_date i)%Z) tbl) in
  flat_map economic_signal (indicatorMap indicators).

Definition sourceWeights (s : source) : num :=
  match s with
  | technical => Fin 0.35
  | pattern => Fin 0.25
  | news => Fin 0.25
  | economic => Fin 0.15
  end.

(** The accumulators of the [forEach] over the signals. *)
Record scores : Type := mkScores {
  bullishScore : num;
  bearishScore : num;
  totalWeight : num
}.

(** The body of the [forEach].  The weight is computed exactly: the
    quotient [strength / 100] of a positive strength is positive here, where
    double arithmetic rounds it to 0 for the smallest strengths.  What the
    fusion does with a positive weight is therefore stated of [totalWeight],
    never derived from a positive strength. *)
Definition accumulate (acc : scores) (signal : PredictionSignal) : scores :=
  let weight :=
    (sourceWeights (sig_source signal) * (strength signal / Fin 100))%num in
  {| totalWeight := (totalWeight acc + weight)%num;
     bullishScore :=
       match sig_direction signal with
       | bullish => (bullishScore acc + weight)%num
       | _ => bullishScore acc
       end;
     bearishScore :=
       match sig_direction signal with
       | bearish => (bearishScore acc + weight)%num
       | _ => bearishScore acc
       end |}.

Definition netScore (allSignals : list PredictionSignal) : num :=
  let acc :=
    fold_left accumulate allSignals
              {| bullishScore := Fin 0; bearishScore := Fin 0;
                 totalWeight := Fin 0 |} in
  if ngt (totalWeight acc) (Fin 0)
  then ((bullishScore acc - bearishScore acc) / totalWeight acc)%num
  else Fin 0.

(** The fusion step: direction, confidence and predicted change. *)
Definition fuse (allSignals : list PredictionSignal)
  : predicted * num * num :=
  let net := netScore allSignals in
  if nlt (nabs net) (Fin 0.1) then
    (sideways,
     (Fin 30 + (Fin 1 - nabs net * Fin 10) * Fin 20)%num,
     Fin 0)
  else if ngt net (Fin 0) then
    (up, nmin (Fin 50 + net * Fin 50)%num (Fin 90), (net * Fin 5)%num)
  else
    (down, nmin (Fin 50 + nabs net * Fin 50)%num (Fin 90),
     (net * Fin 5)%num).

Definition make_reasoning (allSignals : list PredictionSignal) : string :=
  let count d :=
    List.length
      (filter (fun s => direction_eqb (sig_direction s) d) allSignals) in
  let topSignals :=
    slice 0 3
      (sort_cmp (fun a b => (strength b - strength a)%num) allSignals) in
  ("Based on " ++ showInt (Z.of_nat (List.length allSignals))
     ++ " signals: " ++ showInt (Z.of_nat (count bullish)) ++ " bullish, "
     ++ showInt (Z.of_nat (count bearish)) ++ " bearish. "
     ++ "Key factors: " ++ join ", " (map name topSignals) ++ ".")%string.

(** The tables [generatePrediction] reads. *)
Record Db : Type := mkDb {
  goldPrices : list GoldPrice.t;
  patternOccurrences : list PatternOccurrence;
  newsQuantifications : list NewsRow;
  economicIndicators : list EconomicIndicator
}.

Definition generatePrediction (horizonDays : Z) (now : Z) (db : Db)
  : outcome Prediction :=
  let prices :=
    rev (firstn 200
           (sort_by (fun a b => (GoldPrice.date b <=? GoldPrice.date a)%Z)
                    (goldPrices db))) in
  match detectTechnicalPatterns prices with
  | Thrown e => Thrown e
  | Returned technicalSignals =>
      let allSignals :=
        technicalSignals
          ++ getPatternSignals now (patternOccurrences db)
          ++ getNewsSignals now (newsQuantifications db)
          ++ getEconomicSignals now (economicIndicators db) in
      let '(predictedDirection, confidence, predictedChange) :=
        fuse allSignals in
      match nth_error prices (List.length prices - 1) with
      | None => Thrown "TypeError: Cannot read properties of undefined"
      | Some latestPrice =>
          Returned
            {| date := now;
               currentPrice := GoldPrice.closePrice latestPrice;
               predictedDirection := predictedDirection;
               predictedChange := predictedChange;
               confidence := confidence;
               timeHorizon := showInt horizonDays ++ " days";
               signals := allSignals;
               reasoning := make_reasoning allSignals |}
      end
  end.

End Service.
End Predictor.

(* ================================================================== *)
(** * Sample data *)
(* ================================================================== *)

Module Samples.
Import GoldPrice.

(** A row of the [goldPrice] table with no derived metric yet. *)
Definition row (key : string) (day : Z) (close : num) : GoldPrice.t :=
  {| id := key; date := (day * Js.msPerDay)%Z; closePrice := close;
     openPrice := None; highPrice := None; lowPrice := None; volume := None;
     dailyChange := None; dailyChangePct := None;
     volatility7d := None; volatility30d := None;
     sma20 := None; sma50 := None; sma200 := None |}.

(** A row with the metrics the detectors read. *)
Definition row_with (key : string) (day : Z) (close : num)
           (pct vol s50 s200 : option num) : GoldPrice.t :=
  {| id := key; date := (day * Js.msPerDay)%Z; closePrice := close;
     openPrice := None; highPrice := None; lowPrice := None; volume := None;
     dailyChange := None; dailyChangePct := pct;
     volatility7d := vol; volatility30d := None;
     sma20 := None; sma50 := s50; sma200 := s200 |}.

(** [n] consecutive days at the same close, from day [day] on. *)
Fixpoint flat_days (n : nat) (day : Z) (close : num) : list GoldPrice.t :=
  match n with
  | O => []
  | S k => row "flat" day close :: flat_days k (day + 1) close
  end.

(** A placeholder day at close 0 followed by a day at close 5. *)
Definition after_zero_close : list GoldPrice.t :=
  [ row "d0" 0 (Fin 0); row "d1" 1 (Fin 5) ].


(** The same jump with a stored volatility. *)
Definition jump_with_volatility : list GoldPrice.t :=
  flat_days 20 0 (Fin 100)
  ++ [ row_with "jump" 20 (Fin 103) (Some (Fin 3)) (Some (Fin 1.2))
                None None ].


(** Three days of a rally without a pause. *)
Definition steady_rally : list GoldPrice.t :=
  [ row "s0" 0 (Fin 100); row "s1" 1 (Fin 102); row "s2" 2 (Fin 104) ].

(** A rally 100, 102, 104 that pauses one day at 104 and goes on to 106
    and 108. *)
Definition rally_with_pause : list GoldPrice.t :=
  [ row "r0" 0 (Fin 100); row "r1" 1 (Fin 102); row "r2" 2 (Fin 104);
    row "r3" 3 (Fin 104); row "r4" 4 (Fin 106); row "r5" 5 (Fin 108) ].

(** A decline 108, 106, 104 that pauses one day at 104 and goes on to
    102. *)
Definition decline_with_pause : list GoldPrice.t :=
  [ row "f0" 0 (Fin 108); row "f1" 1 (Fin 106); row "f2" 2 (Fin 104);
    row "f3" 3 (Fin 104); row "f4" 4 (Fin 102) ].


(** An article with one bullish keyword, published on day 0. *)
Definition crisis_article : NewsArticle.t :=
  {| NewsArticle.id := "a2"; NewsArticle.title := "Crisis deepens";
     NewsArticle.text := "Markets fall";
     NewsArticle.category := Some "geopolitics";
     NewsArticle.sentiment := None;
     NewsArticle.publishedAt := 0%Z |}.

(** The same article filed under a category that is no key of the weight
    table but the name of a property every object inherits. *)
Definition constructor_article : NewsArticle.t :=
  {| NewsArticle.id := "a3"; NewsArticle.title := "Crisis deepens";
     NewsArticle.text := "Markets fall";
     NewsArticle.category := Some "constructor";
     NewsArticle.sentiment := None;
     NewsArticle.publishedAt := 0%Z |}.

(** The same article published on day 7. *)
Definition crisis_on_day7 : NewsArticle.t :=
  {| NewsArticle.id := "a4"; NewsArticle.title := "Crisis deepens";
     NewsArticle.text := "Markets fall";
     NewsArticle.category := Some "geopolitics";
     NewsArticle.sentiment := None;
     NewsArticle.publishedAt := (7 * Js.msPerDay)%Z |}.

(** A placeholder day at close 0 followed by a week at 100, before any
    metric is computed. *)
Definition zero_then_flat : list GoldPrice.t :=
  [ row "z0" 0 (Fin 0); row "z1" 1 (Fin 100); row "z2" 2 (Fin 100);
    row "z3" 3 (Fin 100); row "z4" 4 (Fin 100); row "z5" 5 (Fin 100);
    row "z6" 6 (Fin 100); row "z7" 7 (Fin 100) ].

Definition day0_price : GoldPrice.t := row "p0" 0 (Fin 2000).

Definition day1_price : GoldPrice.t :=
  row_with "p1" 1 (Fin 2040) (Some (Fin 2)) (Some (Fin 1.1)) None None.

(** A quantification of [crisis_article] against [day1_price], not yet
    reviewed. *)
Definition unreviewed : NewsQuantification.t :=
  {| NewsQuantification.id := "q1";
     NewsQuantification.newsArticleId := "a2";
     NewsQuantification.goldPriceId := "p1";
     NewsQuantification.impactScore := Fin 1;
     NewsQuantification.confidenceScore := Fin 0.1;
     NewsQuantification.lagDays := 0;
     NewsQuantification.impactCategory := None;
     NewsQuantification.reasoning := None;
     NewsQuantification.humanVerified := false;
     NewsQuantification.humanScore := None;
     NewsQuantification.humanFeedback := None;
     NewsQuantification.verifiedAt := None;
     NewsQuantification.verifiedBy := None;
     NewsQuantification.createdAt := 0 |}.

Definition review_db : Quantifier.Db :=
  {| Quantifier.goldPrices := [day0_price; day1_price];
     Quantifier.newsArticles := [crisis_article];
     Quantifier.newsQuantifications := [unreviewed] |}.

Definition review : Quantifier.feedback :=
  {| Quantifier.fb_humanScore := Fin 40;
     Quantifier.fb_humanFeedback := Some "too low";
     Quantifier.fb_verifiedBy := None |}.

Definition newId_count (tbl : list NewsQuantification.t) : string :=
  String (ascii_of_nat (48 + List.length tbl)) "".

(** A single price row whose two moving averages coincide. *)
Definition equal_sma_db : Predictor.Db :=
  {| Predictor.goldPrices :=
       [ row_with "p0" 0 (Fin 2000) None None
                  (Some (Fin 1990)) (Some (Fin 1990)) ];
     Predictor.patternOccurrences := [];
     Predictor.newsQuantifications := [];
     Predictor.economicIndicators := [] |}.

(** A single price row whose 50-day average is 1% above the 200-day one. *)
Definition golden_db : Predictor.Db :=
  {| Predictor.goldPrices :=
       [ row_with "p0" 0 (Fin 2000) None None
                  (Some (Fin 2020)) (Some (Fin 2000)) ];
     Predictor.patternOccurrences := [];
     Predictor.newsQuantifications := [];
     Predictor.economicIndicators := [] |}.

Definition bullish_signal (q : Q) : Predictor.PredictionSignal :=
  {| Predictor.sig_source := Predictor.technical;
     Predictor.name := "Uptrend";
     Predictor.sig_direction := Predictor.bullish;
     Predictor.strength := Fin q;
     Predictor.description := "" |}.

(** Twenty days at 100, the jump with its metrics stored, and nine more
    days at 103. *)
Definition breakout_series : list GoldPrice.t :=
  jump_with_volatility ++ flat_days 9 21 (Fin 103).

(** A square root rounded down to six decimals. *)
Definition sqrt_floor (x : num) : num :=
  match x with
  | Fin q =>
      if Qltb q 0 then NaN
      else Fin (Z.sqrt (Qfloor (q * 1000000000000)) # 1000000)
  | PInf => PInf
  | NInf | NaN => NaN
  end.

(** Stand-ins for the primitives of the runtime. *)
Definition sqrt_id (x : num) : num := x.
Definition toFixed_blank (x : num) (digits : nat) : string := "".
Definition showInt_blank (z : Z) : string := "".

End Samples.

(* ================================================================== *)
(** * Vocabulary of the properties *)
(* ================================================================== *)

Open Scope Q_scope.

(** A strength the gatherers can produce: a finite non-negative number, or
    [NaN]. *)
Definition strength_ok (x : num) : Prop :=
  x = NaN \/ exists q, x = Fin q /\ 0 <= q.

(** A non-negative number, possibly [Infinity], or [NaN]. *)
Definition nonneg_or_nan (x : num) : Prop :=
  x = NaN \/ nle (Fin 0) x = true.

(** A non-negative number, possibly [Infinity]. *)
Definition pos_inf (x : num) : Prop := nle (Fin 0) x = true.

Section MetricsVocabulary.

Variable sqrt : num -> num.

Import GoldPrice CsvImport.

(** The closes of a series determine everything the pass computes. *)
Definition closes (prices : list GoldPrice.t) : list num :=
  map closePrice prices.

(** The updates issued by the loop, in order: row id and new values. *)
Fixpoint updates (prices : list GoldPrice.t) (ids : list string) (i : nat)
  : list (string * derived) :=
  match ids with
  | [] => []
  | k :: ids' => (k, derived_at sqrt prices i) :: updates prices ids' (S i)
  end.

Definition apply_one (op : string * derived) (r : GoldPrice.t) : GoldPrice.t :=
  if String.eqb (id r) (fst op) then set_derived (snd op) r else r.

Definition apply_row (ops : list (string * derived)) (r : GoldPrice.t)
  : GoldPrice.t :=
  fold_left (fun r op => apply_one op r) ops r.

(** The values written last to the row whose id is [k]. *)
Fixpoint last_hit (ops : list (string * derived)) (k : string)
  : option derived :=
  match ops with
  | [] => None
  | op :: ops' =>
      match last_hit ops' k with
      | Some d => Some d
      | None => if String.eqb k (fst op) then Some (snd op) else None
      end
  end.

End MetricsVocabulary.

Section DetectorVocabulary.

Variable toFixed : num -> nat -> string.
Variable showInt : Z -> string.

Import GoldPrice PatternDetector.



(** [Math.sqrt] returns [NaN] or a non-negative number. *)
Definition sqrt_ok (f : num -> num) : Prop :=
  forall x, f x = NaN \/ nle (Fin 0) (f x) = true.

Definition finite_closes (prices : list GoldPrice.t) : Prop :=
  forall r, In r prices -> is_finite (closePrice r).

(** The bounds of an occurrence: confidence in [0, 1] and the cap of its
    pattern on the predicted move. *)
Definition pattern_bounds (p : DetectedPattern) : Prop :=
  within 0 1 (confidence p)
  /\ ((patternType p = "golden_cross" /\ predictedMove p = Fin 5)
      \/ (patternType p = "death_cross" /\ predictedMove p = Fin (-5))
      \/ (patternType p = "breakout_up" /\ within (-8) 8 (predictedMove p))
      \/ (patternType p = "breakout_down"
          /\ within (-8) 8 (predictedMove p))
      \/ (patternType p = "high_volatility_spike"
          /\ predictedMove p = Fin 0)
      \/ (patternType p = "double_top" /\ within (-8) 8 (predictedMove p))
      \/ (patternType p = "double_bottom"
          /\ within (-8) 8 (predictedMove p))).

End DetectorVocabulary.

Section QuantifierVocabulary.

Import Quantifier.

(** [t2] keeps every row of [t1] at its position, up to the columns the
    upsert rewrites. *)
Definition keeps_frames (t1 t2 : list NewsQuantification.t) : Prop :=
  forall i q, nth_error t1 i = Some q ->
  exists q', nth_error t2 i = Some q'
             /\ NewsQuantification.frame q' = NewsQuantification.frame q.

End QuantifierVocabulary.

Section PredictorVocabulary.

Import Predictor.

Definition strengths_ok (l : list PredictionSignal) : Prop :=
  forall s, In s l -> strength_ok (strength s).

Definition scores0 : scores :=
  {| bullishScore := Fin 0; bearishScore := Fin 0; totalWeight := Fin 0 |}.

(** The accumulators are finite, non-negative, and the two directional
    scores together do not exceed the total; or the total is [NaN]. *)
Definition scores_inv (acc : scores) : Prop :=
  totalWeight acc = NaN
  \/ exists b r t,
       bullishScore acc = Fin b /\ bearishScore acc = Fin r
       /\ totalWeight acc = Fin t /\ 0 <= b /\ 0 <= r /\ b + r <= t.

(** What the fusion step returns for a net score in [-1, 1]. *)
Definition fusion_bounds (net : Q) (out : predicted * num * num) : Prop :=
  let '(dir, confidence, change) := out in
  within 30 90 confidence /\ within (-5) 5 change
  /\ match dir with
     | sideways =>
         Qabs net < 0.1
         /\ (exists c, confidence = Fin c /\ 30 < c <= 50)
         /\ change = Fin 0
     | up =>
         0.1 <= net /\ within 55 90 confidence /\ change = Fin (net * 5)
     | down =>
         net <= -0.1 /\ within 55 90 confidence /\ change = Fin (net * 5)
     end.

(** The accumulators when the [forEach] over the signals ends. *)
Definition accumulated (signals : list PredictionSignal) : scores :=
  fold_left accumulate signals scores0.

End PredictorVocabulary.

Section PredictorSignalVocabulary.

Import Predictor.

(** A gathered signal: never neutral, and a strength in [0, 100], unless it
    is the [NaN] that two infinite moving averages give the "Death Cross
    Active" signal. *)
Definition gathered_ok (s : PredictionSignal) : Prop :=
  sig_direction s <> neutral
  /\ (within 0 100 (strength s)
      \/ (strength s = NaN /\ name s = "Death Cross Active")).

End PredictorSignalVocabulary.

Section SwingVocabulary.

Import GoldPrice Brain.

(** What every swing returned by [findSwings] satisfies: it joins two rows
    of the table, its percentage is the change between their closes and
    reaches the threshold, its direction is the sign of that change and
    passes the filter, and it lasts one day (adjacent rows) or more. *)
Definition swing_ok (minSwingPercent : num) (f : option direction_filter)
           (tbl : list GoldPrice.t) (s : SwingResult) : Prop :=
  (exists a b,
      In a tbl /\ In b tbl
      /\ startDate s = date a /\ startPrice s = closePrice a
      /\ endDate s = date b /\ endPrice s = closePrice b)
  /\ changePercent s = pct_change (startPrice s) (endPrice s)
  /\ changeAbsolute s = (endPrice s - startPrice s)%num
  /\ nge (nabs (changePercent s)) (nabs minSwingPercent) = true
  /\ swing_direction s = (if ngt (changePercent s) (Fin 0) then up else down)
  /\ direction_ok f (swing_direction s) = true
  /\ (durationDays s = 1%Z
      \/ ((1 < durationDays s)%Z
          /\ durationDays s = differenceInDays (endDate s) (startDate s))).

End SwingVocabulary.

Section MetricsFrameVocabulary.

Import GoldPrice.

(** The columns of a price row that the metrics pass does not write. *)
Definition raw (r : GoldPrice.t)
  : string * Z * num * option num * option num * option num * option num :=
  (id r, date r, closePrice r, openPrice r, highPrice r, lowPrice r,
   volume r).

End MetricsFrameVocabulary.

Section PatternShapeVocabulary.

Import GoldPrice PatternDetector.

(** The dates of an occurrence: a crossover, a breakout and a volatility
    spike start and end on the day of one row of the table, which anchors
    them; a double top or bottom is anchored at its first extremum and spans
    10 to 60 days. *)
Definition pattern_shape (tbl : list GoldPrice.t) (p : DetectedPattern)
  : Prop :=
  (exists r, In r tbl /\ startPriceId p = id r /\ startDate p = date r)
  /\ ((In (patternType p)
          ["golden_cross"; "death_cross"; "breakout_up"; "breakout_down";
           "high_volatility_spike"]
       /\ endDate p = startDate p)
      \/ (In (patternType p) ["double_top"; "double_bottom"]
          /\ (10 <= differenceInDays (endDate p) (startDate p) <= 60)%Z)).

End PatternShapeVocabulary.


Section QuantifierBatchVocabulary.

Variable toFixed : num -> nat -> string.
Variable showInt : Z -> string.

Import Quantifier.


(** The pair [(article id, price id)] is settled in the table [tbl]: a row
    holds it, and every row that holds it already carries the result the
    service computes for it. *)
Definition settled (db : Db) (article price : string)
           (tbl : list NewsQuantification.t) : Prop :=
  match calculateImpactScore toFixed showInt (newsArticles db)
                             (goldPrices db) article price with
  | Returned r =>
      existsb (NewsQuantification.has_pair article price) tbl = true
      /\ forall q, In q tbl ->
                   NewsQuantification.has_pair article price q = true ->
                   apply_update r q = q
  | Thrown _ => True
  end.

(** A row written by the batch: its lag lies between 0 and the maximal lag
    and its confidence score in [0, 1]. *)
Definition written_in_window (lag : Z) (q : NewsQuantification.t) : Prop :=
  (0 <= NewsQuantification.lagDays q <= lag)%Z
  /\ within 0 1 (NewsQuantification.confidenceScore q).

(** The articles the batch pairs with a price: those published in the
    [lag] days up to its date. *)
Definition window (db : Db) (lag : Z) (price : GoldPrice.t)
  : list NewsArticle.t :=
  filter (fun a => in_range
                     (Some (subDays (GoldPrice.date price) lag))
                     (Some (GoldPrice.date price))
                     (NewsArticle.publishedAt a))
         (newsArticles db).

(** The rows of [tbl] are rows of [tbl0] or were written in the window. *)
Definition from_window (tbl0 : list NewsQuantification.t) (lag : Z)
           (tbl : list NewsQuantification.t) : Prop :=
  forall q, In q tbl -> In q tbl0 \/ written_in_window lag q.

(** The columns of a quantification that [submitFeedback] does not
    write. *)
Definition unreviewed_part (q : NewsQuantification.t) :=
  (NewsQuantification.id q, NewsQuantification.newsArticleId q,
   NewsQuantification.goldPriceId q, NewsQuantification.impactScore q,
   NewsQuantification.confidenceScore q, NewsQuantification.lagDays q,
   NewsQuantification.impactCategory q, NewsQuantification.reasoning q,
   NewsQuantification.createdAt q).

End QuantifierBatchVocabulary.

(* ================================================================== *)
(** * Facts about numbers and lists *)
(* ================================================================== *)

Lemma Qltb_true (a b : Q) : Qltb a b = true <-> a < b.
Proof.
  unfold Qltb. rewrite Qlt_alt. destruct (a ?= b); split; congruence.
Qed.

Lemma Qltb_false (a b : Q) : Qltb a b = false <-> b <= a.
Proof.
  unfold Qltb. destruct (Qcompare_spec a b) as [H|H|H]; split; intros;
    try congruence; try lra.
Qed.

Lemma Qleb_true (a b : Q) : Qleb a b = true <-> a <= b.
Proof.
  unfold Qleb. destruct (Qcompare_spec a b) as [H|H|H]; split; intros;
    try congruence; try lra.
Qed.

Lemma Qleb_false (a b : Q) : Qleb a b = false <-> b < a.
Proof.
  unfold Qleb. destruct (Qcompare_spec a b) as [H|H|H]; split; intros;
    try congruence; try lra.
Qed.

Lemma Qeqb_true (a b : Q) : Qeqb a b = true <-> a == b.
Proof.
  unfold Qeqb. rewrite Qeq_alt. destruct (a ?= b); split; congruence.
Qed.

Lemma Qeqb_false (a b : Q) : Qeqb a b = false <-> ~ a == b.
Proof.
  unfold Qeqb. rewrite Qeq_alt. destruct (a ?= b); split; congruence.
Qed.

(** Turns the boolean comparisons of the context and of the goal into
    propositions on rationals. *)
Ltac qprop :=
  repeat match goal with
  | H : Qltb _ _ = true |- _ => apply Qltb_true in H
  | H : Qltb _ _ = false |- _ => apply Qltb_false in H
  | H : Qleb _ _ = true |- _ => apply Qleb_true in H
  | H : Qleb _ _ = false |- _ => apply Qleb_false in H
  | H : Qeqb _ _ = true |- _ => apply Qeqb_true in H
  | H : Qeqb _ _ = false |- _ => apply Qeqb_false in H
  | |- Qltb _ _ = true => apply Qltb_true
  | |- Qltb _ _ = false => apply Qltb_false
  | |- Qleb _ _ = true => apply Qleb_true
  | |- Qleb _ _ = false => apply Qleb_false
  | |- Qeqb _ _ = true => apply Qeqb_true
  | |- Qeqb _ _ = false => apply Qeqb_false
  end.

Lemma Qabs_nonneg' (q : Q) : 0 <= Qabs q.
Proof. apply Qabs_nonneg. Qed.

Lemma num_eqb_not_gt (a b : num) : num_eqb a b = true -> ngt a b = false.
Proof.
  destruct a, b; simpl; try congruence; intros H; qprop; lra.
Qed.

Lemma num_eqb_not_lt (a b : num) : num_eqb a b = true -> nlt a b = false.
Proof.
  destruct a, b; simpl; try congruence; intros H; qprop; lra.
Qed.

Lemma in_insert_by {A : Type} (keep : A -> A -> bool) (x y : A) (l : list A) :
  In y (insert_by keep x l) <-> y = x \/ In y l.
Proof.
  induction l as [|z l IH]; simpl.
  - intuition.
  - destruct (keep x z); simpl; rewrite ?IH; intuition.
Qed.

Lemma in_sort_by {A : Type} (keep : A -> A -> bool) (y : A) (l : list A) :
  In y (sort_by keep l) <-> In y l.
Proof.
  induction l as [|x l IH]; simpl.
  - tauto.
  - rewrite in_insert_by, IH. intuition.
Qed.

Lemma in_slice {A : Type} (lo hi : nat) (x : A) (l : list A) :
  In x (slice lo hi l) -> In x l.
Proof.
  unfold slice. intros H.
  rewrite <- (firstn_skipn lo l). apply in_or_app. right.
  rewrite <- (firstn_skipn (hi - lo) (skipn lo l)). apply in_or_app.
  left. exact H.
Qed.

Lemma in_sort_cmp {A : Type} (cmp : A -> A -> num) (y : A) (l : list A) :
  In y (sort_cmp cmp l) <-> In y l.
Proof. apply in_sort_by. Qed.

(* ================================================================== *)
(** * The embedding on small inputs *)
(* ================================================================== *)

Section Checks.

Import Samples.

Example includes_inside : includes "the crisis deepens" "crisis" = true.
Proof. reflexivity. Qed.

Example includes_absent : includes "gold rallies" "gold rally" = false.
Proof. reflexivity. Qed.

Example lower_case : toLowerCase "Rate Cut, 2024" = "rate cut, 2024".
Proof. reflexivity. Qed.

Example division_by_zero :
  (Fin 3 / Fin 0)%num = PInf /\ (Fin 0 / Fin 0)%num = NaN
  /\ (Fin (-3) / Fin 0)%num = NInf /\ (PInf - PInf)%num = NaN.
Proof. repeat split. Qed.

Example difference_truncates :
  differenceInDays (5 * Js.msPerDay + 1) 0 = 5%Z
  /\ differenceInDays 0 (5 * Js.msPerDay + 1) = (-5)%Z.
Proof. split; reflexivity. Qed.

(** One bullish keyword: sentiment bullish, confidence 0.3 + 0.1. *)
Example crisis_is_bullish :
  Quantifier.a_sentiment (Quantifier.analyzeArticleImpact crisis_article)
  = Quantifier.bullish
  /\ num_eqb (Quantifier.a_confidence
                (Quantifier.analyzeArticleImpact crisis_article))
             (Fin 0.4) = true
  /\ Quantifier.a_keywords (Quantifier.analyzeArticleImpact crisis_article)
     = ["crisis"].
Proof. repeat split. Qed.

(** The scenario of the specification: closes 100, 100, 106, 106 and a 5%
    threshold give the single-day swing of +6% and no multi-day swing. *)
Example swing_scenario :
  map (fun s => (Brain.startPrice s, Brain.endPrice s, Brain.durationDays s,
                 Brain.swing_direction s))
      (Brain.findSwings (Fin 5) None None None
         [ row "s0" 0 (Fin 100); row "s1" 1 (Fin 100);
           row "s2" 2 (Fin 106); row "s3" 3 (Fin 106) ])
  = [ (Fin 100, Fin 106, 1%Z, Brain.up) ].
Proof. reflexivity. Qed.

(** Rows are read in date order whatever their order in the table. *)
Example ordered_query :
  map GoldPrice.id
      (GoldPrice.findMany_asc None None
         [ row "c" 2 (Fin 3); row "a" 0 (Fin 1); row "b" 1 (Fin 2) ])
  = [ "a"; "b"; "c" ].
Proof. reflexivity. Qed.

(** The first row of a series gets no derived value. *)
Example first_row_metrics :
  CsvImport.derived_at sqrt_floor after_zero_close 0
  = {| GoldPrice.d_dailyChange := None; GoldPrice.d_dailyChangePct := None;
       GoldPrice.d_volatility7d := None; GoldPrice.d_volatility30d := None;
       GoldPrice.d_sma20 := None; GoldPrice.d_sma50 := None;
       GoldPrice.d_sma200 := None |}.
Proof. reflexivity. Qed.

(** Twenty rows at 100 have a 20-day average of 100 at index 19. *)
Example sma20_of_flat_days :
  match CsvImport.sma (flat_days 20 0 (Fin 100)) 19 20 with
  | Some x => num_eqb x (Fin 100)
  | None => false
  end = true
  /\ CsvImport.sma (flat_days 20 0 (Fin 100)) 18 20 = None.
Proof. split; reflexivity. Qed.

(** A bullish and a bearish signal of the same weight cancel. *)
Example balanced_signals :
  match Predictor.fuse
          [ bullish_signal 40;
            {| Predictor.sig_source := Predictor.technical;
               Predictor.name := "Downtrend";
               Predictor.sig_direction := Predictor.bearish;
               Predictor.strength := Fin 40;
               Predictor.description := "" |} ]
  with
  | (dir, confidence, change) => (dir, num_eqb confidence (Fin 50), change)
  end = (Predictor.sideways, true, Fin 0).
Proof. reflexivity. Qed.

End Checks.

(* ================================================================== *)
(** * The metrics pass *)
(* ================================================================== *)

Section MetricsFacts.

Variable sqrt : num -> num.

Import GoldPrice CsvImport.

Lemma dailyChange_null (prices : list GoldPrice.t) (i : nat) :
  d_dailyChange (derived_at sqrt prices i) = None <-> i = 0%nat.
Proof.
  unfold derived_at; cbn [d_dailyChange].
  destruct i; split; intros H; try reflexivity; discriminate.
Qed.

Lemma dailyChangePct_null (prices : list GoldPrice.t) (i : nat) :
  d_dailyChangePct (derived_at sqrt prices i) = None <->
  i = 0%nat \/ num_eqb (close_at prices (i - 1)) (Fin 0) = true.
Proof.
  unfold derived_at; cbn [d_dailyChangePct].
  destruct i as [|k].
  - split; auto.
  - replace (S k - 1)%nat with k by lia.
    destruct (num_eqb (close_at prices k) (Fin 0)); simpl; split; intros H;
      try reflexivity; try discriminate; auto.
    destruct H; discriminate.
Qed.

Lemma close_at_closes (prices : list GoldPrice.t) (j : nat) :
  close_at prices j =
  match nth_error (closes prices) j with Some c => c | None => NaN end.
Proof.
  unfold close_at, closes. rewrite nth_error_map.
  destruct (nth_error prices j); reflexivity.
Qed.

Lemma close_at_ext (p1 p2 : list GoldPrice.t) (j : nat) :
  closes p1 = closes p2 -> close_at p1 j = close_at p2 j.
Proof. intros H. rewrite !close_at_closes, H. reflexivity. Qed.

Lemma sum_closes (l : list GoldPrice.t) (a : num) :
  fold_left (fun a b => (a + closePrice b)%num) l a
  = fold_left nadd (closes l) a.
Proof.
  revert a. induction l as [|x l IH]; intros a; simpl; auto.
Qed.

Lemma closes_slice (lo hi : nat) (l : list GoldPrice.t) :
  closes (slice lo hi l) = slice lo hi (closes l).
Proof.
  unfold closes, slice. rewrite skipn_map, firstn_map. reflexivity.
Qed.

Lemma returns_window_ext (p1 p2 : list GoldPrice.t) (i w : nat) :
  closes p1 = closes p2 -> returns_window p1 i w = returns_window p2 i w.
Proof.
  intros H. unfold returns_window. apply map_ext. intros j.
  rewrite (close_at_ext p1 p2 j H), (close_at_ext p1 p2 (j - 1) H).
  reflexivity.
Qed.

Lemma volatility_ext (p1 p2 : list GoldPrice.t) (i w : nat) :
  closes p1 = closes p2 -> volatility sqrt p1 i w = volatility sqrt p2 i w.
Proof.
  intros H. unfold volatility. rewrite (returns_window_ext p1 p2 i w H).
  reflexivity.
Qed.

Lemma sma_ext (p1 p2 : list GoldPrice.t) (i n : nat) :
  closes p1 = closes p2 -> sma p1 i n = sma p2 i n.
Proof.
  intros H. unfold sma. rewrite !sum_closes, !closes_slice, H. reflexivity.
Qed.

Lemma derived_at_ext (p1 p2 : list GoldPrice.t) (i : nat) :
  closes p1 = closes p2 -> derived_at sqrt p1 i = derived_at sqrt p2 i.
Proof.
  intros H. unfold derived_at.
  rewrite (close_at_ext p1 p2 i H).
  rewrite !(volatility_ext p1 p2 _ _ H), !(sma_ext p1 p2 _ _ H).
  destruct i as [|k]; [reflexivity|].
  rewrite (close_at_ext p1 p2 k H). reflexivity.
Qed.

Lemma metrics_loop_spec (prices rest tbl : list GoldPrice.t) (i u : nat) :
  metrics_loop sqrt prices rest i tbl u =
  (map (apply_row (updates sqrt prices (map id rest) i)) tbl,
   (u + List.length rest)%nat).
Proof.
  revert i tbl u. induction rest as [|c rest IH]; intros i tbl u; simpl.
  - f_equal; [|lia]. unfold apply_row. simpl. symmetry. apply map_id.
  - rewrite IH. f_equal; [|lia].
    unfold GoldPrice.update. rewrite map_map. apply map_ext. intros r.
    unfold apply_row. simpl. reflexivity.
Qed.

Lemma apply_one_id (op : string * derived) (r : GoldPrice.t) :
  id (apply_one op r) = id r.
Proof. unfold apply_one. destruct (String.eqb _ _); reflexivity. Qed.

Lemma apply_row_hit (ops : list (string * derived)) (r : GoldPrice.t) :
  apply_row ops r =
  match last_hit ops (id r) with
  | Some d => set_derived d r
  | None => r
  end.
Proof.
  revert r. induction ops as [|op ops IH]; intros r; simpl; [reflexivity|].
  change (apply_row (op :: ops) r) with (apply_row ops (apply_one op r)).
  rewrite IH, apply_one_id.
  destruct (last_hit ops (id r)) as [d|].
  - unfold apply_one. destruct (String.eqb _ _); reflexivity.
  - unfold apply_one. destruct (String.eqb _ _); reflexivity.
Qed.

Lemma apply_row_id ops r : id (apply_row ops r) = id r.
Proof. rewrite apply_row_hit. destruct (last_hit _ _); reflexivity. Qed.

Lemma apply_row_date ops r : date (apply_row ops r) = date r.
Proof. rewrite apply_row_hit. destruct (last_hit _ _); reflexivity. Qed.

Lemma apply_row_close ops r : closePrice (apply_row ops r) = closePrice r.
Proof. rewrite apply_row_hit. destruct (last_hit _ _); reflexivity. Qed.

Lemma apply_row_idem ops r : apply_row ops (apply_row ops r) = apply_row ops r.
Proof.
  rewrite (apply_row_hit ops (apply_row ops r)), apply_row_id.
  rewrite apply_row_hit. destruct (last_hit ops (id r)); reflexivity.
Qed.

(** A date-preserving rewrite of the rows commutes with the ordered
    query. *)
Lemma insert_by_date_map (g : GoldPrice.t -> GoldPrice.t) x l :
  (forall r, date (g r) = date r) ->
  insert_by (fun a b => (date a <=? date b)%Z) (g x) (map g l)
  = map g (insert_by (fun a b => (date a <=? date b)%Z) x l).
Proof.
  intros Hg. induction l as [|y l IH]; simpl; [reflexivity|].
  rewrite !Hg. destruct (date x <=? date y)%Z; simpl; [reflexivity|].
  rewrite IH. reflexivity.
Qed.

Lemma findMany_asc_map (g : GoldPrice.t -> GoldPrice.t) gte lte tbl :
  (forall r, date (g r) = date r) ->
  findMany_asc gte lte (map g tbl) = map g (findMany_asc gte lte tbl).
Proof.
  intros Hg. unfold findMany_asc.
  induction tbl as [|x tbl IH]; simpl; [reflexivity|].
  rewrite Hg. destruct (in_range gte lte (date x)); simpl; [|exact IH].
  unfold sort_by in IH |- *. simpl. rewrite IH.
  apply insert_by_date_map, Hg.
Qed.

Lemma updates_ext p1 p2 ids i :
  closes p1 = closes p2 -> updates sqrt p1 ids i = updates sqrt p2 ids i.
Proof.
  intros H. revert i. induction ids as [|k ids IH]; intros i; simpl.
  - reflexivity.
  - rewrite IH, (derived_at_ext p1 p2 i H). reflexivity.
Qed.

(** C5. Recomputing the metrics is idempotent: a second run of
    [calculateDerivedMetrics] on the table left by the first run writes the
    same [dailyChange], [dailyChangePct], [volatility7d], [volatility30d],
    [sma20], [sma50] and [sma200] into every row (the table is unchanged,
    and the same number of rows is updated), since the values written
    depend on the close prices only. *)
Theorem calculateDerivedMetrics_idempotent (tbl : list GoldPrice.t) :
  calculateDerivedMetrics sqrt (fst (calculateDerivedMetrics sqrt tbl))
  = calculateDerivedMetrics sqrt tbl.
Proof.
  unfold calculateDerivedMetrics at 2 3. rewrite metrics_loop_spec.
  cbn [fst].
  set (prices := findMany_asc None None tbl).
  set (ops := updates sqrt prices (map id prices) 0).
  unfold calculateDerivedMetrics.
  rewrite (findMany_asc_map (apply_row ops)) by (intros; apply apply_row_date).
  fold prices. rewrite metrics_loop_spec.
  assert (Hc : closes (map (apply_row ops) prices) = closes prices).
  { unfold closes. rewrite map_map. apply map_ext. intros r.
    apply apply_row_close. }
  assert (Hi : map id (map (apply_row ops) prices) = map id prices).
  { rewrite map_map. apply map_ext. intros r. apply apply_row_id. }
  rewrite Hi, (updates_ext _ prices _ _ Hc). fold ops.
  rewrite length_map, map_map. f_equal.
  apply map_ext. intros r. apply apply_row_idem.
Qed.

End MetricsFacts.

Section MetricsCases.

Import GoldPrice CsvImport Samples.

(** C4. On the series with closes 0 then 5 (a placeholder row followed by a
    real one), the metrics pass leaves [dailyChangePct] of the second day
    null but writes the non-null [dailyChange] 5 - 0: the two values are not
    null together when the previous close is 0. *)
Theorem dailyChange_after_zero_close :
  forall sqrt : num -> num,
    num_eqb (close_at after_zero_close 0) (Fin 0) = true
    /\ d_dailyChangePct (derived_at sqrt after_zero_close 1) = None
    /\ d_dailyChange (derived_at sqrt after_zero_close 1) = Some (Fin 5).
Proof. intros sqrt. repeat split. Qed.

End MetricsCases.

(* ================================================================== *)
(** * The pattern detector *)
(* ================================================================== *)

Section DetectorFacts.

Variable sqrt : num -> num.
Variable toFixed : num -> nat -> string.
Variable showInt : Z -> string.

Import GoldPrice PatternDetector Samples.

(** C9. With fewer than 30 points in the queried series [detectPatterns]
    returns the empty list; the function is total, so nothing is thrown. *)
Theorem detectPatterns_insufficient
        (startDate endDate : option Z) (tbl : list GoldPrice.t) :
  (List.length (findMany_asc startDate endDate tbl) < 30)%nat ->
  detectPatterns sqrt toFixed showInt startDate endDate tbl = [].
Proof.
  intros H. unfold detectPatterns.
  apply Nat.ltb_lt in H. rewrite H. reflexivity.
Qed.



(** [detectBreakouts] is the concatenation of the loop bodies for the
    indices that have 20 predecessors. *)
Lemma detectBreakouts_in (prices : list GoldPrice.t) (p : DetectedPattern) :
  In p (detectBreakouts toFixed showInt prices) <->
  exists i, (20 <= i < List.length prices)%nat
            /\ In p (breakouts_at toFixed showInt prices i).
Proof.
  unfold detectBreakouts, lookback. rewrite in_flat_map. split.
  - intros [i [Hi Hp]]. apply in_seq in Hi. exists i. split; [lia|exact Hp].
  - intros [i [Hi Hp]]. exists i. split; [apply in_seq; lia|exact Hp].
Qed.


End DetectorFacts.

Section DetectorCases.

Import GoldPrice PatternDetector Samples.

Lemma detectPatterns_insufficient_witness :
  (List.length (findMany_asc None None after_zero_close) < 30)%nat
  /\ detectPatterns sqrt_id toFixed_blank showInt_blank
                    None None after_zero_close = [].
Proof.
  assert (H : (List.length (findMany_asc None None after_zero_close) < 30)%nat)
    by (vm_compute; lia).
  split; [exact H|].
  apply (detectPatterns_insufficient sqrt_id toFixed_blank showInt_blank
                                     None None after_zero_close H).
Defined.



End DetectorCases.

(* ================================================================== *)
(** * The swing finder *)
(* ================================================================== *)

Section SwingFacts.

Import GoldPrice Brain Samples.

Lemma trend_scan_S (thr : num) (f : option direction_filter)
      (prices : list GoldPrice.t) (n : nat) :
  trend_scan thr f prices (S n)
  = trend_step thr f prices (S n) (trend_scan thr f prices n).
Proof.
  unfold trend_scan. rewrite seq_S, fold_left_app. reflexivity.
Qed.

Lemma flat_day_is_down (prev curr : GoldPrice.t) :
  num_eqb (closePrice curr) (closePrice prev) = true ->
  dayDirection prev curr = down.
Proof.
  intros H. unfold dayDirection. rewrite (num_eqb_not_gt _ _ H). reflexivity.
Qed.

(** C3 (amended). A flat day ([curr.closePrice === prev.closePrice]) is
    classified as a down day by the trend scan.  Inside a down-run it
    changes nothing: the run goes on from the same trend start.  Inside an
    up-run it closes the run: the candidate swing goes from the trend start
    to the day before the flat day, the trend start moves to that day and
    the direction becomes down. *)
Theorem flat_day_step (thr : num) (f : option direction_filter)
        (prices : list GoldPrice.t) (i : nat) (st : trend_state)
        (prev curr first : GoldPrice.t) :
  nth_error prices (i - 1) = Some prev ->
  nth_error prices i = Some curr ->
  nth_error prices (trendStart st) = Some first ->
  num_eqb (closePrice curr) (closePrice prev) = true ->
  (currentDirection st = Some down -> trend_step thr f prices i st = st)
  /\
  (currentDirection st = Some up ->
   trend_step thr f prices i st
   = {| trendStart := i - 1; currentDirection := Some down;
        emitted := emitted st ++ close_run thr f first prev |}).
Proof.
  intros Hp Hc Hs Hflat. unfold trend_step.
  rewrite Hp, Hc, Hs, (flat_day_is_down _ _ Hflat).
  split; intros Hd; rewrite Hd; reflexivity.
Qed.

End SwingFacts.

Section SwingCases.

Import GoldPrice Brain Samples.

(** C3, as stated, fails: in [rally_with_pause] the up-run that starts at
    day 0 is closed by the flat day 3.  Before that day the scan is in an
    up-run started at index 0; after it the trend start is index 2, the
    direction is down and the swing 100 -> 104 of days 0..2 has been
    emitted. *)
Lemma flat_day_closes_up_run :
  num_eqb (CsvImport.close_at rally_with_pause 3)
      (CsvImport.close_at rally_with_pause 2) = true
  /\ currentDirection (trend_scan (Fin 3) None rally_with_pause 2) = Some up
  /\ trendStart (trend_scan (Fin 3) None rally_with_pause 2) = 0%nat
  /\ emitted (trend_scan (Fin 3) None rally_with_pause 2) = []
  /\ currentDirection (trend_scan (Fin 3) None rally_with_pause 3) = Some down
  /\ trendStart (trend_scan (Fin 3) None rally_with_pause 3) = 2%nat
  /\ map (fun s => (startPrice s, endPrice s, durationDays s))
         (emitted (trend_scan (Fin 3) None rally_with_pause 3))
     = [ (Fin 100, Fin 104, 2%Z) ].
Proof. vm_compute. repeat split. Qed.

Lemma flat_day_step_witness :
  trend_step (Fin 3) None decline_with_pause 3
             (trend_scan (Fin 3) None decline_with_pause 2)
  = trend_scan (Fin 3) None decline_with_pause 2.
Proof.
  apply (proj1 (flat_day_step (Fin 3) None decline_with_pause 3
                  (trend_scan (Fin 3) None decline_with_pause 2)
                  (row "f2" 2 (Fin 104)) (row "f3" 3 (Fin 104))
                  (row "f0" 0 (Fin 108))
                  eq_refl eq_refl eq_refl eq_refl)).
  reflexivity.
Defined.

End SwingCases.

(* ================================================================== *)
(** * The news quantifier: scores *)
(* ================================================================== *)

Lemma inject_Z_nonneg (z : Z) : (0 <= z)%Z -> 0 <= inject_Z z.
Proof. intros H. unfold Qle. simpl. lia. Qed.

Lemma inject_Z_nonpos (z : Z) : (z <= 0)%Z -> inject_Z z <= 0.
Proof. intros H. unfold Qle. simpl. lia. Qed.

Lemma clamp_within (lo hi : Q) (x : num) :
  lo <= hi -> x <> NaN -> within lo hi (nmax (Fin lo) (nmin (Fin hi) x)).
Proof.
  intros Hlh Hx. unfold within.
  destruct x as [q| | |]; simpl; try congruence.
  - destruct (Qleb hi q) eqn:E1; simpl.
    + destruct (Qleb lo hi) eqn:E2; eexists; split; try reflexivity;
        qprop; lra.
    + destruct (Qleb lo q) eqn:E2; eexists; split; try reflexivity;
        qprop; lra.
  - destruct (Qleb lo hi) eqn:E2; eexists; split; try reflexivity;
      qprop; lra.
  - exists lo. split; [reflexivity|lra].
Qed.

Section QuantifierFacts.

Variable toFixed : num -> nat -> string.
Variable showInt : Z -> string.

Import Quantifier.

Lemma analysis_confidence (article : NewsArticle.t) :
  exists c, a_confidence (analyzeArticleImpact article) = Fin c
            /\ 0 <= c <= 0.9.
Proof.
  unfold analyzeArticleImpact.
  set (n := (List.length _ + List.length _)%nat).
  destruct (n =? 0)%nat.
  - simpl. exists 0.3. split; [reflexivity|lra].
  - assert (Hn : 0 <= inject_Z (Z.of_nat n)) by (apply inject_Z_nonneg; lia).
    assert (Hc : exists c,
               nmin (Fin 0.9) (Fin 0.3 + of_nat n * Fin 0.1)%num = Fin c
               /\ 0 <= c <= 0.9).
    { unfold of_nat, of_Z. simpl.
      destruct (Qleb 0.9 (0.3 + inject_Z (Z.of_nat n) * 0.1)) eqn:E;
        eexists; split; try reflexivity; qprop; lra. }
    destruct Hc as [c [Ec Hc]].
    destruct (_ <? _)%nat; [|destruct (_ <? _)%nat]; cbn [a_confidence].
    + exists c. auto.
    + exists c. auto.
    + rewrite Ec. simpl. eexists. split; [reflexivity|]. lra.
Qed.



Lemma lagDecay_range (lag : Z) :
  exists d, lagDecay lag = Fin d /\ 0.2 <= d /\ ((0 <= lag)%Z -> d <= 1).
Proof.
  unfold lagDecay, of_Z. simpl.
  destruct (Qleb 0.2 (1 + - (inject_Z lag * 0.15))) eqn:E.
  - eexists. split; [reflexivity|]. qprop. split; [exact E|].
    intros H. apply inject_Z_nonneg in H. lra.
  - exists 0.2. split; [reflexivity|]. split; intros; lra.
Qed.


End QuantifierFacts.

Section QuantifierCases.

Import Quantifier Samples.


(** C1 needs its condition on the category.  ["constructor"] is no key of
    [CATEGORY_WEIGHTS], but the table inherits it: the lookup answers a
    function, which is truthy, so the fallback to [general] is not taken;
    its [baseImpact] is [undefined], the score of a bullish article is
    [NaN], and [Math.max(-100, Math.min(100, NaN))] is [NaN]. *)
Lemma impactScore_nan_for_inherited_category :
  exists r,
    calculateImpactScore toFixed_blank showInt_blank
                         [constructor_article] [day0_price; day1_price]
                         "a3" "p1"
    = Returned r
    /\ a_sentiment (analyzeArticleImpact constructor_article) = bullish
    /\ impactCategory r = "constructor"
    /\ lagDays r = 1%Z
    /\ impactScore r = NaN.
Proof. eexists. split; [reflexivity|]. vm_compute. repeat split. Qed.

(** C1 needs its condition on the stored metrics, and the metrics pass
    itself stores a [NaN].  After a close of 0 the next return is
    [100 / 0 = Infinity]; on day 7 the mean of the week's returns is
    [Infinity], their variance [NaN] ([Infinity - Infinity]) and so is
    [volatility7d], [Math.sqrt] being applied to this [NaN] and to nothing
    else.  The score of an article of that day against that price is
    [NaN], at lag 0. *)
Lemma impactScore_nan_after_zero_close :
  exists priceData r,
    GoldPrice.findUnique
      "z7" (fst (CsvImport.calculateDerivedMetrics sqrt_floor zero_then_flat))
    = Some priceData
    /\ GoldPrice.volatility7d priceData = Some NaN
    /\ (exists pct, GoldPrice.dailyChangePct priceData = Some (Fin pct)
                    /\ pct == 0)
    /\ calculateImpactScore
         toFixed_blank showInt_blank [crisis_on_day7]
         (fst (CsvImport.calculateDerivedMetrics sqrt_floor zero_then_flat))
         "a4" "z7"
       = Returned r
    /\ lagDays r = 0%Z
    /\ impactScore r = NaN.
Proof.
  eexists. eexists. split; [vm_compute; reflexivity|].
  split; [reflexivity|]. split.
  - eexists. split; [reflexivity|]. reflexivity.
  - split; [reflexivity|]. vm_compute. split; reflexivity.
Qed.


End QuantifierCases.

(* ================================================================== *)
(** * The news quantifier: feedback and recomputation *)
(* ================================================================== *)

Section FeedbackFacts.

Variable toFixed : num -> nat -> string.
Variable showInt : Z -> string.
Variable newId : list NewsQuantification.t -> string.

Import Quantifier.

Lemma keeps_frames_refl t : keeps_frames t t.
Proof. intros i q H. exists q. auto. Qed.

Lemma keeps_frames_trans t1 t2 t3 :
  keeps_frames t1 t2 -> keeps_frames t2 t3 -> keeps_frames t1 t3.
Proof.
  intros H12 H23 i q H.
  destruct (H12 i q H) as [q' [H' E']].
  destruct (H23 i q' H') as [q'' [H'' E'']].
  exists q''. split; [assumption|congruence].
Qed.

Lemma upsert_keeps_frames now article price r tbl :
  keeps_frames tbl (upsert newId now article price r tbl).
Proof.
  intros i q H. unfold upsert.
  destruct (existsb _ tbl).
  - rewrite nth_error_map, H. simpl.
    destruct (NewsQuantification.has_pair article price q);
      eexists; split; reflexivity.
  - exists q. split; [|reflexivity].
    rewrite nth_error_app1; [assumption|].
    apply nth_error_Some. congruence.
Qed.

Lemma quantify_one_keeps_frames now db price st article :
  keeps_frames (table st)
               (table (quantify_one toFixed showInt newId now db price
                                    st article)).
Proof.
  unfold quantify_one.
  destruct (calculateImpactScore _ _ _ _ _ _); cbn [table].
  - apply upsert_keeps_frames.
  - apply keeps_frames_refl.
Qed.

Lemma fold_keeps_frames {A : Type} (step : batch -> A -> batch)
      (xs : list A) (st : batch) :
  (forall s x, keeps_frames (table s) (table (step s x))) ->
  keeps_frames (table st) (table (fold_left step xs st)).
Proof.
  intros Hstep. revert st.
  induction xs as [|x xs IH]; intros st; simpl.
  - apply keeps_frames_refl.
  - eapply keeps_frames_trans; [apply Hstep|apply IH].
Qed.

Lemma quantifyNewsForPeriod_keeps_frames startDate endDate lag now db :
  keeps_frames
    (newsQuantifications db)
    (newsQuantifications
       (fst (quantifyNewsForPeriod toFixed showInt newId
                                   startDate endDate lag now db))).
Proof.
  unfold quantifyNewsForPeriod. cbn [fst newsQuantifications].
  match goal with
  | |- keeps_frames ?t (table (fold_left ?f ?l ?s)) =>
      change t with (table s)
  end.
  apply fold_keeps_frames. intros s price.
  unfold quantify_price. apply fold_keeps_frames.
  intros s' article. apply quantify_one_keeps_frames.
Qed.

Lemma submitFeedback_verifies quantificationId fb now db db1 i q :
  submitFeedback quantificationId fb now db = Returned db1 ->
  nth_error (newsQuantifications db1) i = Some q ->
  NewsQuantification.id q = quantificationId ->
  NewsQuantification.humanVerified q = true
  /\ NewsQuantification.humanScore q = Some (fb_humanScore fb).
Proof.
  unfold submitFeedback. destruct (existsb _ _); [|discriminate].
  intros H. inversion H; subst db1; clear H. cbn [newsQuantifications].
  rewrite nth_error_map.
  destruct (nth_error (newsQuantifications db) i) as [q0|]; [|discriminate].
  simpl. intros H Hid. inversion H; subst q; clear H.
  destruct (String.eqb (NewsQuantification.id q0) quantificationId) eqn:E.
  - split; reflexivity.
  - apply String.eqb_neq in E. contradiction.
Qed.

(** C2. After [submitFeedback] has verified the quantification
    [quantificationId], a run of [quantifyNewsForPeriod] keeps every row of
    the table at its place with all its columns but [impactScore],
    [confidenceScore], [lagDays], [impactCategory] and [reasoning]; the
    verified row still has [humanVerified] true and the human score that
    was submitted. *)
Theorem feedback_preserved (quantificationId : string) (fb : feedback)
        (now1 now2 : Z) (db db1 : Db) (startDate endDate : Z)
        (maxLagDays : option Z) (i : nat) (q : NewsQuantification.t) :
  submitFeedback quantificationId fb now1 db = Returned db1 ->
  nth_error (newsQuantifications db1) i = Some q ->
  exists q',
    nth_error
      (newsQuantifications
         (fst (quantifyNewsForPeriod toFixed showInt newId
                                     startDate endDate maxLagDays now2 db1)))
      i = Some q'
    /\ NewsQuantification.frame q' = NewsQuantification.frame q
    /\ (NewsQuantification.id q = quantificationId ->
        NewsQuantification.humanVerified q' = true
        /\ NewsQuantification.humanScore q' = Some (fb_humanScore fb)).
Proof.
  intros Hs Hq.
  destruct (quantifyNewsForPeriod_keeps_frames
              startDate endDate maxLagDays now2 db1 i q Hq) as [q' [Hq' Hf]].
  exists q'. split; [exact Hq'|]. split; [exact Hf|].
  intros Hid.
  destruct (submitFeedback_verifies _ _ _ _ _ _ _ Hs Hq Hid) as [Hv Hh].
  unfold NewsQuantification.frame in Hf. inversion Hf. split; congruence.
Qed.

End FeedbackFacts.

Section FeedbackCases.

Import Quantifier Samples.

Lemma feedback_preserved_witness :
  exists db1 q q',
    submitFeedback "q1" review 5 review_db = Returned db1
    /\ nth_error (newsQuantifications db1) 0 = Some q
    /\ nth_error
         (newsQuantifications
            (fst (quantifyNewsForPeriod toFixed_blank showInt_blank
                    newId_count 0 (2 * Js.msPerDay) None 9 db1)))
         0 = Some q'
    /\ NewsQuantification.frame q' = NewsQuantification.frame q
    /\ NewsQuantification.humanVerified q' = true
    /\ NewsQuantification.humanScore q' = Some (Fin 40)
    /\ num_eqb (NewsQuantification.impactScore q')
           (NewsQuantification.impactScore q) = false.
Proof.
  eexists. eexists.
  assert (Hs : submitFeedback "q1" review 5 review_db
               = Returned
                   {| goldPrices := goldPrices review_db;
                      newsArticles := newsArticles review_db;
                      newsQuantifications :=
                        [verify 5 review unreviewed] |})
    by reflexivity.
  destruct (feedback_preserved toFixed_blank showInt_blank newId_count
              "q1" review 5 9 review_db _ 0 (2 * Js.msPerDay) None 0%nat
              (verify 5 review unreviewed) Hs eq_refl)
    as [q' [H1 [H2 H3]]].
  exists q'. split; [exact Hs|]. split; [reflexivity|].
  split; [exact H1|]. split; [exact H2|].
  destruct (H3 eq_refl) as [H4 H5].
  split; [exact H4|]. split; [exact H5|].
  vm_compute in H1. inversion H1. reflexivity.
Defined.

End FeedbackCases.

(* ================================================================== *)
(** * The predictor: strengths of the gathered signals *)
(* ================================================================== *)

Lemma nmin_cap_ok (x : num) (cap : Q) :
  nonneg_or_nan x -> 0 <= cap -> strength_ok (nmin x (Fin cap)).
Proof.
  intros [->|H] Hc; [left; reflexivity|].
  destruct x as [q| | |]; simpl in *; try discriminate.
  - right. qprop. destruct (Qleb q cap); eauto.
  - right. eauto.
Qed.

Lemma nabs_nonneg (x : num) : nonneg_or_nan (nabs x).
Proof.
  destruct x as [q| | |]; simpl; [right|right|right|left]; try reflexivity.
  simpl. qprop. apply Qabs_nonneg.
Qed.

Lemma nmul_nonneg (x : num) (k : Q) :
  nonneg_or_nan x -> 0 <= k -> nonneg_or_nan (x * Fin k)%num.
Proof.
  intros [->|H] Hk; [left; reflexivity|].
  destruct x as [q| | |]; cbn [nle nmul] in *; try discriminate.
  - right. cbn [nle]. qprop. nra.
  - destruct (Qcompare_spec k 0) as [E|E|E]; cbn [inf_of_sign];
      [left|right|right]; try reflexivity. lra.
Qed.

Lemma nsub_nonneg_of_gt (x : num) (c : Q) :
  ngt x (Fin c) = true -> nonneg_or_nan (x - Fin c)%num.
Proof.
  destruct x as [q| | |]; simpl; try discriminate; intros H; right.
  - simpl. qprop. lra.
  - reflexivity.
Qed.

Lemma nsub_nonneg_of_lt (x : num) (c : Q) :
  nlt x (Fin c) = true -> nonneg_or_nan (Fin c - x)%num.
Proof.
  destruct x as [q| | |]; simpl; try discriminate; intros H; right.
  - simpl. qprop. lra.
  - reflexivity.
Qed.

Lemma nonneg_of_gt (x : num) : ngt x (Fin 0) = true -> nonneg_or_nan x.
Proof.
  destruct x as [q| | |]; simpl; try discriminate; intros H; right.
  - simpl. qprop. lra.
  - reflexivity.
Qed.

Section GatherFacts.

Variable toFixed : num -> nat -> string.
Variable showInt : Z -> string.

Import Predictor.

Lemma strengths_ok_nil : strengths_ok [].
Proof. intros s []. Qed.

Lemma strengths_ok_one (s : PredictionSignal) :
  strength_ok (strength s) -> strengths_ok [s].
Proof. intros H s' [<-|[]]. exact H. Qed.

Lemma strengths_ok_app (l1 l2 : list PredictionSignal) :
  strengths_ok l1 -> strengths_ok l2 -> strengths_ok (l1 ++ l2).
Proof.
  intros H1 H2 s Hs. apply in_app_or in Hs. destruct Hs; auto.
Qed.

Lemma strengths_ok_flat_map {A : Type} (f : A -> list PredictionSignal)
      (xs : list A) :
  (forall x, strengths_ok (f x)) -> strengths_ok (flat_map f xs).
Proof.
  intros H s Hs. apply in_flat_map in Hs. destruct Hs as [x [_ Hx]].
  exact (H x s Hx).
Qed.

Lemma rsi_signals_ok (closePrices : list num) :
  strengths_ok (rsi_signals toFixed closePrices).
Proof.
  unfold rsi_signals.
  destruct (ngt (calculateRSI closePrices 14) (Fin 70)) eqn:E1;
    [|destruct (nlt (calculateRSI closePrices 14) (Fin 30)) eqn:E2].
  - apply strengths_ok_one. cbn [strength].
    apply nmin_cap_ok; [|lra]. apply nmul_nonneg; [|lra].
    apply nsub_nonneg_of_gt, E1.
  - apply strengths_ok_one. cbn [strength].
    apply nmin_cap_ok; [|lra]. apply nmul_nonneg; [|lra].
    apply nsub_nonneg_of_lt, E2.
  - apply strengths_ok_nil.
Qed.

Lemma macd_signals_ok (closePrices : list num) :
  strengths_ok (macd_signals closePrices).
Proof.
  unfold macd_signals.
  destruct (_ && _); [|destruct (_ && _)].
  - apply strengths_ok_one. cbn [strength].
    apply nmin_cap_ok; [|lra]. apply nmul_nonneg; [|lra]. apply nabs_nonneg.
  - apply strengths_ok_one. cbn [strength].
    apply nmin_cap_ok; [|lra]. apply nmul_nonneg; [|lra]. apply nabs_nonneg.
  - apply strengths_ok_nil.
Qed.

Lemma sma_signals_ok (latest : GoldPrice.t) :
  strengths_ok (sma_signals toFixed latest).
Proof.
  unfold sma_signals.
  destruct (GoldPrice.sma50 latest) as [s50|]; [|apply strengths_ok_nil].
  destruct (GoldPrice.sma200 latest) as [s200|]; [|apply strengths_ok_nil].
  destruct (_ && _); [|apply strengths_ok_nil].
  destruct (ngt _ (Fin 0)) eqn:E.
  - apply strengths_ok_one. cbn [strength].
    apply nmin_cap_ok; [|lra]. apply nmul_nonneg; [|lra].
    apply nonneg_of_gt, E.
  - apply strengths_ok_one. cbn [strength].
    apply nmin_cap_ok; [|lra]. apply nmul_nonneg; [|lra]. apply nabs_nonneg.
Qed.

Lemma trend_signals_ok (prices : list GoldPrice.t) :
  strengths_ok (trend_signals toFixed prices).
Proof.
  unfold trend_signals.
  destruct (20 <=? _)%nat; [|apply strengths_ok_nil].
  destruct (ngt (nabs _) (Fin 1)); [|apply strengths_ok_nil].
  apply strengths_ok_one. cbn [strength].
  apply nmin_cap_ok; [|lra]. apply nmul_nonneg; [|lra]. apply nabs_nonneg.
Qed.

Lemma pattern_signal_ok (occurrence : PatternOccurrence) :
  strengths_ok (pattern_signal occurrence).
Proof.
  unfold pattern_signal.
  destruct (occ_pattern occurrence); [|apply strengths_ok_nil].
  apply strengths_ok_one. cbn [strength].
  apply nmin_cap_ok; [|lra]. apply nabs_nonneg.
Qed.

Lemma getNewsSignals_ok (now : Z) (tbl : list NewsRow) :
  strengths_ok (getNewsSignals toFixed showInt now tbl).
Proof.
  unfold getNewsSignals.
  destruct (0 <? _)%nat; [|apply strengths_ok_nil].
  destruct (ngt (nabs _) (Fin 10)); [|apply strengths_ok_nil].
  apply strengths_ok_one. cbn [strength].
  apply nmin_cap_ok; [|lra]. apply nabs_nonneg.
Qed.

Lemma economic_signal_ok (entry : string * list num) :
  strengths_ok (economic_signal toFixed entry).
Proof.
  unfold economic_signal. destruct entry as [name_ values].
  destruct values as [|latest [|previous rest]]; try apply strengths_ok_nil.
  match goal with
  | |- context [let '(dir, descr) := ?e in _] => destruct e as [dir descr]
  end.
  destruct (_ && _); [|apply strengths_ok_nil].
  apply strengths_ok_one. cbn [strength].
  apply nmin_cap_ok; [|lra]. apply nmul_nonneg; [|lra]. apply nabs_nonneg.
Qed.

Lemma detectTechnicalPatterns_ok (prices : list GoldPrice.t)
      (l : list PredictionSignal) :
  detectTechnicalPatterns toFixed prices = Returned l -> strengths_ok l.
Proof.
  unfold detectTechnicalPatterns.
  destruct (nth_error prices _) as [latest|]; [|discriminate].
  intros H. inversion H; subst l; clear H.
  repeat apply strengths_ok_app.
  - apply rsi_signals_ok.
  - apply macd_signals_ok.
  - apply sma_signals_ok.
  - apply trend_signals_ok.
Qed.

End GatherFacts.

(* ================================================================== *)
(** * The predictor: fusion *)
(* ================================================================== *)

Section FusionFacts.

Import Predictor.

Lemma sourceWeights_pos (s : source) :
  exists w, sourceWeights s = Fin w /\ 0 < w.
Proof. destruct s; simpl; eexists; split; try reflexivity; lra. Qed.

Lemma weight_cases (signal : PredictionSignal) :
  strength_ok (strength signal) ->
  (sourceWeights (sig_source signal) * (strength signal / Fin 100))%num = NaN
  \/ exists w q,
       strength signal = Fin q /\ 0 <= q /\ 0 <= w
       /\ (sourceWeights (sig_source signal)
             * (strength signal / Fin 100))%num = Fin w.
Proof.
  destruct (sourceWeights_pos (sig_source signal)) as [w [-> Hw]].
  intros [->|[q [-> Hq]]]; [left; reflexivity|right].
  exists (w * (q / 100)), q. simpl.
  repeat split; try assumption.
  assert (0 <= q / 100) by (apply Qle_shift_div_l; lra). nra.
Qed.

Lemma nadd_nan_r (x : num) : (x + NaN)%num = NaN.
Proof. destruct x; reflexivity. Qed.

Lemma accumulate_inv (acc : scores) (signal : PredictionSignal) :
  scores_inv acc -> strength_ok (strength signal) ->
  scores_inv (accumulate acc signal).
Proof.
  intros Hacc Hs. unfold accumulate, scores_inv.
  cbn [totalWeight bullishScore bearishScore].
  destruct Hacc as [Hn|(b & r & t & Hb & Hr & Ht & Hb0 & Hr0 & Hbr)].
  - left. rewrite Hn. reflexivity.
  - destruct (weight_cases signal Hs) as [Hw|(w & q & _ & _ & Hw0 & Hw)];
      rewrite Hw.
    + left. apply nadd_nan_r.
    + right. rewrite Hb, Hr, Ht.
      destruct (sig_direction signal); simpl;
        do 3 eexists; repeat split; try reflexivity; lra.
Qed.

Lemma fold_accumulate_inv (signals : list PredictionSignal) (acc : scores) :
  scores_inv acc ->
  (forall s, In s signals -> strength_ok (strength s)) ->
  scores_inv (fold_left accumulate signals acc).
Proof.
  revert acc. induction signals as [|s signals IH]; intros acc Hacc Hs; simpl.
  - exact Hacc.
  - apply IH.
    + apply accumulate_inv; [exact Hacc|]. apply Hs. left. reflexivity.
    + intros s' Hs'. apply Hs. right. exact Hs'.
Qed.

Lemma scores0_inv : scores_inv scores0.
Proof. right. exists 0, 0, 0. repeat split; lra. Qed.

Lemma netScore_range (signals : list PredictionSignal) :
  (forall s, In s signals -> strength_ok (strength s)) ->
  within (-1) 1 (netScore signals).
Proof.
  intros Hs. unfold netScore. fold scores0.
  destruct (fold_accumulate_inv signals scores0 scores0_inv Hs)
    as [Hn|(b & r & t & Hb & Hr & Ht & Hb0 & Hr0 & Hbr)].
  - rewrite Hn. simpl. exists 0. split; [reflexivity|lra].
  - rewrite Hb, Hr, Ht. simpl.
    destruct (Qltb 0 t) eqn:E.
    + qprop. destruct (Qeqb t 0) eqn:E0; [qprop; lra|].
      eexists. split; [reflexivity|]. split.
      * apply Qle_shift_div_l; lra.
      * apply Qle_shift_div_r; lra.
    + exists 0. split; [reflexivity|lra].
Qed.

Lemma fuse_bounds (signals : list PredictionSignal) (net : Q) :
  netScore signals = Fin net -> -1 <= net <= 1 ->
  fusion_bounds net (fuse signals).
Proof.
  intros En Hn. unfold fuse. rewrite En. cbn [nabs nlt ngt nmul nadd nsub nneg].
  destruct (Qltb (Qabs net) 0.1) eqn:E1.
  - qprop. unfold fusion_bounds.
    assert (H0 : 0 <= Qabs net) by apply Qabs_nonneg.
    split; [|split; [|split; [exact E1|split]]].
    + eexists. split; [reflexivity|]. lra.
    + exists 0. split; [reflexivity|lra].
    + eexists. split; [reflexivity|]. lra.
    + reflexivity.
  - qprop. destruct (Qltb 0 net) eqn:E2; qprop.
    + pose proof (Qabs_pos net ltac:(lra)) as Ha. unfold fusion_bounds.
      assert (Hc : within 55 90 (nmin (Fin (50 + net * 50)) (Fin 90))).
      { cbn [nmin nle]. destruct (Qleb (50 + net * 50) 90) eqn:E3; qprop;
          eexists; (split; [reflexivity|]); lra. }
      split; [|split; [|split; [lra|split]]].
      * destruct Hc as [c [-> Hc]]. exists c. split; [reflexivity|lra].
      * eexists. split; [reflexivity|]. lra.
      * exact Hc.
      * reflexivity.
    + pose proof (Qabs_neg net ltac:(lra)) as Ha. unfold fusion_bounds.
      assert (Hc : within 55 90 (nmin (Fin (50 + Qabs net * 50)) (Fin 90))).
      { cbn [nmin nle].
        destruct (Qleb (50 + Qabs net * 50) 90) eqn:E3; qprop;
          eexists; (split; [reflexivity|]); lra. }
      split; [|split; [|split; [lra|split]]].
      * destruct Hc as [c [-> Hc]]. exists c. split; [reflexivity|lra].
      * eexists. split; [reflexivity|]. lra.
      * exact Hc.
      * reflexivity.
Qed.

End FusionFacts.

Section OneSided.

Import Predictor.

(** While every signal is bullish the bullish score is the total weight,
    whatever the weights are, and the bearish score does not move. *)
Lemma fold_all_bullish (signals : list PredictionSignal) (acc : scores) :
  (forall s, In s signals -> sig_direction s = bullish) ->
  bullishScore acc = totalWeight acc ->
  bullishScore (fold_left accumulate signals acc)
  = totalWeight (fold_left accumulate signals acc)
  /\ bearishScore (fold_left accumulate signals acc) = bearishScore acc.
Proof.
  revert acc. induction signals as [|s signals IH]; intros acc Hd Hacc.
  - split; [exact Hacc|reflexivity].
  - cbn [fold_left].
    assert (Hs : sig_direction s = bullish) by (apply Hd; left; reflexivity).
    destruct (IH (accumulate acc s)) as [H1 H2].
    + intros s' Hs'. apply Hd. right. exact Hs'.
    + unfold accumulate. cbn [bullishScore totalWeight]. rewrite Hs, Hacc.
      reflexivity.
    + split; [exact H1|]. rewrite H2. unfold accumulate.
      cbn [bearishScore]. rewrite Hs. reflexivity.
Qed.

Lemma fold_all_bearish (signals : list PredictionSignal) (acc : scores) :
  (forall s, In s signals -> sig_direction s = bearish) ->
  bearishScore acc = totalWeight acc ->
  bearishScore (fold_left accumulate signals acc)
  = totalWeight (fold_left accumulate signals acc)
  /\ bullishScore (fold_left accumulate signals acc) = bullishScore acc.
Proof.
  revert acc. induction signals as [|s signals IH]; intros acc Hd Hacc.
  - split; [exact Hacc|reflexivity].
  - cbn [fold_left].
    assert (Hs : sig_direction s = bearish) by (apply Hd; left; reflexivity).
    destruct (IH (accumulate acc s)) as [H1 H2].
    + intros s' Hs'. apply Hd. right. exact Hs'.
    + unfold accumulate. cbn [bearishScore totalWeight]. rewrite Hs, Hacc.
      reflexivity.
    + split; [exact H1|]. rewrite H2. unfold accumulate.
      cbn [bullishScore]. rewrite Hs. reflexivity.
Qed.

Lemma netScore_accumulated (signals : list PredictionSignal) :
  netScore signals
  = if ngt (totalWeight (accumulated signals)) (Fin 0)
    then ((bullishScore (accumulated signals)
           - bearishScore (accumulated signals))
          / totalWeight (accumulated signals))%num
    else Fin 0.
Proof. reflexivity. Qed.

Lemma netScore_all_bullish (signals : list PredictionSignal) (t : Q) :
  totalWeight (accumulated signals) = Fin t -> 0 < t ->
  (forall s, In s signals -> sig_direction s = bullish) ->
  exists net, netScore signals = Fin net /\ net == 1.
Proof.
  intros Et Ht Hd. rewrite netScore_accumulated.
  destruct (fold_all_bullish signals scores0 Hd eq_refl) as [Hb Hr].
  fold (accumulated signals) in Hb, Hr.
  rewrite Hb, Hr, Et. cbn [scores0 bearishScore ngt nlt nsub nneg nadd ndiv].
  assert (E : Qltb 0 t = true) by (qprop; lra). rewrite E.
  assert (E0 : Qeqb t 0 = false) by (qprop; lra). rewrite E0.
  eexists. split; [reflexivity|]. field. lra.
Qed.

Lemma netScore_all_bearish (signals : list PredictionSignal) (t : Q) :
  totalWeight (accumulated signals) = Fin t -> 0 < t ->
  (forall s, In s signals -> sig_direction s = bearish) ->
  exists net, netScore signals = Fin net /\ net == -1.
Proof.
  intros Et Ht Hd. rewrite netScore_accumulated.
  destruct (fold_all_bearish signals scores0 Hd eq_refl) as [Hr Hb].
  fold (accumulated signals) in Hb, Hr.
  rewrite Hb, Hr, Et. cbn [scores0 bullishScore ngt nlt nsub nneg nadd ndiv].
  assert (E : Qltb 0 t = true) by (qprop; lra). rewrite E.
  assert (E0 : Qeqb t 0 = false) by (qprop; lra). rewrite E0.
  eexists. split; [reflexivity|]. field. lra.
Qed.

(** A total weight that is not positive (zero, negative or [NaN]) gives the
    net score 0. *)
Lemma netScore_without_weight (signals : list PredictionSignal) :
  ngt (totalWeight (accumulated signals)) (Fin 0) = false ->
  netScore signals = Fin 0.
Proof. intros H. rewrite netScore_accumulated, H. reflexivity. Qed.

Lemma fuse_sideways (signals : list PredictionSignal) :
  netScore signals = Fin 0 ->
  exists confidence,
    fuse signals = (sideways, Fin confidence, Fin 0) /\ confidence == 50.
Proof.
  intros H. unfold fuse. rewrite H.
  eexists. split; [reflexivity|]. reflexivity.
Qed.

(** Signals of strength 0 leave a total weight of 0 as it is. *)
Lemma fold_zero_strength (signals : list PredictionSignal) (acc : scores) :
  (forall s, In s signals -> num_eqb (strength s) (Fin 0) = true) ->
  num_eqb (totalWeight acc) (Fin 0) = true ->
  num_eqb (totalWeight (fold_left accumulate signals acc)) (Fin 0) = true.
Proof.
  revert acc. induction signals as [|s signals IH]; intros acc Hs Hacc.
  - exact Hacc.
  - cbn [fold_left]. apply IH.
    + intros s' Hs'. apply Hs. right. exact Hs'.
    + specialize (Hs s (or_introl eq_refl)).
      unfold accumulate. cbn [totalWeight].
      destruct (sourceWeights_pos (sig_source s)) as [w [-> _]].
      destruct (strength s) as [q| | |]; try discriminate Hs.
      destruct (totalWeight acc) as [t| | |]; try discriminate Hacc.
      cbn [num_eqb] in *. qprop.
      change (Fin q / Fin 100)%num with (Fin (q / 100)).
      cbn [nmul nadd num_eqb]. qprop. rewrite Hs, Hacc. field.
Qed.

(** C6 (amended). When the total weight accumulated over the signals is a
    positive finite number, the fusion step returns "up" with a predicted
    change of +5 if every signal is bullish, and "down" with a predicted
    change of -5 if every signal is bearish.  When the total weight is not
    positive the net score is 0 and the prediction is sideways, with
    confidence 50 and a predicted change of 0, whatever the directions of
    the signals; this is so without any signal and when every signal has
    strength 0. *)
Theorem fuse_one_sided (signals : list PredictionSignal) :
  (forall t, totalWeight (accumulated signals) = Fin t -> 0 < t ->
     ((forall s, In s signals -> sig_direction s = bullish) ->
      exists confidence change,
        fuse signals = (up, confidence, Fin change) /\ change == 5)
     /\
     ((forall s, In s signals -> sig_direction s = bearish) ->
      exists confidence change,
        fuse signals = (down, confidence, Fin change) /\ change == -5))
  /\
  (ngt (totalWeight (accumulated signals)) (Fin 0) = false ->
   netScore signals = Fin 0
   /\ exists confidence,
        fuse signals = (sideways, Fin confidence, Fin 0)
        /\ confidence == 50)
  /\
  ((forall s, In s signals -> num_eqb (strength s) (Fin 0) = true) ->
   ngt (totalWeight (accumulated signals)) (Fin 0) = false).
Proof.
  split; [|split].
  - intros t Et Ht. split; intros Hd.
    + destruct (netScore_all_bullish signals t Et Ht Hd) as [net [En Hn]].
      pose proof (fuse_bounds signals net En ltac:(lra)) as Hb.
      destruct (fuse signals) as [[dir c] ch]. unfold fusion_bounds in Hb.
      destruct Hb as [_ [_ Hb]].
      pose proof (Qabs_pos net ltac:(lra)) as Ha.
      destruct dir.
      * destruct Hb as [_ [_ ->]]. exists c, (net * 5).
        split; [reflexivity|lra].
      * destruct Hb as [Hb _]. lra.
      * destruct Hb as [Hb _]. lra.
    + destruct (netScore_all_bearish signals t Et Ht Hd) as [net [En Hn]].
      pose proof (fuse_bounds signals net En ltac:(lra)) as Hb.
      destruct (fuse signals) as [[dir c] ch]. unfold fusion_bounds in Hb.
      destruct Hb as [_ [_ Hb]].
      pose proof (Qabs_neg net ltac:(lra)) as Ha.
      destruct dir.
      * destruct Hb as [Hb _]. lra.
      * destruct Hb as [_ [_ ->]]. exists c, (net * 5).
        split; [reflexivity|lra].
      * destruct Hb as [Hb _]. lra.
  - intros H. pose proof (netScore_without_weight signals H) as En.
    split; [exact En|]. apply fuse_sideways. exact En.
  - intros Hs.
    pose proof (fold_zero_strength signals scores0 Hs eq_refl) as H.
    fold (accumulated signals) in H.
    destruct (totalWeight (accumulated signals)) as [t| | |];
      try discriminate H.
    cbn [num_eqb] in H. cbn [ngt nlt]. qprop. lra.
Qed.

End OneSided.

Section PredictionFacts.

Variable toFixed : num -> nat -> string.
Variable showInt : Z -> string.

Import Predictor.

Lemma length_insert_by {A : Type} (keep : A -> A -> bool) (x : A)
      (l : list A) :
  List.length (insert_by keep x l) = S (List.length l).
Proof.
  induction l as [|y l IH]; simpl; [reflexivity|].
  destruct (keep x y); simpl; [reflexivity|]. rewrite IH. reflexivity.
Qed.

Lemma length_sort_by {A : Type} (keep : A -> A -> bool) (l : list A) :
  List.length (sort_by keep l) = List.length l.
Proof.
  induction l as [|x l IH]; [reflexivity|].
  change (sort_by keep (x :: l)) with (insert_by keep x (sort_by keep l)).
  rewrite length_insert_by, IH. reflexivity.
Qed.

Lemma last_exists {A : Type} (l : list A) :
  l <> [] -> exists x, nth_error l (List.length l - 1) = Some x.
Proof.
  intros H. destruct (nth_error l (List.length l - 1)) eqn:E; [eauto|].
  apply nth_error_None in E. destruct l; [congruence|]. simpl in E. lia.
Qed.

Lemma recent_prices_nonempty (tbl : list GoldPrice.t) :
  tbl <> [] ->
  rev (firstn 200
         (sort_by (fun a b => (GoldPrice.date b <=? GoldPrice.date a)%Z) tbl))
  <> [].
Proof.
  intros H E. apply (f_equal (@List.length _)) in E.
  rewrite length_rev, length_firstn, length_sort_by in E.
  destruct tbl; [congruence|]. simpl in E. lia.
Qed.

(** The signals gathered by [generatePrediction] have a finite,
    non-negative strength, or [NaN]. *)
Lemma gathered_strengths_ok (now : Z) (db : Db)
      (technicalSignals : list PredictionSignal) :
  strengths_ok technicalSignals ->
  strengths_ok
    (technicalSignals
       ++ getPatternSignals now (patternOccurrences db)
       ++ getNewsSignals toFixed showInt now (newsQuantifications db)
       ++ getEconomicSignals toFixed now (economicIndicators db)).
Proof.
  intros Ht. repeat apply strengths_ok_app.
  - exact Ht.
  - apply strengths_ok_flat_map, pattern_signal_ok.
  - apply getNewsSignals_ok.
  - apply strengths_ok_flat_map, economic_signal_ok.
Qed.

(** C10. For every content of the pattern, news and indicator tables and
    every non-empty price table, [generatePrediction] returns a prediction
    whose net score lies in [-1, 1], whose confidence lies in [30, 90] and
    whose predicted change lies in [-5, 5]: on the sideways branch the
    confidence is in (30, 50] and the change is 0; on the two directional
    branches the confidence is in [55, 90] and the change is the net score
    times 5. *)
Theorem generatePrediction_bounds (horizonDays now : Z) (db : Db) :
  goldPrices db <> [] ->
  exists p net,
    generatePrediction toFixed showInt horizonDays now db = Returned p
    /\ netScore (signals p) = Fin net /\ -1 <= net <= 1
    /\ fusion_bounds net
         (predictedDirection p, confidence p, predictedChange p).
Proof.
  intros Hne. unfold generatePrediction.
  set (prices := rev _).
  destruct (last_exists prices (recent_prices_nonempty _ Hne))
    as [latest Hl].
  assert (Ht : exists technicalSignals,
             detectTechnicalPatterns toFixed prices
             = Returned technicalSignals).
  { unfold detectTechnicalPatterns. rewrite Hl. eauto. }
  destruct Ht as [technicalSignals Ht]. rewrite Ht, Hl.
  pose proof (gathered_strengths_ok now db technicalSignals
                (detectTechnicalPatterns_ok toFixed prices _ Ht)) as Hok.
  set (allSignals := technicalSignals ++ _) in *.
  destruct (netScore_range allSignals Hok) as [net [En Hn]].
  pose proof (fuse_bounds allSignals net En Hn) as Hb.
  destruct (fuse allSignals) as [[dir c] ch].
  eexists. exists net. split; [reflexivity|].
  cbn [signals predictedDirection confidence predictedChange].
  auto.
Qed.

End PredictionFacts.

Section PredictionCases.

Import Predictor Samples.

(** C6, as stated, fails.  The empty collection has only bullish signals
    and only bearish ones, and its prediction is sideways.  So is the
    prediction when the one gathered signal is the bearish "Death Cross
    Active" of strength 0 that two equal moving averages produce. *)
Lemma one_sided_signals_yet_sideways :
  (forall s, In s [] -> sig_direction s = bullish)
  /\ fuse [] = (sideways, Fin 50, Fin 0)
  /\ exists p,
       generatePrediction toFixed_blank showInt_blank 7 0 equal_sma_db
       = Returned p
       /\ map name (signals p) = ["Death Cross Active"]
       /\ map sig_direction (signals p) = [bearish]
       /\ predictedDirection p = sideways
       /\ predictedChange p = Fin 0.
Proof.
  split; [intros s []|]. split; [reflexivity|].
  eexists. split; [reflexivity|]. repeat split.
Qed.

Lemma fuse_one_sided_witness :
  (exists confidence change,
     fuse [bullish_signal 40; bullish_signal 0]
     = (up, confidence, Fin change) /\ change == 5)
  /\ (exists confidence,
        fuse [bullish_signal 0; bullish_signal 0]
        = (sideways, Fin confidence, Fin 0) /\ confidence == 50).
Proof.
  split.
  - destruct (fuse_one_sided [bullish_signal 40; bullish_signal 0])
      as [Hup _].
    refine (proj1 (Hup _ eq_refl _) _).
    + reflexivity.
    + intros s [<-|[<-|[]]]; reflexivity.
  - destruct (fuse_one_sided [bullish_signal 0; bullish_signal 0])
      as [_ [Hside Hzero]].
    apply Hside, Hzero.
    intros s [<-|[<-|[]]]; reflexivity.
Defined.

Lemma generatePrediction_bounds_witness :
  goldPrices golden_db <> []
  /\ exists p net,
       generatePrediction toFixed_blank showInt_blank 7 0 golden_db
       = Returned p
       /\ netScore (signals p) = Fin net /\ -1 <= net <= 1
       /\ fusion_bounds net
            (predictedDirection p, confidence p, predictedChange p).
Proof.
  assert (H : goldPrices golden_db <> []) by discriminate.
  split; [exact H|].
  apply (generatePrediction_bounds toFixed_blank showInt_blank 7 0
                                   golden_db H).
Defined.

End PredictionCases.

(* ================================================================== *)
(** * The pattern detector: bounds of the occurrences *)
(* ================================================================== *)

Lemma within_weaken (a b a' b' : Q) (x : num) :
  within a b x -> a' <= a -> b <= b' -> within a' b' x.
Proof.
  intros [q [-> H]] Ha Hb. exists q. split; [reflexivity|lra].
Qed.

Lemma within_neg (a b : Q) (x : num) :
  within a b x -> within (- b) (- a) (nneg x).
Proof.
  intros [q [-> H]]. exists (- q). split; [reflexivity|lra].
Qed.

Lemma pos_inf_mul (x : num) (k : Q) :
  pos_inf x -> 0 < k -> pos_inf (x * Fin k)%num.
Proof.
  unfold pos_inf. intros H Hk.
  destruct x as [q| | |]; cbn [nle nmul] in *; try discriminate.
  - qprop. nra.
  - apply Qgt_alt in Hk. rewrite Hk. reflexivity.
Qed.

Lemma pos_inf_div (x : num) (k : Q) :
  pos_inf x -> 0 < k -> pos_inf (x / Fin k)%num.
Proof.
  unfold pos_inf. intros H Hk.
  assert (E0 : Qeqb k 0 = false) by (qprop; lra).
  assert (E1 : Qltb k 0 = false) by (qprop; lra).
  destruct x as [q| | |]; cbn [nle ndiv] in *; try discriminate.
  - rewrite E0. cbn [nle]. qprop. apply Qle_shift_div_l; lra.
  - rewrite E1. reflexivity.
Qed.

(** [x / y] for [x > 0] (or [Infinity]) and a finite [y >= 0]. *)
Lemma pos_inf_quot (x : num) (y : Q) :
  ngt x (Fin 0) = true -> 0 <= y -> pos_inf (x / Fin y)%num.
Proof.
  unfold pos_inf. intros H Hy.
  destruct x as [q| | |]; cbn [ngt nlt nle ndiv] in *; try discriminate.
  - qprop. destruct (Qeqb y 0) eqn:E0; qprop.
    + apply Qgt_alt in H. rewrite H. reflexivity.
    + cbn [nle]. qprop. apply Qle_shift_div_l; lra.
  - assert (E1 : Qltb y 0 = false) by (qprop; lra).
    rewrite E1. reflexivity.
Qed.

Lemma cap_within (a cap : Q) (x : num) :
  pos_inf x -> a <= cap ->
  within a cap (nmin (Fin cap) (Fin a + x)%num).
Proof.
  unfold pos_inf. intros H Hc.
  destruct x as [q| | |]; cbn [nle nadd nmin] in *; try discriminate.
  - qprop. destruct (Qleb cap (a + q)) eqn:E; qprop;
      eexists; (split; [reflexivity|]); lra.
  - exists cap. split; [reflexivity|lra].
Qed.

Lemma cap_within0 (cap : Q) (x : num) :
  pos_inf x -> 0 <= cap -> within 0 cap (nmin (Fin cap) x).
Proof.
  unfold pos_inf. intros H Hc.
  destruct x as [q| | |]; cbn [nle nmin] in *; try discriminate.
  - qprop. destruct (Qleb cap q) eqn:E; qprop;
      eexists; (split; [reflexivity|]); lra.
  - exists cap. split; [reflexivity|lra].
Qed.

Lemma nsub_pos_of_gt (x y : num) :
  ngt x y = true -> ngt (x - y)%num (Fin 0) = true.
Proof.
  destruct x as [p| | |], y as [q| | |];
    cbn [ngt nlt nsub nadd nneg]; try discriminate; try reflexivity.
  intros H. qprop. lra.
Qed.

Lemma pos_inf_of_ge (x : num) (c : Q) :
  0 <= c -> nge x (Fin c) = true -> pos_inf x.
Proof.
  unfold pos_inf. intros Hc.
  destruct x as [q| | |]; cbn [nge nle]; try discriminate; try reflexivity.
  intros H. qprop. lra.
Qed.

Lemma ngt_nan (x : num) : ngt x NaN = false.
Proof. destruct x; reflexivity. Qed.

Lemma ngt_pinf (x : num) : ngt x PInf = false.
Proof. destruct x; reflexivity. Qed.

(** The window extremes of finite closes. *)
Lemma fold_nmax_fin (xs : list num) (a : Q) :
  Forall is_finite xs ->
  exists h, fold_left nmax xs (Fin a) = Fin h /\ a <= h.
Proof.
  intros H. revert a. induction H as [|x xs [q ->] _ IH]; intros a; simpl.
  - exists a. split; [reflexivity|lra].
  - destruct (Qleb a q) eqn:E; qprop.
    + destruct (IH q) as [h [Eh Hh]]. exists h. split; [exact Eh|lra].
    + destruct (IH a) as [h [Eh Hh]]. exists h. split; [exact Eh|lra].
Qed.

Lemma fold_nmin_fin (xs : list num) (a : Q) :
  Forall is_finite xs ->
  exists l, fold_left nmin xs (Fin a) = Fin l /\ l <= a.
Proof.
  intros H. revert a. induction H as [|x xs [q ->] _ IH]; intros a; simpl.
  - exists a. split; [reflexivity|lra].
  - destruct (Qleb a q) eqn:E; qprop.
    + destruct (IH a) as [l [El Hl]]. exists l. split; [exact El|lra].
    + destruct (IH q) as [l [El Hl]]. exists l. split; [exact El|lra].
Qed.

Lemma window_extremes (xs : list num) :
  Forall is_finite xs -> xs <> [] ->
  exists h l, nmax_list xs = Fin h /\ nmin_list xs = Fin l /\ l <= h.
Proof.
  intros H Hne. destruct H as [|x xs [q ->] H]; [congruence|].
  unfold nmax_list, nmin_list. simpl.
  destruct (fold_nmax_fin xs q H) as [h [-> Hh]].
  destruct (fold_nmin_fin xs q H) as [l [-> Hl]].
  exists h, l. repeat split; lra.
Qed.

Section BoundsFacts.

Variable sqrt : num -> num.
Variable toFixed : num -> nat -> string.
Variable showInt : Z -> string.

Import GoldPrice PatternDetector.

Lemma cross_at_bounds (prev curr : GoldPrice.t) (p : DetectedPattern) :
  In p (cross_at toFixed prev curr) -> pattern_bounds p.
Proof.
  unfold cross_at.
  destruct (sma50 prev), (sma200 prev), (sma50 curr), (sma200 curr);
    try (intros []).
  destruct (_ && _ && _ && _); [|intros []].
  intros H. apply in_app_or in H. destruct H as [H|H].
  - destruct (_ && _); [|destruct H]. destruct H as [<-|[]].
    split; [exists 0.85; split; [reflexivity|lra]|]. left. auto.
  - destruct (_ && _); [|destruct H]. destruct H as [<-|[]].
    split; [exists 0.85; split; [reflexivity|lra]|]. right. left. auto.
Qed.

Lemma detectCrossPatterns_bounds (prices : list GoldPrice.t)
      (p : DetectedPattern) :
  In p (detectCrossPatterns toFixed prices) -> pattern_bounds p.
Proof.
  induction prices as [|prev rest IH]; [intros []|].
  destruct rest as [|curr rest']; [intros []|].
  change (detectCrossPatterns toFixed (prev :: curr :: rest'))
    with (cross_at toFixed prev curr
            ++ detectCrossPatterns toFixed (curr :: rest')).
  intros H. apply in_app_or in H. destruct H as [H|H].
  - eapply cross_at_bounds, H.
  - apply IH, H.
Qed.

Lemma slice_window_finite (prices : list GoldPrice.t) (i : nat) :
  finite_closes prices -> (lookback <= i < List.length prices)%nat ->
  Forall is_finite (map closePrice (slice (i - lookback) i prices))
  /\ map closePrice (slice (i - lookback) i prices) <> [].
Proof.
  intros Hf Hi. split.
  - apply Forall_forall. intros x Hx. apply in_map_iff in Hx.
    destruct Hx as [r [<- Hr]]. apply Hf. eapply in_slice, Hr.
  - intros E. apply (f_equal (@List.length _)) in E.
    unfold slice, lookback in *.
    rewrite length_map, length_firstn, length_skipn in E. simpl in E. lia.
Qed.

Lemma breakouts_at_bounds (prices : list GoldPrice.t) (i : nat)
      (p : DetectedPattern) :
  finite_closes prices -> (lookback <= i < List.length prices)%nat ->
  In p (breakouts_at toFixed showInt prices i) -> pattern_bounds p.
Proof.
  intros Hf Hi. unfold breakouts_at.
  destruct (nth_error prices i) as [curr|] eqn:Ec; [|intros []].
  destruct (Hf curr (nth_error_In _ _ Ec)) as [c Hc].
  destruct (slice_window_finite prices i Hf Hi) as [Hw Hne].
  destruct (window_extremes _ Hw Hne) as [h [l [Eh [El Hlh]]]].
  unfold windowHigh, windowLow. rewrite Eh, El, Hc.
  destruct (dailyChangePct curr) as [pct|]; [|intros []].
  destruct (volatility7d curr) as [vol|]; [|intros []].
  destruct (truthy pct && truthy vol); [|intros []].
  intros H. apply in_app_or in H. destruct H as [H|H].
  - destruct (ngt (Fin c) (Fin h) && ngt pct (Fin 1.5)) eqn:E; [|destruct H].
    apply andb_true_iff in E. destruct E as [E _].
    destruct H as [<-|[]].
    assert (Hs : pos_inf ((Fin c - Fin h) / (Fin h - Fin l) * Fin 100)%num).
    { apply pos_inf_mul; [|lra].
      change (Fin h - Fin l)%num with (Fin (h + - l)).
      apply pos_inf_quot; [|lra]. apply nsub_pos_of_gt, E. }
    split; cbn [confidence predictedMove patternType].
    + eapply within_weaken;
        [apply cap_within; [apply pos_inf_div; [exact Hs|lra]|lra]|lra|lra].
    + right. right. left. split; [reflexivity|].
      eapply within_weaken;
        [apply cap_within; [apply pos_inf_div; [exact Hs|lra]|lra]|lra|lra].
  - destruct (nlt (Fin c) (Fin l) && nlt pct (Fin (-1.5))) eqn:E;
      [|destruct H].
    apply andb_true_iff in E. destruct E as [E _].
    destruct H as [<-|[]].
    assert (Hs : pos_inf ((Fin l - Fin c) / (Fin h - Fin l) * Fin 100)%num).
    { apply pos_inf_mul; [|lra].
      change (Fin h - Fin l)%num with (Fin (h + - l)).
      apply pos_inf_quot; [|lra]. apply nsub_pos_of_gt, E. }
    split; cbn [confidence predictedMove patternType].
    + eapply within_weaken;
        [apply cap_within; [apply pos_inf_div; [exact Hs|lra]|lra]|lra|lra].
    + right. right. right. left. split; [reflexivity|].
      eapply within_weaken;
        [apply within_neg, cap_within;
         [apply pos_inf_div; [exact Hs|lra]|lra]|lra|lra].
Qed.

Lemma detectBreakouts_bounds (prices : list GoldPrice.t)
      (p : DetectedPattern) :
  finite_closes prices ->
  In p (detectBreakouts toFixed showInt prices) -> pattern_bounds p.
Proof.
  intros Hf H. unfold detectBreakouts in H. apply in_flat_map in H.
  destruct H as [i [Hi Hp]]. apply in_seq in Hi.
  apply (breakouts_at_bounds prices i p Hf); [lia|exact Hp].
Qed.

Lemma spike_at_bounds (avg std : num) (price : GoldPrice.t)
      (p : DetectedPattern) :
  std = NaN \/ nle (Fin 0) std = true ->
  In p (spike_at toFixed avg std (avg + Fin 2 * std)%num price) ->
  pattern_bounds p.
Proof.
  intros Hstd. unfold spike_at.
  destruct (volatility7d price) as [v|]; [|intros []].
  destruct (ngt v (avg + Fin 2 * std)%num) eqn:E; [|intros []].
  intros [<-|[]].
  assert (Hs : exists s, std = Fin s /\ 0 <= s).
  { destruct Hstd as [->|Hstd].
    - rewrite nadd_nan_r, ngt_nan in E. discriminate.
    - destruct std as [s| | |]; cbn [nle] in Hstd; try discriminate.
      + exists s. split; [reflexivity|]. qprop. exact Hstd.
      + replace (avg + Fin 2 * PInf)%num
          with (match avg with NaN | NInf => NaN | _ => PInf end) in E
          by (destruct avg; reflexivity).
        destruct avg; rewrite ?ngt_nan, ?ngt_pinf in E; discriminate. }
  destruct Hs as [s [-> Hs]].
  split; cbn [confidence predictedMove patternType].
  - eapply within_weaken; [apply cap_within|lra|lra]; [|lra].
    apply pos_inf_mul; [|lra]. apply pos_inf_quot; [|exact Hs].
    apply nsub_pos_of_gt, E.
  - do 4 right. left. auto.
Qed.

Lemma detectVolatilitySpikes_bounds (prices : list GoldPrice.t)
      (p : DetectedPattern) :
  sqrt_ok sqrt ->
  In p (detectVolatilitySpikes sqrt toFixed prices) -> pattern_bounds p.
Proof.
  intros Hsqrt. unfold detectVolatilitySpikes.
  destruct (_ =? 0)%nat; [intros []|].
  intros H. apply in_flat_map in H. destruct H as [price [_ H]].
  eapply spike_at_bounds; [|exact H]. apply Hsqrt.
Qed.

Lemma double_top_at_bounds (prices : list GoldPrice.t) pr
      (p : DetectedPattern) :
  In p (double_top_at toFixed showInt prices pr) -> pattern_bounds p.
Proof.
  unfold double_top_at. destruct pr as [[i1 first] [i2 second]].
  destruct (_ || _); [intros []|].
  destruct (nle _ tolerance); [|intros []].
  match goal with
  | |- In p (if nge ?d _ then _ else _) -> _ =>
      destruct (nge d (Fin 0.03)) eqn:E; [|intros []];
      assert (Hd : pos_inf d) by (eapply pos_inf_of_ge; [|exact E]; lra)
  end.
  intros [<-|[]]. split; cbn [confidence predictedMove patternType].
  - eapply within_weaken; [apply cap_within|lra|lra]; [|lra].
    apply pos_inf_mul; [exact Hd|lra].
  - do 5 right. left. split; [reflexivity|].
    eapply within_weaken; [apply within_neg, cap_within0|lra|lra]; [|lra].
    apply pos_inf_mul; [exact Hd|lra].
Qed.

Lemma double_bottom_at_bounds (prices : list GoldPrice.t) pr
      (p : DetectedPattern) :
  In p (double_bottom_at toFixed showInt prices pr) -> pattern_bounds p.
Proof.
  unfold double_bottom_at. destruct pr as [[i1 first] [i2 second]].
  destruct (_ || _); [intros []|].
  destruct (nle _ tolerance); [|intros []].
  match goal with
  | |- In p (if nge ?d _ then _ else _) -> _ =>
      destruct (nge d (Fin 0.03)) eqn:E; [|intros []];
      assert (Hd : pos_inf d) by (eapply pos_inf_of_ge; [|exact E]; lra)
  end.
  intros [<-|[]]. split; cbn [confidence predictedMove patternType].
  - eapply within_weaken; [apply cap_within|lra|lra]; [|lra].
    apply pos_inf_mul; [exact Hd|lra].
  - do 6 right. split; [reflexivity|].
    eapply within_weaken; [apply cap_within0|lra|lra]; [|lra].
    apply pos_inf_mul; [exact Hd|lra].
Qed.

Lemma detectDoublePatterns_bounds (prices : list GoldPrice.t)
      (p : DetectedPattern) :
  In p (detectDoublePatterns toFixed showInt prices) -> pattern_bounds p.
Proof.
  unfold detectDoublePatterns. intros H.
  apply in_app_or in H. destruct H as [H|H];
    apply in_flat_map in H; destruct H as [pr [_ H]].
  - eapply double_top_at_bounds, H.
  - eapply double_bottom_at_bounds, H.
Qed.

(** C8. With a square root that is never negative and finite close
    prices, every occurrence returned by [detectPatterns] has a confidence
    in [0, 1]; its predicted move is +5 for a golden cross, -5 for a death
    cross, 0 for a volatility spike, and at most 8 in magnitude for a
    breakout and for a double top or bottom. *)
Theorem detectPatterns_bounds (startDate endDate : option Z)
        (tbl : list GoldPrice.t) (p : DetectedPattern) :
  sqrt_ok sqrt -> finite_closes tbl ->
  In p (detectPatterns sqrt toFixed showInt startDate endDate tbl) ->
  pattern_bounds p.
Proof.
  intros Hsqrt Hf. unfold detectPatterns.
  set (prices := findMany_asc startDate endDate tbl).
  assert (Hfp : finite_closes prices).
  { intros r Hr. apply Hf. unfold prices, findMany_asc in Hr.
    apply in_sort_by in Hr. apply filter_In in Hr. tauto. }
  destruct (_ <? 30)%nat; [intros []|].
  intros H. apply in_sort_cmp in H.
  apply in_app_or in H. destruct H as [H|H];
    [eapply detectCrossPatterns_bounds, H|].
  apply in_app_or in H. destruct H as [H|H];
    [eapply detectBreakouts_bounds; [exact Hfp|exact H]|].
  apply in_app_or in H. destruct H as [H|H];
    [eapply detectVolatilitySpikes_bounds; [exact Hsqrt|exact H]|].
  eapply detectDoublePatterns_bounds, H.
Qed.

End BoundsFacts.

Section BoundsCases.

Import GoldPrice PatternDetector Samples.

Lemma sqrt_floor_ok : sqrt_ok sqrt_floor.
Proof.
  intros x. destruct x as [q| | |]; simpl; auto.
  destruct (Qltb q 0); [left; reflexivity|right]. cbn [nle]. qprop.
  match goal with
  | |- context [Z.sqrt ?t] => pose proof (Z.sqrt_nonneg t) as H
  end.
  unfold Qle. cbn [Qnum Qden]. lia.
Qed.

Lemma breakout_series_finite : finite_closes breakout_series.
Proof.
  intros r Hr. vm_compute in Hr.
  repeat (destruct Hr as [<-|Hr]; [eexists; reflexivity|]).
  destruct Hr.
Qed.

Lemma detectPatterns_bounds_witness :
  exists p,
    In p (detectPatterns sqrt_floor toFixed_blank showInt_blank
                         None None breakout_series)
    /\ patternType p = "breakout_up"
    /\ pattern_bounds p.
Proof.
  eexists. split; [vm_compute; left; reflexivity|].
  split; [reflexivity|].
  apply (detectPatterns_bounds sqrt_floor toFixed_blank showInt_blank
           None None breakout_series _ sqrt_floor_ok breakout_series_finite).
  vm_compute. left. reflexivity.
Defined.

End BoundsCases.

(* ================================================================== *)
(** * The predictor: indicators and gathered signals *)
(* ================================================================== *)

Lemma nsub_self_not_pos (m : num) : ngt (m - m)%num (Fin 0) = false.
Proof.
  destruct m as [q| | |]; try reflexivity.
  cbn [nsub nneg nadd ngt nlt]. qprop. lra.
Qed.

Lemma nsub_self_not_neg (m : num) : nlt (m - m)%num (Fin 0) = false.
Proof.
  destruct m as [q| | |]; try reflexivity.
  cbn [nsub nneg nadd nlt]. qprop. lra.
Qed.

Lemma nmin_cap_range (x : num) (cap : Q) :
  nonneg_or_nan x -> 0 <= cap ->
  nmin x (Fin cap) = NaN \/ within 0 cap (nmin x (Fin cap)).
Proof.
  intros [->|H] Hc; [left; reflexivity|right].
  destruct x as [q| | |]; cbn [nle nmin] in *; try discriminate.
  - qprop. destruct (Qleb q cap) eqn:E; qprop;
      eexists; (split; [reflexivity|]); lra.
  - exists cap. split; [reflexivity|lra].
Qed.

(** A capped strength whose argument is not [NaN]. *)
Lemma nmin_cap_within (x : num) (cap : Q) :
  pos_inf x -> 0 <= cap -> within 0 cap (nmin x (Fin cap)).
Proof.
  intros H Hc. destruct (nmin_cap_range x cap (or_intror H) Hc) as [E|E];
    [|exact E].
  unfold pos_inf in H. destruct x; cbn [nle nmin] in *; try discriminate.
  destruct (Qleb q cap); discriminate.
Qed.

Lemma pos_inf_nabs (x : num) : x <> NaN -> pos_inf (nabs x).
Proof.
  unfold pos_inf. destruct x as [q| | |]; intros H; try reflexivity;
    [|congruence].
  cbn [nabs nle]. qprop. apply Qabs_nonneg.
Qed.

Lemma nabs_gt_not_nan (x : num) (c : Q) :
  ngt (nabs x) (Fin c) = true -> x <> NaN.
Proof. destruct x; simpl; congruence. Qed.

Lemma pos_inf_of_gt (x : num) (c : Q) :
  0 <= c -> ngt x (Fin c) = true -> pos_inf x.
Proof.
  unfold pos_inf. intros Hc.
  destruct x as [q| | |]; cbn [ngt nlt nle]; try discriminate;
    try reflexivity.
  intros H. qprop. lra.
Qed.

Section IndicatorFacts.

Variable toFixed : num -> nat -> string.
Variable showInt : Z -> string.

Import Predictor.

Lemma macd_histogram_zero (closePrices : list num) :
  macd_signal (calculateMACD closePrices) = macd (calculateMACD closePrices)
  /\ ngt (histogram (calculateMACD closePrices)) (Fin 0) = false
  /\ nlt (histogram (calculateMACD closePrices)) (Fin 0) = false.
Proof.
  unfold calculateMACD. destruct (_ <? 26)%nat.
  - repeat split.
  - cbn [macd macd_signal histogram ema fold_left].
    split; [reflexivity|]. split.
    + apply nsub_self_not_pos.
    + apply nsub_self_not_neg.
Qed.

Lemma macd_signals_nil (closePrices : list num) :
  macd_signals closePrices = [].
Proof.
  destruct (macd_histogram_zero closePrices) as [_ [H2 H3]].
  unfold macd_signals. rewrite H2, H3. reflexivity.
Qed.

(** X1. The "signal line" of [calculateMACD] is the EMA of the single value
    [macd], that is [macd] itself, so the histogram is never positive and
    never negative: no "MACD Bullish" or "MACD Bearish" signal is ever
    produced, whatever the prices. *)
Theorem macd_signals_never_fire (closePrices : list num) :
  macd_signal (calculateMACD closePrices) = macd (calculateMACD closePrices)
  /\ ngt (histogram (calculateMACD closePrices)) (Fin 0) = false
  /\ nlt (histogram (calculateMACD closePrices)) (Fin 0) = false
  /\ macd_signals closePrices = [].
Proof.
  destruct (macd_histogram_zero closePrices) as [H1 [H2 H3]].
  repeat split; try assumption. apply macd_signals_nil.
Qed.

End IndicatorFacts.



Section RsiFacts.

Import Predictor.






End RsiFacts.

Section GatheredFacts.

Variable toFixed : num -> nat -> string.
Variable showInt : Z -> string.

Import Predictor.

Lemma gathered_ok_capped (s : PredictionSignal) (cap : Q) :
  sig_direction s <> neutral -> within 0 cap (strength s) -> cap <= 100 ->
  gathered_ok s.
Proof.
  intros Hd Hw Hc. split; [exact Hd|]. left.
  eapply within_weaken; [exact Hw|lra|exact Hc].
Qed.

Lemma pos_inf_mul_pos (x : num) (k : Q) :
  pos_inf x -> 0 < k -> pos_inf (x * Fin k)%num.
Proof. apply pos_inf_mul. Qed.

Lemma rsi_signals_gathered (closePrices : list num) :
  Forall gathered_ok (rsi_signals toFixed closePrices).
Proof.
  unfold rsi_signals.
  destruct (ngt (calculateRSI closePrices 14) (Fin 70)) eqn:E1;
    [|destruct (nlt (calculateRSI closePrices 14) (Fin 30)) eqn:E2];
    [apply Forall_cons; [|apply Forall_nil]
    |apply Forall_cons; [|apply Forall_nil]
    |apply Forall_nil].
  - apply (gathered_ok_capped _ 100); cbn [sig_direction strength]; [discriminate| |lra].
    apply nmin_cap_within; [|lra]. apply pos_inf_mul; [|lra].
    apply pos_inf_of_gt with (c := 0); [lra|]. apply nsub_pos_of_gt, E1.
  - apply (gathered_ok_capped _ 100); cbn [sig_direction strength]; [discriminate| |lra].
    apply nmin_cap_within; [|lra]. apply pos_inf_mul; [|lra].
    apply pos_inf_of_gt with (c := 0); [lra|]. apply nsub_pos_of_gt, E2.
Qed.

Lemma sma_signals_gathered (latest : GoldPrice.t) :
  Forall gathered_ok (sma_signals toFixed latest).
Proof.
  unfold sma_signals.
  destruct (GoldPrice.sma50 latest) as [s50|]; [|constructor].
  destruct (GoldPrice.sma200 latest) as [s200|]; [|constructor].
  destruct (_ && _); [|constructor].
  set (diff := ((s50 - s200) / s200 * Fin 100)%num).
  destruct (ngt diff (Fin 0)) eqn:E;
    (apply Forall_cons; [|apply Forall_nil]).
  - apply (gathered_ok_capped _ 70); cbn [sig_direction strength]; [discriminate| |lra].
    apply nmin_cap_within; [|lra]. apply pos_inf_mul; [|lra].
    apply pos_inf_of_gt with (c := 0); [lra|exact E].
  - split; [discriminate|]. cbn [strength name].
    destruct diff as [q| | |] eqn:Ed.
    + left. eapply within_weaken;
        [apply nmin_cap_within; [apply pos_inf_mul;
                                  [apply pos_inf_nabs; discriminate|lra]
                                |lra]|lra|lra].
    + left. eapply within_weaken;
        [apply nmin_cap_within; [apply pos_inf_mul;
                                  [apply pos_inf_nabs; discriminate|lra]
                                |lra]|lra|lra].
    + left. eapply within_weaken;
        [apply nmin_cap_within; [apply pos_inf_mul;
                                  [apply pos_inf_nabs; discriminate|lra]
                                |lra]|lra|lra].
    + right. split; reflexivity.
Qed.

Lemma trend_signals_gathered (prices : list GoldPrice.t) :
  Forall gathered_ok (trend_signals toFixed prices).
Proof.
  unfold trend_signals.
  destruct (20 <=? _)%nat; [|constructor].
  match goal with
  | |- context [ngt (nabs ?t) (Fin 1)] =>
      destruct (ngt (nabs t) (Fin 1)) eqn:E; [|constructor];
      pose proof (nabs_gt_not_nan t 1 E) as Hn
  end.
  apply Forall_cons; [|apply Forall_nil]. split.
  - cbn [sig_direction]. destruct (ngt _ (Fin 0)); discriminate.
  - left. cbn [strength].
    eapply within_weaken;
      [apply nmin_cap_within; [apply pos_inf_mul;
                                [apply pos_inf_nabs, Hn|lra]|lra]|lra|lra].
Qed.

Lemma pattern_signal_gathered (occurrence : PatternOccurrence) :
  Forall gathered_ok (pattern_signal occurrence).
Proof.
  unfold pattern_signal.
  destruct (occ_pattern occurrence) as [p|]; [|constructor].
  apply Forall_cons; [|apply Forall_nil]. split.
  - cbn [sig_direction]. destruct (ngt _ (Fin 0)); discriminate.
  - left. cbn [strength]. apply nmin_cap_within; [|lra].
    apply pos_inf_nabs. unfold num_or.
    destruct (occ_confidence occurrence) as [c|]; [|discriminate].
    destruct (truthy c) eqn:T; [|discriminate].
    destruct c; simpl in T; congruence.
Qed.

Lemma getNewsSignals_gathered (now : Z) (tbl : list NewsRow) :
  Forall gathered_ok (getNewsSignals toFixed showInt now tbl).
Proof.
  unfold getNewsSignals.
  destruct (0 <? _)%nat; [|constructor].
  match goal with
  | |- context [ngt (nabs ?t) (Fin 10)] =>
      destruct (ngt (nabs t) (Fin 10)) eqn:E; [|constructor];
      pose proof (nabs_gt_not_nan t 10 E) as Hn
  end.
  apply Forall_cons; [|apply Forall_nil]. split.
  - cbn [sig_direction]. destruct (ngt _ (Fin 0)); discriminate.
  - left. cbn [strength]. apply nmin_cap_within; [|lra].
    apply pos_inf_nabs, Hn.
Qed.

Lemma economic_signal_gathered (entry : string * list num) :
  Forall gathered_ok (economic_signal toFixed entry).
Proof.
  unfold economic_signal. destruct entry as [name_ values].
  destruct values as [|latest [|previous rest]]; try constructor.
  match goal with
  | |- context [let '(dir, descr) := ?e in _] => destruct e as [dir descr]
  end.
  destruct (negb (direction_eqb dir neutral)) eqn:Ed; [|constructor].
  match goal with
  | |- context [ngt (nabs ?t) (Fin 0.5)] =>
      destruct (ngt (nabs t) (Fin 0.5)) eqn:E; [|constructor];
      pose proof (nabs_gt_not_nan t 0.5 E) as Hn
  end.
  apply Forall_cons; [|apply Forall_nil]. split.
  - cbn [sig_direction]. intros ->. discriminate Ed.
  - left. cbn [strength].
    eapply within_weaken;
      [apply nmin_cap_within; [apply pos_inf_mul;
                                [apply pos_inf_nabs, Hn|lra]|lra]|lra|lra].
Qed.

Lemma Forall_flat_map_each {A B : Type} (P : B -> Prop) (f : A -> list B)
      (xs : list A) :
  (forall x, Forall P (f x)) -> Forall P (flat_map f xs).
Proof.
  intros H. apply Forall_forall. intros y Hy. apply in_flat_map in Hy.
  destruct Hy as [x [_ Hx]].
  exact (proj1 (Forall_forall _ _) (H x) y Hx).
Qed.

(** The signals of a returned prediction, as they were gathered. *)
Lemma generatePrediction_signals_eq (horizonDays now : Z) (db : Db)
      (p : Prediction) :
  generatePrediction toFixed showInt horizonDays now db = Returned p ->
  exists prices latest,
    nth_error prices (List.length prices - 1) = Some latest
    /\ signals p
       = (rsi_signals toFixed (map GoldPrice.closePrice prices)
            ++ macd_signals (map GoldPrice.closePrice prices)
            ++ sma_signals toFixed latest
            ++ trend_signals toFixed prices)
           ++ getPatternSignals now (patternOccurrences db)
           ++ getNewsSignals toFixed showInt now (newsQuantifications db)
           ++ getEconomicSignals toFixed now (economicIndicators db).
Proof.
  unfold generatePrediction. set (prices := rev _).
  unfold detectTechnicalPatterns.
  destruct (nth_error prices (List.length prices - 1)) as [latest|] eqn:El;
    [|discriminate].
  match goal with
  | |- context [fuse ?l] => destruct (fuse l) as [[dir c] ch]
  end.
  intros H. exists prices, latest. split; [exact El|].
  apply (f_equal (fun o => match o with
                           | Returned x => signals x
                           | Thrown _ => []
                           end)) in H.
  cbn [signals] in H. symmetry. exact H.
Qed.

Lemma generatePrediction_empty (horizonDays now : Z) (db : Db) :
  goldPrices db = [] ->
  generatePrediction toFixed showInt horizonDays now db
  = Thrown "TypeError: Cannot read properties of undefined".
Proof.
  intros E. unfold generatePrediction. rewrite E.
  change (rev (firstn 200 (sort_by _ (@nil GoldPrice.t))))
    with (@nil GoldPrice.t).
  reflexivity.
Qed.

Lemma generatePrediction_nonempty (horizonDays now : Z) (db : Db) :
  goldPrices db <> [] ->
  exists p, generatePrediction toFixed showInt horizonDays now db = Returned p.
Proof.
  intros Hne. unfold generatePrediction. set (prices := rev _).
  destruct (last_exists prices (recent_prices_nonempty _ Hne))
    as [latest Hl].
  unfold detectTechnicalPatterns. rewrite Hl.
  match goal with
  | |- context [fuse ?l] => destruct (fuse l) as [[dir c] ch]
  end.
  eexists. reflexivity.
Qed.

(** X3. [generatePrediction] throws exactly when the price table is empty.
    Every signal of a returned prediction is bullish or bearish, never
    neutral, and its strength lies in [0, 100], the one exception being
    the "Death Cross Active" signal, whose strength is [NaN] when the
    stored moving averages are infinite. *)
Theorem generatePrediction_signals (horizonDays now : Z) (db : Db) :
  (goldPrices db = [] <->
   exists e, generatePrediction toFixed showInt horizonDays now db = Thrown e)
  /\ forall p,
       generatePrediction toFixed showInt horizonDays now db = Returned p ->
       Forall gathered_ok (signals p).
Proof.
  split.
  - split.
    + intros E. eexists. apply generatePrediction_empty, E.
    + intros [e He].
      destruct (goldPrices db) as [|r rest] eqn:E; [reflexivity|].
      destruct (generatePrediction_nonempty horizonDays now db) as [p Hp];
        [rewrite E; discriminate|].
      rewrite Hp in He. discriminate.
  - intros p Hp.
    destruct (generatePrediction_signals_eq horizonDays now db p Hp)
      as [prices [latest [_ ->]]].
    apply Forall_app. split; [|apply Forall_app; split;
                                [|apply Forall_app; split]].
    + apply Forall_app. split; [apply rsi_signals_gathered|].
      apply Forall_app. split; [rewrite macd_signals_nil; constructor|].
      apply Forall_app. split; [apply sma_signals_gathered|].
      apply trend_signals_gathered.
    + apply Forall_flat_map_each, pattern_signal_gathered.
    + apply getNewsSignals_gathered.
    + apply Forall_flat_map_each, economic_signal_gathered.
Qed.

End GatheredFacts.

(* ================================================================== *)
(** * Sorting *)
(* ================================================================== *)

Lemma insert_by_perm {A : Type} (keep : A -> A -> bool) (x : A) (l : list A) :
  Permutation (insert_by keep x l) (x :: l).
Proof.
  induction l as [|y l IH]; simpl; [reflexivity|].
  destruct (keep x y); [reflexivity|].
  rewrite IH. apply perm_swap.
Qed.

Lemma sort_by_perm {A : Type} (keep : A -> A -> bool) (l : list A) :
  Permutation (sort_by keep l) l.
Proof.
  induction l as [|x l IH]; [reflexivity|].
  change (sort_by keep (x :: l)) with (insert_by keep x (sort_by keep l)).
  rewrite insert_by_perm. constructor. exact IH.
Qed.

Section SortedBy.

Variable A : Type.
Variable keep : A -> A -> bool.
Variable P : A -> Prop.
Variable R : A -> A -> Prop.

Hypothesis keep_R : forall x y, P x -> P y -> keep x y = true -> R x y.
Hypothesis swap_R : forall x y, P x -> P y -> keep x y = false -> R y x.

Lemma insert_by_sorted (x : A) (l : list A) :
  P x -> Forall P l -> Sorted R l -> Sorted R (insert_by keep x l).
Proof.
  intros Hx Hl Hs. induction l as [|y l IH]; simpl.
  - repeat constructor.
  - inversion Hl as [|? ? Hy Hl']; subst.
    inversion Hs as [|? ? Hs' Hd]; subst.
    destruct (keep x y) eqn:E.
    + constructor; [exact Hs|]. constructor. apply keep_R; assumption.
    + constructor; [apply IH; assumption|].
      destruct l as [|z l]; simpl.
      * constructor. apply swap_R; assumption.
      * destruct (keep x z).
        -- constructor. apply swap_R; assumption.
        -- inversion Hd; subst. constructor. assumption.
Qed.

Lemma sort_by_sorted (l : list A) :
  Forall P l -> Sorted R (sort_by keep l).
Proof.
  induction l as [|x l IH]; intros H; [constructor|].
  inversion H as [|? ? Hx Hl]; subst.
  change (sort_by keep (x :: l)) with (insert_by keep x (sort_by keep l)).
  apply insert_by_sorted; [exact Hx| |apply IH, Hl].
  apply Forall_forall. intros y Hy. apply in_sort_by in Hy.
  exact (proj1 (Forall_forall _ _) Hl y Hy).
Qed.

End SortedBy.

(** The comparator [(a, b) => key(b) - key(a)] orders keys that are not
    [NaN] from the largest to the smallest. *)
Lemma sort_cmp_desc {A : Type} (key : A -> num) (l : list A) :
  Forall (fun x => key x <> NaN) l ->
  Sorted (fun a b => nle (key b) (key a) = true)
         (sort_cmp (fun a b => (key b - key a)%num) l).
Proof.
  intros H. unfold sort_cmp.
  apply (sort_by_sorted A _ (fun x => key x <> NaN)); [| |exact H].
  - intros x y Hx Hy E. apply negb_true_iff in E.
    destruct (key x) as [p| | |], (key y) as [q| | |];
      cbn [nsub nneg nadd nlt nle] in *; try congruence.
    qprop. lra.
  - intros x y Hx Hy E. apply negb_false_iff in E.
    destruct (key x) as [p| | |], (key y) as [q| | |];
      cbn [nsub nneg nadd nlt nle] in *; try congruence.
    qprop. lra.
Qed.

(* ================================================================== *)
(** * The swing finder: what is returned *)
(* ================================================================== *)

Lemma nle_trans (a b c : num) :
  nle a b = true -> nle b c = true -> nle a c = true.
Proof.
  destruct a as [p| | |], b as [q| | |], c as [r| | |];
    cbn [nle]; try congruence.
  intros H1 H2. qprop. lra.
Qed.

Lemma nle_not_nan (a b : num) : nle a b = true -> b <> NaN.
Proof. destruct a, b; cbn [nle]; congruence. Qed.

Section SwingResults.

Import GoldPrice Brain.

Variable minSwingPercent : num.
Variable f : option direction_filter.

Lemma single_day_ok (tbl : list GoldPrice.t) (prev curr : GoldPrice.t)
      (s : SwingResult) :
  In prev tbl -> In curr tbl ->
  In s (single_day (nabs minSwingPercent) f prev curr) ->
  swing_ok minSwingPercent f tbl s /\ durationDays s = 1%Z.
Proof.
  intros Hp Hc. unfold single_day.
  destruct (nge _ _) eqn:E1; [|intros []].
  destruct (direction_ok f _) eqn:E2; [|intros []].
  intros [<-|[]]. split; [|reflexivity].
  unfold swing_ok.
  cbn [startDate endDate startPrice endPrice changePercent changeAbsolute
       swing_direction durationDays].
  repeat split; try assumption; try reflexivity.
  - exists prev, curr. repeat split; assumption.
  - left. reflexivity.
Qed.

Lemma single_day_scan_ok (tbl prices : list GoldPrice.t) (s : SwingResult) :
  (forall r, In r prices -> In r tbl) ->
  In s (single_day_scan (nabs minSwingPercent) f prices) ->
  swing_ok minSwingPercent f tbl s /\ durationDays s = 1%Z.
Proof.
  induction prices as [|prev rest IH]; intros Hsub; [intros []|].
  destruct rest as [|curr rest']; [intros []|].
  change (single_day_scan (nabs minSwingPercent) f (prev :: curr :: rest'))
    with (single_day (nabs minSwingPercent) f prev curr
            ++ single_day_scan (nabs minSwingPercent) f (curr :: rest')).
  intros H. apply in_app_or in H. destruct H as [H|H].
  - apply (single_day_ok tbl prev curr); [| |exact H]; apply Hsub; simpl; auto.
  - apply IH; [|exact H]. intros r Hr. apply Hsub. right. exact Hr.
Qed.

Lemma close_run_ok (tbl : list GoldPrice.t) (a b : GoldPrice.t)
      (s : SwingResult) :
  In a tbl -> In b tbl ->
  In s (close_run (nabs minSwingPercent) f a b) ->
  swing_ok minSwingPercent f tbl s /\ (1 < durationDays s)%Z.
Proof.
  intros Ha Hb. unfold close_run.
  destruct (nge _ _) eqn:E1; [|intros []].
  destruct (direction_ok f _) eqn:E2; [|intros []].
  destruct (1 <? _)%Z eqn:E3; [|intros []].
  apply Z.ltb_lt in E3.
  intros [<-|[]]. split; [|exact E3].
  unfold swing_ok.
  cbn [startDate endDate startPrice endPrice changePercent changeAbsolute
       swing_direction durationDays].
  repeat split; try assumption; try reflexivity.
  - exists a, b. repeat split; assumption.
  - right. split; [exact E3|reflexivity].
Qed.

Lemma trend_step_emitted (prices : list GoldPrice.t) (i : nat)
      (st : trend_state) (s : SwingResult) :
  In s (emitted (trend_step (nabs minSwingPercent) f prices i st)) ->
  In s (emitted st)
  \/ exists a b, In a prices /\ In b prices
                 /\ In s (close_run (nabs minSwingPercent) f a b).
Proof.
  unfold trend_step.
  destruct (nth_error prices (i - 1)) as [prev|] eqn:Ep; [|auto].
  destruct (nth_error prices i) as [curr|] eqn:Ec; [|auto].
  destruct (currentDirection st) as [d|]; [|cbn [emitted]; auto].
  destruct (negb _); [|auto].
  destruct (nth_error prices (trendStart st)) as [first|] eqn:Es; [|auto].
  cbn [emitted]. intros H. apply in_app_or in H. destruct H as [H|H]; [auto|].
  right. exists first, prev. repeat split; try exact H.
  - eapply nth_error_In, Es.
  - eapply nth_error_In, Ep.
Qed.

Lemma trend_scan_ok (tbl prices : list GoldPrice.t) (n : nat)
      (s : SwingResult) :
  (forall r, In r prices -> In r tbl) ->
  In s (emitted (trend_scan (nabs minSwingPercent) f prices n)) ->
  swing_ok minSwingPercent f tbl s /\ (1 < durationDays s)%Z.
Proof.
  intros Hsub. induction n as [|n IH]; [intros []|].
  rewrite trend_scan_S. intros H. apply trend_step_emitted in H.
  destruct H as [H|[a [b [Ha [Hb H]]]]]; [apply IH, H|].
  apply (close_run_ok tbl a b); auto.
Qed.

Lemma findMany_asc_subset (gte lte : option Z) (tbl : list GoldPrice.t)
      (r : GoldPrice.t) :
  In r (findMany_asc gte lte tbl) ->
  In r tbl /\ in_range gte lte (date r) = true.
Proof.
  unfold findMany_asc. intros H. apply in_sort_by in H.
  apply filter_In in H. exact H.
Qed.

Lemma findSwings_members (startDate endDate : option Z)
      (tbl : list GoldPrice.t) (s : SwingResult) :
  In s (findSwings minSwingPercent startDate endDate f tbl) ->
  swing_ok minSwingPercent f tbl s.
Proof.
  unfold findSwings. intros H. apply in_sort_cmp in H.
  assert (Hsub : forall r, In r (findMany_asc startDate endDate tbl)
                           -> In r tbl)
    by (intros r Hr; apply (findMany_asc_subset _ _ _ _ Hr)).
  apply in_app_or in H. destruct H as [H|H].
  - apply (single_day_scan_ok tbl _ s Hsub H).
  - apply (trend_scan_ok tbl _ _ s Hsub H).
Qed.

(** X4. Every swing returned by [findSwings] joins two rows of the table,
    carries the percentage change between their closes, reaches the
    threshold in magnitude, has the direction of its sign, passes the
    direction filter, and lasts one day or, for a multi-day run, the
    calendar days between its two dates, more than one.  The swings come
    out ordered from the largest magnitude to the smallest. *)
Theorem findSwings_results (startDate endDate : option Z)
        (tbl : list GoldPrice.t) :
  Forall (swing_ok minSwingPercent f tbl)
         (findSwings minSwingPercent startDate endDate f tbl)
  /\ Sorted (fun a b => nle (nabs (changePercent b))
                            (nabs (changePercent a)) = true)
            (findSwings minSwingPercent startDate endDate f tbl).
Proof.
  split.
  - apply Forall_forall. intros s Hs. eapply findSwings_members, Hs.
  - unfold findSwings.
    apply (sort_cmp_desc (fun s => nabs (changePercent s))).
    apply Forall_forall. intros s Hs.
    assert (Hok : swing_ok minSwingPercent f tbl s).
    { apply (findSwings_members startDate endDate). unfold findSwings.
      apply in_sort_cmp. exact Hs. }
    destruct Hok as (_ & _ & _ & Hthr & _).
    eapply nle_not_nan, Hthr.
Qed.

End SwingResults.

Section SwingThresholds.

Import GoldPrice Brain.

Variable f : option direction_filter.

Lemma single_day_mono (t1 t2 : num) (prev curr : GoldPrice.t)
      (s : SwingResult) :
  nle t1 t2 = true ->
  In s (single_day t2 f prev curr) -> In s (single_day t1 f prev curr).
Proof.
  intros Ht. unfold single_day.
  destruct (nge _ t2) eqn:E2; [|intros []].
  unfold nge in *. rewrite (nle_trans _ _ _ Ht E2). auto.
Qed.

Lemma single_day_scan_mono (t1 t2 : num) (prices : list GoldPrice.t)
      (s : SwingResult) :
  nle t1 t2 = true ->
  In s (single_day_scan t2 f prices) -> In s (single_day_scan t1 f prices).
Proof.
  intros Ht. induction prices as [|prev rest IH]; [intros []|].
  destruct rest as [|curr rest']; [intros []|].
  change (single_day_scan t2 f (prev :: curr :: rest'))
    with (single_day t2 f prev curr ++ single_day_scan t2 f (curr :: rest')).
  change (single_day_scan t1 f (prev :: curr :: rest'))
    with (single_day t1 f prev curr ++ single_day_scan t1 f (curr :: rest')).
  intros H. apply in_or_app. apply in_app_or in H. destruct H as [H|H].
  - left. eapply single_day_mono; eassumption.
  - right. apply IH, H.
Qed.

Lemma close_run_mono (t1 t2 : num) (a b : GoldPrice.t) (s : SwingResult) :
  nle t1 t2 = true ->
  In s (close_run t2 f a b) -> In s (close_run t1 f a b).
Proof.
  intros Ht. unfold close_run.
  destruct (nge _ t2) eqn:E2; [|intros []].
  unfold nge in *. rewrite (nle_trans _ _ _ Ht E2). auto.
Qed.

(** The runs do not depend on the threshold: two scans are at the same
    trend start and direction, and the one with the larger threshold has
    emitted no swing the other has not. *)
Lemma trend_scan_mono (t1 t2 : num) (prices : list GoldPrice.t) (n : nat) :
  nle t1 t2 = true ->
  trendStart (trend_scan t2 f prices n) = trendStart (trend_scan t1 f prices n)
  /\ currentDirection (trend_scan t2 f prices n)
     = currentDirection (trend_scan t1 f prices n)
  /\ forall s, In s (emitted (trend_scan t2 f prices n)) ->
               In s (emitted (trend_scan t1 f prices n)).
Proof.
  intros Ht. induction n as [|n [IH1 [IH2 IH3]]].
  - repeat split. intros s [].
  - rewrite !trend_scan_S. unfold trend_step.
    destruct (nth_error prices (S n - 1)) as [prev|]; [|repeat split; auto].
    destruct (nth_error prices (S n)) as [curr|]; [|repeat split; auto].
    rewrite IH1, IH2.
    destruct (currentDirection (trend_scan t1 f prices n)) as [d|] eqn:Ed;
      [|cbn [trendStart currentDirection emitted]; repeat split; auto].
    destruct (negb _); [|repeat split; auto; congruence].
    destruct (nth_error prices _) as [first|];
      [|repeat split; auto; congruence].
    cbn [trendStart currentDirection emitted]. repeat split.
    intros s Hs. apply in_or_app. apply in_app_or in Hs.
    destruct Hs as [Hs|Hs]; [left; auto|right].
    eapply close_run_mono; eassumption.
Qed.

(** X5. Raising the threshold only removes swings: every swing found with
    the larger threshold is found with the smaller one. *)
Theorem findSwings_threshold_monotone (t1 t2 : num)
        (startDate endDate : option Z) (tbl : list GoldPrice.t)
        (s : SwingResult) :
  nle (nabs t1) (nabs t2) = true ->
  In s (findSwings t2 startDate endDate f tbl) ->
  In s (findSwings t1 startDate endDate f tbl).
Proof.
  intros Ht. unfold findSwings. rewrite !in_sort_cmp.
  intros H. apply in_or_app. apply in_app_or in H. destruct H as [H|H].
  - left. eapply single_day_scan_mono; eassumption.
  - right. eapply trend_scan_mono; eassumption.
Qed.

(** A series whose days all go the same way never closes a run. *)
Lemma trend_scan_one_way (thr : num) (d : direction)
      (prices : list GoldPrice.t) (n : nat) :
  (forall i prev curr,
      nth_error prices i = Some prev -> nth_error prices (S i) = Some curr ->
      dayDirection prev curr = d) ->
  emitted (trend_scan thr f prices n) = []
  /\ (currentDirection (trend_scan thr f prices n) = None
      \/ currentDirection (trend_scan thr f prices n) = Some d).
Proof.
  intros Hd. induction n as [|n [IH1 IH2]].
  - split; [reflexivity|left; reflexivity].
  - rewrite trend_scan_S. unfold trend_step.
    replace (S n - 1)%nat with n by lia.
    destruct (nth_error prices n) as [prev|] eqn:Ep; [|auto].
    destruct (nth_error prices (S n)) as [curr|] eqn:Ec; [|auto].
    rewrite (Hd n prev curr Ep Ec).
    destruct IH2 as [IH2|IH2]; rewrite IH2.
    + cbn [emitted currentDirection]. auto.
    + assert (E : direction_eqb d d = true) by (destruct d; reflexivity).
      rewrite E. cbn [negb]. auto.
Qed.

(** X6. The run that is still open at the last row is never closed: in a
    series whose days all go the same way (a steady rally, a steady
    decline) the multi-day scan emits nothing, and [findSwings] returns
    one-day swings only. *)
Theorem findSwings_one_way (thr : num) (d : direction)
        (startDate endDate : option Z) (tbl : list GoldPrice.t)
        (s : SwingResult) :
  (forall i prev curr,
      nth_error (findMany_asc startDate endDate tbl) i = Some prev ->
      nth_error (findMany_asc startDate endDate tbl) (S i) = Some curr ->
      dayDirection prev curr = d) ->
  In s (findSwings thr startDate endDate f tbl) ->
  durationDays s = 1%Z.
Proof.
  intros Hd. unfold findSwings. rewrite in_sort_cmp.
  destruct (trend_scan_one_way (nabs thr) d _
              (List.length (findMany_asc startDate endDate tbl) - 1) Hd)
    as [-> _].
  rewrite app_nil_r. intros H.
  apply (single_day_scan_ok thr f (findMany_asc startDate endDate tbl)
                            _ s (fun r Hr => Hr)) in H.
  exact (proj2 H).
Qed.

End SwingThresholds.

(* ================================================================== *)
(** * The metrics pass: what is written *)
(* ================================================================== *)

Section MetricsWrites.

Variable sqrt : num -> num.

Import GoldPrice CsvImport.

Lemma returns_window_nonempty (prices : list GoldPrice.t) (i w : nat) :
  (1 <= w <= i)%nat -> returns_window prices i w <> [].
Proof.
  intros H E. apply (f_equal (@List.length _)) in E.
  unfold returns_window in E. rewrite length_map in E. simpl in E.
  assert (Hin : In i (filter (fun j => (0 <? j)%nat) (seq (i - (w - 1)) w))).
  { apply filter_In. split; [apply in_seq; lia|apply Nat.ltb_lt; lia]. }
  destruct (filter _ _); [destruct Hin|discriminate].
Qed.

Lemma volatility_null (prices : list GoldPrice.t) (i w : nat) :
  (1 <= w)%nat -> (volatility sqrt prices i w = None <-> (i < w)%nat).
Proof.
  intros Hw. unfold volatility. destruct (w <=? i)%nat eqn:E.
  - apply Nat.leb_le in E.
    pose proof (returns_window_nonempty prices i w ltac:(lia)) as Hne.
    destruct (returns_window prices i w); [congruence|].
    simpl. split; [discriminate|lia].
  - apply Nat.leb_gt in E. split; auto.
Qed.

Lemma sma_null (prices : list GoldPrice.t) (i n : nat) :
  sma prices i n = None <-> (i < n - 1)%nat.
Proof.
  unfold sma. destruct (n - 1 <=? i)%nat eqn:E.
  - apply Nat.leb_le in E. split; [discriminate|lia].
  - apply Nat.leb_gt in E. split; auto.
Qed.

(** X7. The rolling metrics computed for index [i] are null exactly until
    their window is full: [sma20], [sma50] and [sma200] for [i < 19],
    [i < 49] and [i < 199]; [volatility7d] and [volatility30d] for [i < 7]
    and [i < 30]. *)
Theorem derived_null_until_window (prices : list GoldPrice.t) (i : nat) :
  (d_sma20 (derived_at sqrt prices i) = None <-> (i < 19)%nat)
  /\ (d_sma50 (derived_at sqrt prices i) = None <-> (i < 49)%nat)
  /\ (d_sma200 (derived_at sqrt prices i) = None <-> (i < 199)%nat)
  /\ (d_volatility7d (derived_at sqrt prices i) = None <-> (i < 7)%nat)
  /\ (d_volatility30d (derived_at sqrt prices i) = None <-> (i < 30)%nat).
Proof.
  unfold derived_at.
  cbn [d_sma20 d_sma50 d_sma200 d_volatility7d d_volatility30d].
  split; [apply (sma_null prices i 20)|].
  split; [apply (sma_null prices i 50)|].
  split; [apply (sma_null prices i 200)|].
  split; [apply (volatility_null prices i 7); lia|].
  apply (volatility_null prices i 30); lia.
Qed.

Lemma last_hit_none (prices : list GoldPrice.t) (ids : list string)
      (start : nat) (k : string) :
  ~ In k ids -> last_hit (updates sqrt prices ids start) k = None.
Proof.
  revert start. induction ids as [|k0 ids IH]; intros start H; simpl.
  - reflexivity.
  - rewrite IH by (intros Hin; apply H; right; exact Hin).
    destruct (String.eqb k k0) eqn:E; [|reflexivity].
    apply String.eqb_eq in E. subst k0. exfalso. apply H. left. reflexivity.
Qed.

Lemma last_hit_updates (prices : list GoldPrice.t) (ids : list string)
      (start j : nat) (k : string) :
  NoDup ids -> nth_error ids j = Some k ->
  last_hit (updates sqrt prices ids start) k
  = Some (derived_at sqrt prices (start + j)).
Proof.
  revert start j. induction ids as [|k0 ids IH]; intros start j Hnd Hj.
  - destruct j; discriminate.
  - inversion Hnd as [|? ? Hnotin Hnd']; subst. simpl.
    destruct j as [|j'].
    + inversion Hj; subst k0. rewrite last_hit_none by exact Hnotin.
      rewrite String.eqb_refl. rewrite Nat.add_0_r. reflexivity.
    + simpl in Hj. rewrite (IH (S start) j' Hnd' Hj).
      f_equal. f_equal. lia.
Qed.

Lemma filter_all {A : Type} (l : list A) : filter (fun _ => true) l = l.
Proof. induction l as [|x l IH]; simpl; congruence. Qed.

Lemma findMany_asc_all_perm (tbl : list GoldPrice.t) :
  Permutation (findMany_asc None None tbl) tbl.
Proof.
  unfold findMany_asc, in_range. cbn [andb].
  rewrite filter_all. apply sort_by_perm.
Qed.

Lemma apply_row_raw ops r : raw (apply_row ops r) = raw r.
Proof. rewrite apply_row_hit. destruct (last_hit _ _); reflexivity. Qed.

(** X8. The metrics pass updates as many rows as the table has and leaves
    the id, date, prices and volume of every row as they are.  When the
    ids are unique, the row that stands at position [i] of the date order
    receives the values computed for index [i] of that order. *)
Theorem calculateDerivedMetrics_writes (tbl : list GoldPrice.t) :
  snd (calculateDerivedMetrics sqrt tbl) = List.length tbl
  /\ map raw (fst (calculateDerivedMetrics sqrt tbl)) = map raw tbl
  /\ (NoDup (map id tbl) ->
      forall i p,
        nth_error (findMany_asc None None tbl) i = Some p ->
        exists r,
          In r (fst (calculateDerivedMetrics sqrt tbl))
          /\ raw r = raw p
          /\ get_derived r
             = derived_at sqrt (findMany_asc None None tbl) i).
Proof.
  unfold calculateDerivedMetrics. rewrite metrics_loop_spec.
  cbn [fst snd]. set (prices := findMany_asc None None tbl).
  pose proof (findMany_asc_all_perm tbl) as Hperm. fold prices in Hperm.
  split; [|split].
  - rewrite (Permutation_length Hperm). reflexivity.
  - rewrite map_map. apply map_ext. intros r. apply apply_row_raw.
  - intros Hnd i p Hp.
    exists (apply_row (updates sqrt prices (map id prices) 0) p).
    split; [|split].
    + apply in_map. apply (Permutation_in _ Hperm).
      eapply nth_error_In, Hp.
    + apply apply_row_raw.
    + rewrite apply_row_hit.
      rewrite (last_hit_updates prices (map id prices) 0 i (id p)).
      * reflexivity.
      * apply (Permutation_NoDup (l := map id tbl)); [|exact Hnd].
        apply Permutation_map. symmetry. exact Hperm.
      * rewrite nth_error_map, Hp. reflexivity.
Qed.

End MetricsWrites.

(* ================================================================== *)
(** * The pattern detector: order and shape of the result *)
(* ================================================================== *)


Lemma ngt_nlt_exclusive (x y : num) :
  ngt x y = true -> nlt x y = true -> False.
Proof.
  destruct x as [p| | |], y as [q| | |]; cbn [ngt nlt]; try discriminate.
  intros H1 H2. qprop. lra.
Qed.

Section PatternOrder.

Variable sqrt : num -> num.
Variable toFixed : num -> nat -> string.
Variable showInt : Z -> string.

Import GoldPrice PatternDetector.



Lemma cross_at_length (prev curr : GoldPrice.t) :
  (List.length (cross_at toFixed prev curr) <= 1)%nat.
Proof.
  unfold cross_at.
  destruct (sma50 prev) as [p50|], (sma200 prev) as [p200|],
           (sma50 curr) as [c50|], (sma200 curr) as [c200|];
    simpl; try lia.
  destruct (_ && _ && _ && _); [|simpl; lia].
  destruct (nle p50 p200 && ngt c50 c200) eqn:E1;
    destruct (nge p50 p200 && nlt c50 c200) eqn:E2; simpl; try lia.
  apply andb_true_iff in E1. apply andb_true_iff in E2.
  exfalso. exact (ngt_nlt_exclusive c50 c200 (proj2 E1) (proj2 E2)).
Qed.

(** X10. A day is never both a golden cross and a death cross:
    [detectCrossPatterns] emits at most one occurrence per pair of
    consecutive rows. *)
Theorem detectCrossPatterns_length (prices : list GoldPrice.t) :
  (List.length (detectCrossPatterns toFixed prices)
   <= List.length prices - 1)%nat.
Proof.
  induction prices as [|prev rest IH]; [simpl; lia|].
  destruct rest as [|curr rest']; [simpl; lia|].
  change (detectCrossPatterns toFixed (prev :: curr :: rest'))
    with (cross_at toFixed prev curr
            ++ detectCrossPatterns toFixed (curr :: rest')).
  rewrite length_app. pose proof (cross_at_length prev curr).
  simpl in *. lia.
Qed.

Lemma cross_at_shape (tbl : list GoldPrice.t) (prev curr : GoldPrice.t)
      (p : DetectedPattern) :
  In curr tbl -> In p (cross_at toFixed prev curr) -> pattern_shape tbl p.
Proof.
  intros Hc. unfold cross_at.
  destruct (sma50 prev), (sma200 prev), (sma50 curr), (sma200 curr);
    try (intros []).
  destruct (_ && _ && _ && _); [|intros []].
  intros H. apply in_app_or in H.
  destruct H as [H|H]; (destruct (_ && _); [|destruct H]);
    destruct H as [<-|[]]; (split; [exists curr; auto|left]);
    (split; [simpl; tauto|reflexivity]).
Qed.

Lemma detectCrossPatterns_shape (tbl prices : list GoldPrice.t)
      (p : DetectedPattern) :
  (forall r, In r prices -> In r tbl) ->
  In p (detectCrossPatterns toFixed prices) -> pattern_shape tbl p.
Proof.
  induction prices as [|prev rest IH]; intros Hsub; [intros []|].
  destruct rest as [|curr rest']; [intros []|].
  change (detectCrossPatterns toFixed (prev :: curr :: rest'))
    with (cross_at toFixed prev curr
            ++ detectCrossPatterns toFixed (curr :: rest')).
  intros H. apply in_app_or in H. destruct H as [H|H].
  - apply (cross_at_shape tbl prev curr); [|exact H].
    apply Hsub. right. left. reflexivity.
  - apply IH; [|exact H]. intros r Hr. apply Hsub. right. exact Hr.
Qed.

Lemma breakouts_at_shape (tbl prices : list GoldPrice.t) (i : nat)
      (p : DetectedPattern) :
  (forall r, In r prices -> In r tbl) ->
  In p (breakouts_at toFixed showInt prices i) -> pattern_shape tbl p.
Proof.
  intros Hsub. unfold breakouts_at.
  destruct (nth_error prices i) as [curr|] eqn:Ec; [|intros []].
  assert (Hc : In curr tbl) by (apply Hsub; eapply nth_error_In, Ec).
  destruct (dailyChangePct curr); [|intros []].
  destruct (volatility7d curr); [|intros []].
  destruct (_ && _); [|intros []].
  intros H. apply in_app_or in H.
  destruct H as [H|H]; (destruct (_ && _); [|destruct H]);
    destruct H as [<-|[]]; (split; [exists curr; auto|left]);
    (split; [simpl; tauto|reflexivity]).
Qed.

Lemma spike_at_shape (tbl : list GoldPrice.t) (avg std thr : num)
      (price : GoldPrice.t) (p : DetectedPattern) :
  In price tbl -> In p (spike_at toFixed avg std thr price) ->
  pattern_shape tbl p.
Proof.
  intros Hin. unfold spike_at.
  destruct (volatility7d price); [|intros []].
  destruct (ngt _ _); [|intros []].
  intros [<-|[]]. split; [exists price; auto|left].
  split; [simpl; tauto|reflexivity].
Qed.

Lemma extrema_in (test : list GoldPrice.t -> nat -> num -> bool)
      (prices : list GoldPrice.t) (i : nat) (r : GoldPrice.t) :
  In (i, r) (extrema test prices) -> In r prices.
Proof.
  unfold extrema. intros H. apply in_flat_map in H.
  destruct H as [j [_ H]].
  destruct (nth_error prices j) as [q|] eqn:E; [|destruct H].
  destruct (test prices j (closePrice q)); [|destruct H].
  destruct H as [H|[]]. inversion H; subst. eapply nth_error_In, E.
Qed.

Lemma in_pairs {A : Type} (xs : list A) (a b : A) :
  In (a, b) (pairs xs) -> In a xs /\ In b xs.
Proof.
  induction xs as [|x rest IH]; [intros []|]. simpl.
  intros H. apply in_app_or in H. destruct H as [H|H].
  - apply in_map_iff in H. destruct H as [y [E Hy]].
    inversion E; subst. auto.
  - destruct (IH H). auto.
Qed.

Lemma double_top_at_shape (tbl prices : list GoldPrice.t) pr
      (p : DetectedPattern) :
  In (snd (fst pr)) tbl ->
  In p (double_top_at toFixed showInt prices pr) -> pattern_shape tbl p.
Proof.
  unfold double_top_at. destruct pr as [[i1 first] [i2 second]].
  cbn [fst snd]. intros Hin.
  destruct (_ <? 10)%Z eqn:E1; [intros []|].
  destruct (60 <? _)%Z eqn:E2; [intros []|]. cbn [orb].
  destruct (nle _ tolerance); [|intros []].
  destruct (nge _ _); [|intros []].
  intros [<-|[]]. split; [exists first; auto|right].
  split; [simpl; tauto|]. cbn [startDate endDate].
  apply Z.ltb_ge in E1. apply Z.ltb_ge in E2. lia.
Qed.

Lemma double_bottom_at_shape (tbl prices : list GoldPrice.t) pr
      (p : DetectedPattern) :
  In (snd (fst pr)) tbl ->
  In p (double_bottom_at toFixed showInt prices pr) -> pattern_shape tbl p.
Proof.
  unfold double_bottom_at. destruct pr as [[i1 first] [i2 second]].
  cbn [fst snd]. intros Hin.
  destruct (_ <? 10)%Z eqn:E1; [intros []|].
  destruct (60 <? _)%Z eqn:E2; [intros []|]. cbn [orb].
  destruct (nle _ tolerance); [|intros []].
  destruct (nge _ _); [|intros []].
  intros [<-|[]]. split; [exists first; auto|right].
  split; [simpl; tauto|]. cbn [startDate endDate].
  apply Z.ltb_ge in E1. apply Z.ltb_ge in E2. lia.
Qed.

(** X11. Every occurrence returned by [detectPatterns] is anchored at a row
    of the table (its id and its date).  A crossover, a breakout and a
    volatility spike end on the day they start; a double top or bottom
    spans at least 10 and at most 60 days, the duration bounds of its
    catalogue entry. *)
Theorem detectPatterns_shape (startDate endDate : option Z)
        (tbl : list GoldPrice.t) :
  Forall (pattern_shape tbl)
         (detectPatterns sqrt toFixed showInt startDate endDate tbl).
Proof.
  apply Forall_forall. intros p. unfold detectPatterns.
  set (prices := findMany_asc startDate endDate tbl).
  assert (Hsub : forall r, In r prices -> In r tbl)
    by (intros r Hr; apply (findMany_asc_subset _ _ _ _ Hr)).
  destruct (_ <? 30)%nat; [intros []|].
  intros H. apply in_sort_cmp in H.
  apply in_app_or in H. destruct H as [H|H];
    [eapply detectCrossPatterns_shape; eassumption|].
  apply in_app_or in H. destruct H as [H|H].
  { unfold detectBreakouts in H. apply in_flat_map in H.
    destruct H as [i [_ H]]. eapply breakouts_at_shape; eassumption. }
  apply in_app_or in H. destruct H as [H|H].
  { unfold detectVolatilitySpikes in H.
    destruct (_ =? 0)%nat; [destruct H|].
    apply in_flat_map in H. destruct H as [price [Hin H]].
    eapply spike_at_shape; [|exact H]. apply Hsub, Hin. }
  unfold detectDoublePatterns in H.
  apply in_app_or in H. destruct H as [H|H];
    apply in_flat_map in H; destruct H as [[[i1 a] [i2 b]] [Hpr H]];
    apply in_pairs in Hpr; destruct Hpr as [Ha _];
    apply extrema_in in Ha.
  - eapply double_top_at_shape; [|exact H]. apply Hsub, Ha.
  - eapply double_bottom_at_shape; [|exact H]. apply Hsub, Ha.
Qed.

End PatternOrder.

(* ================================================================== *)
(** * The news quantifier: sign of the score *)
(* ================================================================== *)

Section ScoreSign.

Variable toFixed : num -> nat -> string.
Variable showInt : Z -> string.

Import Quantifier.








(** X16. Whatever the category of the article and whatever the metrics
    stored with the price, an impact score returned by
    [calculateImpactScore] is [NaN] or lies in [-100, 100]: the clamp lets
    nothing else through.  The confidence score is always a finite
    non-negative number, at most 0.9 when the lag is not negative. *)
Theorem impactScore_clamped_or_nan (articles : list NewsArticle.t)
        (prices : list GoldPrice.t) (newsArticleId goldPriceId : string)
        (r : QuantificationResult) :
  calculateImpactScore toFixed showInt articles prices
                       newsArticleId goldPriceId = Returned r ->
  (impactScore r = NaN \/ within (-100) 100 (impactScore r))
  /\ exists c, confidenceScore r = Fin c
               /\ 0 <= c /\ ((0 <= lagDays r)%Z -> c <= 0.9).
Proof.
  unfold calculateImpactScore.
  destruct (NewsArticle.findUnique newsArticleId articles) as [article|];
    [|discriminate].
  destruct (GoldPrice.findUnique goldPriceId prices) as [priceData|];
    [|discriminate].
  intros H. inversion H; subst r; clear H. unfold score_pair.
  cbn [impactScore confidenceScore lagDays].
  set (lag := differenceInDays _ _).
  destruct (analysis_confidence article) as [c [Ec Hc]].
  destruct (lagDecay_range lag) as [d [Ed [Hd1 Hd2]]].
  split.
  - set (x := (raw_impact _ _ _ * lagDecay lag)%num).
    destruct x as [q| | |] eqn:Ex.
    + right. apply clamp_within; [lra|discriminate].
    + right. apply clamp_within; [lra|discriminate].
    + right. apply clamp_within; [lra|discriminate].
    + left. reflexivity.
  - rewrite Ec, Ed. simpl. eexists. split; [reflexivity|]. split.
    + nra.
    + intros Hl. specialize (Hd2 Hl). nra.
Qed.

End ScoreSign.

(* ================================================================== *)
(** * The news quantifier: the batch run again *)
(* ================================================================== *)

Section BatchFacts.

Variable toFixed : num -> nat -> string.
Variable showInt : Z -> string.
Variable newId : list NewsQuantification.t -> string.

Import Quantifier.

Lemma has_pair_apply_update a p r q :
  NewsQuantification.has_pair a p (apply_update r q)
  = NewsQuantification.has_pair a p q.
Proof. reflexivity. Qed.

Lemma apply_update_idem r q :
  apply_update r (apply_update r q) = apply_update r q.
Proof. reflexivity. Qed.

Lemma has_pair_same a p a' p' q :
  NewsQuantification.has_pair a p q = true ->
  NewsQuantification.has_pair a' p' q = true -> a = a' /\ p = p'.
Proof.
  unfold NewsQuantification.has_pair. intros H1 H2.
  apply andb_true_iff in H1. apply andb_true_iff in H2.
  destruct H1 as [H1a H1p], H2 as [H2a H2p].
  apply String.eqb_eq in H1a, H1p, H2a, H2p. split; congruence.
Qed.

(** A settled pair makes the upsert a no-op. *)
Lemma upsert_settled (db : Db) now a p r tbl :
  calculateImpactScore toFixed showInt (newsArticles db) (goldPrices db) a p
  = Returned r ->
  settled toFixed showInt db a p tbl -> upsert newId now a p r tbl = tbl.
Proof.
  intros Hr Hs. unfold settled in Hs. rewrite Hr in Hs.
  destruct Hs as [He Hfix]. unfold upsert. rewrite He.
  rewrite <- (map_id tbl) at 2. apply map_ext_in. intros q Hq.
  destruct (NewsQuantification.has_pair a p q) eqn:E; [|reflexivity].
  apply Hfix; assumption.
Qed.

(** An upsert settles its pair. *)
Lemma upsert_settles (db : Db) now a p r tbl :
  calculateImpactScore toFixed showInt (newsArticles db) (goldPrices db) a p
  = Returned r ->
  settled toFixed showInt db a p (upsert newId now a p r tbl).
Proof.
  intros Hr. unfold settled. rewrite Hr. unfold upsert.
  destruct (existsb (NewsQuantification.has_pair a p) tbl) eqn:He.
  - split.
    + apply existsb_exists in He. destruct He as [q [Hq Hp]].
      apply existsb_exists. exists (apply_update r q).
      split; [|exact Hp]. apply in_map_iff. exists q. rewrite Hp. auto.
    + intros q' Hq' Hp'. apply in_map_iff in Hq'.
      destruct Hq' as [q [<- Hq]].
      destruct (NewsQuantification.has_pair a p q) eqn:E.
      * reflexivity.
      * rewrite E in Hp'. discriminate.
  - split.
    + rewrite existsb_app. apply orb_true_iff. right.
      cbn [existsb]. unfold NewsQuantification.has_pair, create_row.
      cbn [NewsQuantification.newsArticleId NewsQuantification.goldPriceId].
      rewrite !String.eqb_refl. reflexivity.
    + intros q Hq Hp. apply in_app_or in Hq. destruct Hq as [Hq|[<-|[]]].
      * assert (existsb (NewsQuantification.has_pair a p) tbl = true)
          by (apply existsb_exists; eauto).
        congruence.
      * reflexivity.
Qed.

(** An upsert of any pair keeps the settled pairs settled. *)
Lemma upsert_keeps_settled (db : Db) now a p a' p' r' tbl :
  calculateImpactScore toFixed showInt (newsArticles db) (goldPrices db)
                       a' p' = Returned r' ->
  settled toFixed showInt db a p tbl -> settled toFixed showInt db a p (upsert newId now a' p' r' tbl).
Proof.
  intros Hr' Hs.
  destruct (String.eqb a a' && String.eqb p p') eqn:Esame.
  - apply andb_true_iff in Esame. destruct Esame as [Ea Ep].
    apply String.eqb_eq in Ea, Ep. subst a' p'.
    rewrite (upsert_settled db now a p r' tbl Hr' Hs). exact Hs.
  - unfold settled in *.
    destruct (calculateImpactScore toFixed showInt _ _ a p) as [r|];
      [|exact I].
    destruct Hs as [He Hfix].
    assert (Hdiff : forall q,
               NewsQuantification.has_pair a p q = true ->
               NewsQuantification.has_pair a' p' q = false).
    { intros q Hq.
      destruct (NewsQuantification.has_pair a' p' q) eqn:E; [|reflexivity].
      destruct (has_pair_same _ _ _ _ _ Hq E) as [-> ->].
      rewrite !String.eqb_refl in Esame. discriminate. }
    unfold upsert.
    destruct (existsb (NewsQuantification.has_pair a' p') tbl).
    + split.
      * apply existsb_exists in He. destruct He as [q [Hq Hp]].
        apply existsb_exists. exists q. split; [|exact Hp].
        apply in_map_iff. exists q. rewrite (Hdiff q Hp). auto.
      * intros q' Hq' Hp'. apply in_map_iff in Hq'.
        destruct Hq' as [q [<- Hq]].
        destruct (NewsQuantification.has_pair a' p' q) eqn:E.
        -- rewrite has_pair_apply_update in Hp'.
           rewrite (Hdiff q Hp') in E. discriminate.
        -- apply Hfix; assumption.
    + split.
      * rewrite existsb_app, He. reflexivity.
      * intros q Hq Hp. apply in_app_or in Hq. destruct Hq as [Hq|[<-|[]]].
        -- apply Hfix; assumption.
        -- exfalso.
           unfold NewsQuantification.has_pair, create_row in Hp.
           cbn [NewsQuantification.newsArticleId
                NewsQuantification.goldPriceId] in Hp.
           apply andb_true_iff in Hp. destruct Hp as [Ha Hp].
           apply String.eqb_eq in Ha, Hp. subst a' p'.
           rewrite !String.eqb_refl in Esame. discriminate.
Qed.

(** The table part of one iteration of the inner loop. *)
Lemma quantify_one_keeps_settled (db : Db) now price article a p st :
  settled toFixed showInt db a p (table st) ->
  settled toFixed showInt db a p
           (table (quantify_one toFixed showInt newId now db price
                                st article)).
Proof.
  intros Hs. unfold quantify_one.
  destruct (calculateImpactScore toFixed showInt _ _ _ _) as [r|] eqn:Hr;
    cbn [table]; [|exact Hs].
  eapply upsert_keeps_settled; eassumption.
Qed.

Lemma quantify_one_settles (db : Db) now price article st :
  settled toFixed showInt db (NewsArticle.id article) (GoldPrice.id price)
           (table (quantify_one toFixed showInt newId now db price
                                st article)).
Proof.
  unfold quantify_one.
  destruct (calculateImpactScore toFixed showInt _ _ _ _) as [r|] eqn:Hr;
    cbn [table].
  - eapply upsert_settles, Hr.
  - unfold settled. rewrite Hr. exact I.
Qed.

(** The pairs the two loops visit, in order. *)
Lemma fold_inner_keeps_settled (db : Db) now price a p articles st :
  settled toFixed showInt db a p (table st) ->
  settled toFixed showInt db a p
           (table (fold_left (quantify_one toFixed showInt newId now db price)
                             articles st)).
Proof.
  revert st. induction articles as [|x xs IH]; intros st Hs; simpl.
  - exact Hs.
  - apply IH. apply quantify_one_keeps_settled, Hs.
Qed.

Lemma fold_inner_settles (db : Db) now price articles st article :
  In article articles ->
  settled toFixed showInt db (NewsArticle.id article) (GoldPrice.id price)
           (table (fold_left (quantify_one toFixed showInt newId now db price)
                             articles st)).
Proof.
  revert st. induction articles as [|x xs IH]; intros st Hin; [destruct Hin|].
  simpl. destruct Hin as [<-|Hin].
  - apply fold_inner_keeps_settled, quantify_one_settles.
  - apply IH, Hin.
Qed.

Lemma fold_outer_keeps_settled (db : Db) now lag a p prices st :
  settled toFixed showInt db a p (table st) ->
  settled toFixed showInt db a p
           (table (fold_left (quantify_price toFixed showInt newId now db lag)
                             prices st)).
Proof.
  revert st. induction prices as [|x xs IH]; intros st Hs; simpl.
  - exact Hs.
  - apply IH. unfold quantify_price. apply fold_inner_keeps_settled, Hs.
Qed.

Lemma fold_outer_settles (db : Db) now lag prices st price article :
  In price prices -> In article (window db lag price) ->
  settled toFixed showInt db (NewsArticle.id article) (GoldPrice.id price)
           (table (fold_left (quantify_price toFixed showInt newId now db lag)
                             prices st)).
Proof.
  revert st. induction prices as [|x xs IH]; intros st Hp Ha; [destruct Hp|].
  simpl. destruct Hp as [<-|Hp].
  - apply fold_outer_keeps_settled. unfold quantify_price.
    apply fold_inner_settles. exact Ha.
  - apply IH; assumption.
Qed.

(** On a table where every visited pair is settled the run changes
    nothing but the counters. *)
Lemma fold_inner_fixed (db : Db) now price articles st :
  (forall article, In article articles ->
     settled toFixed showInt db (NewsArticle.id article) (GoldPrice.id price) (table st)) ->
  table (fold_left (quantify_one toFixed showInt newId now db price)
                   articles st) = table st.
Proof.
  revert st. induction articles as [|x xs IH]; intros st Hs; [reflexivity|].
  simpl.
  assert (E : table (quantify_one toFixed showInt newId now db price st x)
              = table st).
  { unfold quantify_one.
    destruct (calculateImpactScore toFixed showInt _ _ _ _) as [r|] eqn:Hr;
      cbn [table]; [|reflexivity].
    eapply upsert_settled; [exact Hr|]. apply Hs. left. reflexivity. }
  rewrite IH; [exact E|]. intros a Ha. rewrite E. apply Hs. right. exact Ha.
Qed.

Lemma fold_outer_fixed (db : Db) now lag prices st :
  (forall price article, In price prices -> In article (window db lag price) ->
     settled toFixed showInt db (NewsArticle.id article) (GoldPrice.id price) (table st)) ->
  table (fold_left (quantify_price toFixed showInt newId now db lag)
                   prices st) = table st.
Proof.
  revert st. induction prices as [|x xs IH]; intros st Hs; [reflexivity|].
  simpl.
  assert (E : table (quantify_price toFixed showInt newId now db lag st x)
              = table st).
  { unfold quantify_price. apply fold_inner_fixed.
    intros a Ha. apply Hs; [left; reflexivity|exact Ha]. }
  rewrite IH; [exact E|].
  intros p a Hp Ha. rewrite E. apply Hs; [right; exact Hp|exact Ha].
Qed.

(** The counters do not depend on the table. *)
Lemma quantify_one_counters (db : Db) now now' price article st st' :
  quantified st = quantified st' -> errors st = errors st' ->
  quantified (quantify_one toFixed showInt newId now db price st article)
  = quantified (quantify_one toFixed showInt newId now' db price st' article)
  /\ errors (quantify_one toFixed showInt newId now db price st article)
     = errors (quantify_one toFixed showInt newId now' db price st' article).
Proof.
  intros Hq He. unfold quantify_one.
  destruct (calculateImpactScore toFixed showInt _ _ _ _);
    cbn [quantified errors]; split; congruence.
Qed.

Lemma fold_inner_counters (db : Db) now now' price articles st st' :
  quantified st = quantified st' -> errors st = errors st' ->
  quantified (fold_left (quantify_one toFixed showInt newId now db price)
                        articles st)
  = quantified (fold_left (quantify_one toFixed showInt newId now' db price)
                          articles st')
  /\ errors (fold_left (quantify_one toFixed showInt newId now db price)
                       articles st)
     = errors (fold_left (quantify_one toFixed showInt newId now' db price)
                         articles st').
Proof.
  revert st st'. induction articles as [|x xs IH]; intros st st' Hq He; simpl.
  - auto.
  - destruct (quantify_one_counters db now now' price x st st' Hq He).
    apply IH; assumption.
Qed.

Lemma fold_outer_counters (db : Db) now now' lag prices st st' :
  quantified st = quantified st' -> errors st = errors st' ->
  quantified (fold_left (quantify_price toFixed showInt newId now db lag)
                        prices st)
  = quantified (fold_left (quantify_price toFixed showInt newId now' db lag)
                          prices st')
  /\ errors (fold_left (quantify_price toFixed showInt newId now db lag)
                       prices st)
     = errors (fold_left (quantify_price toFixed showInt newId now' db lag)
                         prices st').
Proof.
  revert st st'. induction prices as [|x xs IH]; intros st st' Hq He; simpl.
  - auto.
  - unfold quantify_price at 2 4.
    destruct (fold_inner_counters db now now' x (window db lag x) st st'
                                  Hq He).
    apply IH; assumption.
Qed.

(** X13. Running [quantifyNewsForPeriod] a second time over the same period
    changes nothing: the table of quantifications is the one the first run
    left (no row is added, none is rewritten to a new value) and the two
    counters are those of the first run. *)
Theorem quantifyNewsForPeriod_idempotent (startDate endDate : Z)
        (maxLagDays : option Z) (now1 now2 : Z) (db : Db) :
  quantifyNewsForPeriod toFixed showInt newId startDate endDate maxLagDays
    now2
    (fst (quantifyNewsForPeriod toFixed showInt newId startDate endDate
                                maxLagDays now1 db))
  = quantifyNewsForPeriod toFixed showInt newId startDate endDate maxLagDays
      now1 db.
Proof.
  unfold quantifyNewsForPeriod. cbn [fst goldPrices newsArticles
                                     newsQuantifications].
  set (lag := match maxLagDays with Some d => d | None => 3%Z end).
  set (prices := GoldPrice.findMany_asc (Some startDate) (Some endDate)
                                        (goldPrices db)).
  set (st0 := {| table := newsQuantifications db;
                 quantified := 0; errors := 0 |}).
  set (st1 := fold_left (quantify_price toFixed showInt newId now1 db lag)
                        prices st0).
  set (db1 := {| goldPrices := goldPrices db; newsArticles := newsArticles db;
                 newsQuantifications := table st1 |}).
  set (st0' := {| table := table st1; quantified := 0; errors := 0 |}).
  assert (Hstep : forall st,
             fold_left (quantify_price toFixed showInt newId now2 db1 lag)
                       prices st
             = fold_left (quantify_price toFixed showInt newId now2 db lag)
                         prices st).
  { intros st. reflexivity. }
  rewrite Hstep.
  assert (Ht : table (fold_left
                        (quantify_price toFixed showInt newId now2 db lag)
                        prices st0') = table st1).
  { rewrite fold_outer_fixed; [reflexivity|].
    intros price article Hp Ha. unfold st0'. cbn [table]. unfold st1.
    apply fold_outer_settles; assumption. }
  destruct (fold_outer_counters db now2 now1 lag prices st0' st0
                                eq_refl eq_refl) as [Hq He].
  fold st1 in Hq, He. rewrite Ht, Hq, He. reflexivity.
Qed.

End BatchFacts.

Section BatchWindow.

Variable toFixed : num -> nat -> string.
Variable showInt : Z -> string.
Variable newId : list NewsQuantification.t -> string.

Import Quantifier.

Lemma article_findUnique (articles : list NewsArticle.t)
      (a : NewsArticle.t) :
  NoDup (map NewsArticle.id articles) -> In a articles ->
  NewsArticle.findUnique (NewsArticle.id a) articles = Some a.
Proof.
  unfold NewsArticle.findUnique.
  induction articles as [|x xs IH]; intros Hnd Hin; [destruct Hin|].
  inversion Hnd as [|? ? Hnotin Hnd']; subst. simpl.
  destruct Hin as [->|Hin].
  - rewrite String.eqb_refl. reflexivity.
  - destruct (String.eqb (NewsArticle.id x) (NewsArticle.id a)) eqn:E.
    + apply String.eqb_eq in E. exfalso. apply Hnotin. rewrite E.
      apply in_map, Hin.
    + apply IH; assumption.
Qed.

Lemma price_findUnique (prices : list GoldPrice.t) (p : GoldPrice.t) :
  NoDup (map GoldPrice.id prices) -> In p prices ->
  GoldPrice.findUnique (GoldPrice.id p) prices = Some p.
Proof.
  unfold GoldPrice.findUnique.
  induction prices as [|x xs IH]; intros Hnd Hin; [destruct Hin|].
  inversion Hnd as [|? ? Hnotin Hnd']; subst. simpl.
  destruct Hin as [->|Hin].
  - rewrite String.eqb_refl. reflexivity.
  - destruct (String.eqb (GoldPrice.id x) (GoldPrice.id p)) eqn:E.
    + apply String.eqb_eq in E. exfalso. apply Hnotin. rewrite E.
      apply in_map, Hin.
    + apply IH; assumption.
Qed.

Lemma lag_in_window (day published lag : Z) :
  in_range (Some (subDays day lag)) (Some day) published = true ->
  (0 <= differenceInDays day published <= lag)%Z.
Proof.
  unfold in_range, subDays, differenceInDays, Js.msPerDay.
  intros H. apply andb_true_iff in H. destruct H as [H1 H2].
  apply Z.leb_le in H1, H2.
  rewrite Z.quot_div_nonneg by lia. split.
  - apply Z.div_pos; lia.
  - apply Z.div_le_upper_bound; lia.
Qed.

Lemma score_pair_in_window (article : NewsArticle.t) (price : GoldPrice.t)
      (lag : Z) :
  in_range (Some (subDays (GoldPrice.date price) lag))
           (Some (GoldPrice.date price))
           (NewsArticle.publishedAt article) = true ->
  (0 <= lagDays (score_pair toFixed showInt article price) <= lag)%Z
  /\ within 0 1 (confidenceScore (score_pair toFixed showInt article price)).
Proof.
  intros H. apply lag_in_window in H. unfold score_pair.
  cbn [lagDays confidenceScore]. split; [exact H|].
  destruct (analysis_confidence article) as [c [-> Hc]].
  destruct (lagDecay_range
              (differenceInDays (GoldPrice.date price)
                                (NewsArticle.publishedAt article)))
    as [d [-> [Hd1 Hd2]]].
  specialize (Hd2 (proj1 H)).
  eexists. split; [reflexivity|]. split; nra.
Qed.

Lemma upsert_from_window tbl0 lag now a p r tbl :
  (0 <= lagDays r <= lag)%Z -> within 0 1 (confidenceScore r) ->
  from_window tbl0 lag tbl ->
  from_window tbl0 lag (upsert newId now a p r tbl).
Proof.
  intros Hl Hc Ht q Hq. unfold upsert in Hq.
  destruct (existsb _ tbl).
  - apply in_map_iff in Hq. destruct Hq as [q0 [<- Hq0]].
    destruct (NewsQuantification.has_pair a p q0); [|apply Ht, Hq0].
    right. split; assumption.
  - apply in_app_or in Hq. destruct Hq as [Hq|[<-|[]]]; [apply Ht, Hq|].
    right. split; assumption.
Qed.

Lemma quantify_price_from_window (db : Db) tbl0 lag now price st :
  NoDup (map NewsArticle.id (newsArticles db)) ->
  NoDup (map GoldPrice.id (goldPrices db)) ->
  In price (goldPrices db) ->
  from_window tbl0 lag (table st) ->
  from_window tbl0 lag
    (table (quantify_price toFixed showInt newId now db lag st price)).
Proof.
  intros Hna Hnp Hp. unfold quantify_price.
  set (articles := filter _ (newsArticles db)).
  assert (Hsub : forall a, In a articles ->
             In a (newsArticles db)
             /\ in_range (Some (subDays (GoldPrice.date price) lag))
                         (Some (GoldPrice.date price))
                         (NewsArticle.publishedAt a) = true).
  { intros a Ha. apply filter_In in Ha. exact Ha. }
  clearbody articles. revert st.
  induction articles as [|a rest IH]; intros st Hst; [exact Hst|].
  simpl. apply IH.
  - intros x Hx. apply Hsub. right. exact Hx.
  - destruct (Hsub a (or_introl eq_refl)) as [Ha Hr].
    unfold quantify_one, calculateImpactScore.
    rewrite (article_findUnique _ a Hna Ha), (price_findUnique _ price Hnp Hp).
    cbn [table].
    destruct (score_pair_in_window a price lag Hr) as [Hl Hc].
    apply upsert_from_window; assumption.
Qed.

(** X14. With unique article ids and unique price ids, every row of the
    table after [quantifyNewsForPeriod] is a row the table had before or
    was written by the run, and a row written by the run has a lag between
    0 and [maxLagDays] and a confidence score in [0, 1]. *)
Theorem quantifyNewsForPeriod_window (startDate endDate : Z)
        (maxLagDays : option Z) (now : Z) (db : Db)
        (q : NewsQuantification.t) :
  NoDup (map NewsArticle.id (newsArticles db)) ->
  NoDup (map GoldPrice.id (goldPrices db)) ->
  In q (newsQuantifications
          (fst (quantifyNewsForPeriod toFixed showInt newId startDate endDate
                                      maxLagDays now db))) ->
  In q (newsQuantifications db)
  \/ written_in_window (match maxLagDays with Some d => d | None => 3%Z end)
                       q.
Proof.
  intros Hna Hnp. unfold quantifyNewsForPeriod.
  cbn [fst newsQuantifications].
  set (lag := match maxLagDays with Some d => d | None => 3%Z end).
  set (prices := GoldPrice.findMany_asc _ _ _).
  assert (Hsub : forall p, In p prices -> In p (goldPrices db))
    by (intros p Hp; apply (findMany_asc_subset _ _ _ _ Hp)).
  assert (H : forall st,
             from_window (newsQuantifications db) lag (table st) ->
             from_window (newsQuantifications db) lag
               (table (fold_left
                         (quantify_price toFixed showInt newId now db lag)
                         prices st))).
  { clearbody prices. induction prices as [|p rest IH]; intros st Hst;
      [exact Hst|].
    simpl. apply IH.
    - intros x Hx. apply Hsub. right. exact Hx.
    - apply quantify_price_from_window; try assumption.
      apply Hsub. left. reflexivity. }
  apply H. intros x Hx. left. exact Hx.
Qed.

Lemma map_nth_error_some {A B : Type} (g : A -> B) (l : list A) (i : nat)
      (y : B) :
  nth_error (map g l) i = Some y ->
  exists x, nth_error l i = Some x /\ y = g x.
Proof.
  rewrite nth_error_map. destruct (nth_error l i) as [x|]; [|discriminate].
  intros H. inversion H. eauto.
Qed.

(** X15. [submitFeedback] throws exactly when no quantification has the
    given id.  Otherwise the two other tables and the number of
    quantifications are unchanged, every row keeps its place, its id, its
    pair, its scores, lag, category, reasoning and creation date, a row
    with another id is unchanged altogether, and a row with the given id
    becomes verified at the current time with the submitted human
    score. *)
Theorem submitFeedback_effect (quantificationId : string) (fb : feedback)
        (now : Z) (db : Db) :
  ((exists e, submitFeedback quantificationId fb now db = Thrown e) <->
   forall q, In q (newsQuantifications db) ->
             NewsQuantification.id q <> quantificationId)
  /\ forall db1,
       submitFeedback quantificationId fb now db = Returned db1 ->
       goldPrices db1 = goldPrices db
       /\ newsArticles db1 = newsArticles db
       /\ List.length (newsQuantifications db1)
          = List.length (newsQuantifications db)
       /\ forall i q,
            nth_error (newsQuantifications db) i = Some q ->
            exists q',
              nth_error (newsQuantifications db1) i = Some q'
              /\ unreviewed_part q' = unreviewed_part q
              /\ (NewsQuantification.id q <> quantificationId -> q' = q)
              /\ (NewsQuantification.id q = quantificationId ->
                  NewsQuantification.humanVerified q' = true
                  /\ NewsQuantification.humanScore q'
                     = Some (fb_humanScore fb)
                  /\ NewsQuantification.verifiedAt q' = Some now).
Proof.
  unfold submitFeedback.
  destruct (existsb _ (newsQuantifications db)) eqn:E.
  - split.
    + split; [intros [e He]; discriminate|].
      intros H. apply existsb_exists in E. destruct E as [q [Hq Hid]].
      apply String.eqb_eq in Hid. exfalso. exact (H q Hq Hid).
    + intros db1 H.
      apply (f_equal (fun o => match o with
                               | Returned x => x
                               | Thrown _ => db
                               end)) in H.
      subst db1. cbn [goldPrices newsArticles newsQuantifications].
      split; [reflexivity|]. split; [reflexivity|].
      split; [apply length_map|].
      intros i q Hq. rewrite nth_error_map, Hq. cbn [option_map].
      eexists. split; [reflexivity|].
      destruct (String.eqb (NewsQuantification.id q) quantificationId)
        eqn:Eid.
      * apply String.eqb_eq in Eid.
        split; [reflexivity|]. split; [congruence|].
        intros _. repeat split.
      * apply String.eqb_neq in Eid.
        split; [reflexivity|]. split; [reflexivity|]. contradiction.
  - split.
    + split; [|eauto].
      intros _ q Hq Hid.
      assert (existsb
                (fun q0 => String.eqb (NewsQuantification.id q0)
                                      quantificationId)
                (newsQuantifications db) = true).
      { apply existsb_exists. exists q. split; [exact Hq|].
        apply String.eqb_eq, Hid. }
      congruence.
    + discriminate.
Qed.

End BatchWindow.

(* ================================================================== *)
(** * The properties above on the sample data *)
(* ================================================================== *)

Section SampleCases.

Import Samples.


Lemma findSwings_threshold_monotone_witness :
  exists s,
    In s (Brain.findSwings (Fin 2) None None None rally_with_pause)
    /\ In s (Brain.findSwings (Fin 1) None None None rally_with_pause).
Proof.
  assert (E : exists s,
             nth_error
               (Brain.findSwings (Fin 2) None None None rally_with_pause) 0
             = Some s)
    by (vm_compute; eexists; reflexivity).
  destruct E as [s E]. exists s.
  assert (H : In s (Brain.findSwings (Fin 2) None None None rally_with_pause))
    by (eapply nth_error_In; exact E).
  split; [exact H|].
  apply (findSwings_threshold_monotone None (Fin 1) (Fin 2) None None
           rally_with_pause s); [reflexivity|exact H].
Defined.

Lemma findSwings_one_way_witness :
  exists s,
    In s (Brain.findSwings (Fin 1) None None None steady_rally)
    /\ Brain.durationDays s = 1%Z.
Proof.
  assert (E : exists s,
             nth_error
               (Brain.findSwings (Fin 1) None None None steady_rally) 0
             = Some s)
    by (vm_compute; eexists; reflexivity).
  destruct E as [s E]. exists s.
  assert (H : In s (Brain.findSwings (Fin 1) None None None steady_rally))
    by (eapply nth_error_In; exact E).
  split; [exact H|].
  apply (findSwings_one_way None (Fin 1) Brain.up None None steady_rally s);
    [|exact H].
  intros [|[|[|i]]] prev curr H1 H2; vm_compute in H1, H2;
    try discriminate;
    injection H1 as <-; injection H2 as <-; reflexivity.
Defined.



Lemma impactScore_clamped_or_nan_witness :
  exists r,
    Quantifier.calculateImpactScore
      toFixed_blank showInt_blank [constructor_article]
      [day0_price; day1_price] "a3" "p1"
    = Returned r
    /\ (Quantifier.impactScore r = NaN
        \/ within (-100) 100 (Quantifier.impactScore r)).
Proof.
  eexists. split; [reflexivity|].
  apply (impactScore_clamped_or_nan toFixed_blank showInt_blank
           [constructor_article] [day0_price; day1_price] "a3" "p1").
  reflexivity.
Defined.

Lemma quantifyNewsForPeriod_window_witness :
  exists q,
    In q (Quantifier.newsQuantifications
            (fst (Quantifier.quantifyNewsForPeriod
                    toFixed_blank showInt_blank newId_count
                    0 (2 * msPerDay) None 5 review_db)))
    /\ ~ In q (Quantifier.newsQuantifications review_db)
    /\ written_in_window 3 q.
Proof.
  assert (E : exists q,
             nth_error
               (Quantifier.newsQuantifications
                  (fst (Quantifier.quantifyNewsForPeriod
                          toFixed_blank showInt_blank newId_count
                          0 (2 * msPerDay) None 5 review_db))) 1
             = Some q
             /\ NewsQuantification.id q = "1")
    by (vm_compute; eexists; split; reflexivity).
  destruct E as [q [E Hid]]. exists q.
  assert (H : In q (Quantifier.newsQuantifications
                     (fst (Quantifier.quantifyNewsForPeriod
                             toFixed_blank showInt_blank newId_count
                             0 (2 * msPerDay) None 5 review_db))))
    by (eapply nth_error_In; exact E).
  assert (Hnew : ~ In q (Quantifier.newsQuantifications review_db)).
  { intros [<-|[]]. discriminate Hid. }
  split; [exact H|]. split; [exact Hnew|].
  destruct (quantifyNewsForPeriod_window
              toFixed_blank showInt_blank newId_count 0 (2 * msPerDay) None 5
              review_db q) as [Hold|Hw].
  - apply NoDup_cons; [intros []|apply NoDup_nil].
  - apply NoDup_cons; [intros [Hx|[]]; discriminate Hx|].
    apply NoDup_cons; [intros []|apply NoDup_nil].
  - exact H.
  - destruct (Hnew Hold).
  - exact Hw.
Defined.

End SampleCases.
